(** * tox-bootstrapd: configuration loading, key management, bootstrap list
      processing and the daemon's life cycle

    A shallow embedding of [other/bootstrap_daemon/src/tox-bootstrapd.c].

    Conventions.
    - A C [int] is a [Z]; the conversion to [uint16_t] is written out as
      reduction modulo [2^16].
    - [write_log] calls and the system / toxcore calls whose order matters are
      recorded, in program order, as a list of [event]s.
    - The configuration file is read with libconfig, a third-party library.
      Its settings tree and the API calls the daemon makes are modelled in
      module [Libconfig], following the library's manual.
    - Constants that live in headers outside this file ([DAEMON_NAME],
      [MAX_MOTD_LENGTH], [crypto_box_PUBLICKEYBYTES], ...) and the toxcore
      functions are parameters of the sections that use them. *)

From Stdlib Require Import ZArith List String Ascii Bool Lia Arith.
Import ListNotations.

Set Warnings "-register-all".

Local Open Scope string_scope.
Local Open Scope list_scope.
Local Open Scope Z_scope.

(* ================================================================= *)
(** ** Logging and the event trace *)

Inductive LOG_LEVEL := LOG_LEVEL_INFO | LOG_LEVEL_WARNING | LOG_LEVEL_ERROR.

Inductive LOG_BACKEND := LOG_BACKEND_SYSLOG | LOG_BACKEND_STDOUT.

(** An argument of a printf-style format; [AHex] stands for bytes printed
    with [%02hhX] each. *)
Inductive arg :=
| AStr (s : string)
| AInt (z : Z)
| AHex (bytes : list Byte.byte).

(** What the process does that the outside can see. *)
Inductive event :=
| Log (lvl : LOG_LEVEL) (fmt : string) (args : list arg)  (* write_log *)
| NewNetworking (ipv6 : Z) (port : Z)                      (* new_networking *)
| Fork
| FprintfPid (pid : Z)                                     (* fprintf(pidf, "%d", pid) *)
| FclosePidFile                                           (* fclose(pid_file), line 668 *)
| FclosePidf                                              (* fclose(pidf) *)
| Umask (mask : Z)
| Setsid
| Chdir (path : string)
| Close (fd : Z)
| DHTBootstrapFromAddress (address : string) (ipv6 : Z) (port : Z) (public_key : list Byte.byte)
| LANdiscoveryInit
| DoDHT
| SendLANdiscovery (port : Z)
| DoTCPServer
| NetworkingPoll
| Sleep.

(** A computation that returns a value and appends events to the trace. *)
Definition W (A : Type) : Type := A * list event.

Definition ret {A} (a : A) : W A := (a, []).

Definition bind {A B} (m : W A) (f : A -> W B) : W B :=
  let '(a, t1) := m in
  let '(b, t2) := f a in
  (b, t1 ++ t2).

Definition emit (e : event) : W unit := (tt, [e]).

Definition write_log (lvl : LOG_LEVEL) (fmt : string) (args : list arg) : W unit :=
  emit (Log lvl fmt args).

Declare Scope w_scope.
Delimit Scope w_scope with w.
Notation "x <- m ;; k" := (bind m (fun x => k))
  (at level 61, m at next level, right associativity) : w_scope.
Notation "m ;;; k" := (bind m (fun _ => k))
  (at level 61, right associativity) : w_scope.
Local Open Scope w_scope.

Definition value {A} (m : W A) : A := fst m.
Definition trace {A} (m : W A) : list event := snd m.

Arguments bind {A B} m f : simpl never.

(* ================================================================= *)
(** ** C data *)

(** A pointer-valued variable: not yet assigned, NULL, or pointing to an
    allocated object. *)
Inductive ptr (A : Type) :=
| Indeterminate
| Null
| Heap (a : A).
Arguments Indeterminate {A}.
Arguments Null {A}.
Arguments Heap {A} a.

(** Conversion of an [int] to [uint16_t]. *)
Definition to_uint16 (v : Z) : Z := v mod 65536.

(** [b[i] = v] on an allocated array; a store past the end is not modelled
    (the callers never make one). *)
Fixpoint store {A} (b : list A) (i : nat) (v : A) : list A :=
  match b, i with
  | [], _ => []
  | _ :: b', O => v :: b'
  | x :: b', S i' => x :: store b' i' v
  end.

Definition NUL : ascii := Ascii.zero.

(** The characters of a buffer before its first NUL. *)
Fixpoint c_text (b : list ascii) : list ascii :=
  match b with
  | [] => []
  | c :: b' => if Ascii.eqb c NUL then [] else c :: c_text b'
  end.

(** The memory a [const char *] with the given text points to. *)
Definition c_str (s : string) : list ascii := list_ascii_of_string s ++ [NUL].

Definition strlen (b : list ascii) : nat := List.length (c_text b).

(** [strncpy(dst, src, n)] on a fresh [dst] of [n] bytes: the text of [src],
    then NULs, [n] bytes in all; no terminator when the text has [n] or more
    characters. *)
Definition strncpy (src : list ascii) (n : nat) : list ascii :=
  firstn n (c_text src ++ repeat NUL n).

(** [malloc(strlen(s) + 1); strcpy(...)]: a copy of the text of [s]. *)
Definition strcpy_new (s : string) : string :=
  string_of_list_ascii (c_text (c_str s)).

(* ================================================================= *)
(** ** libconfig *)

Module Libconfig.

(** A setting's value. Integer settings carry the [int] they hold; 64-bit
integer settings (written with the suffix L) are left out. *)
Inductive setting :=
| SInt (v : Z)
| SFloat
| SBool (b : bool)
| SString (s : string)
| SArray (elems : list setting)
| SList (elems : list setting)
| SGroup (members : list (string * setting)).

(** A parsed configuration: the members of its root group. *)
Definition config := list (string * setting).

Fixpoint get_member (members : list (string * setting)) (name : string)
  : option setting :=
  match members with
  | [] => None
  | (n, s) :: rest => if String.eqb n name then Some s else get_member rest name
  end.

(** [config_lookup]: the setting at a top-level name, [None] for NULL. *)
Definition config_lookup (cfg : config) (name : string) : option setting :=
  get_member cfg name.

(** The typed lookups return CONFIG_FALSE ([None]) when the setting is
    missing or holds a value of another type. *)
Definition config_lookup_int (cfg : config) (name : string) : option Z :=
  match config_lookup cfg name with
  | Some (SInt v) => Some v
  | _ => None
  end.

Definition config_lookup_bool (cfg : config) (name : string) : option Z :=
  match config_lookup cfg name with
  | Some (SBool b) => Some (if b then 1 else 0)
  | _ => None
  end.

Definition config_lookup_string (cfg : config) (name : string) : option string :=
  match config_lookup cfg name with
  | Some (SString s) => Some s
  | _ => None
  end.

Definition config_setting_is_array (s : setting) : bool :=
  match s with SArray _ => true | _ => false end.

Definition config_setting_is_number (s : setting) : bool :=
  match s with SInt _ | SFloat => true | _ => false end.

(** The children of an aggregate; a scalar has none. *)
Definition children (s : setting) : list setting :=
  match s with
  | SArray l | SList l => l
  | SGroup m => map snd m
  | _ => []
  end.

Definition config_setting_length (s : setting) : Z :=
  Z.of_nat (List.length (children s)).

Definition config_setting_get_elem (s : setting) (idx : nat) : option setting :=
  nth_error (children s) idx.

(** [config_setting_get_int]: 0 when the setting is not an integer (a float
    is not converted: [config_init] leaves auto-conversion off). *)
Definition config_setting_get_int (s : setting) : Z :=
  match s with SInt v => v | _ => 0 end.

(** Lookups inside a setting: only a group has members. *)
Definition config_setting_get_member (s : setting) (name : string)
  : option setting :=
  match s with
  | SGroup m => get_member m name
  | _ => None
  end.

Definition config_setting_lookup_string (s : setting) (name : string)
  : option string :=
  match config_setting_get_member s name with
  | Some (SString v) => Some v
  | _ => None
  end.

Definition config_setting_lookup_int (s : setting) (name : string) : option Z :=
  match config_setting_get_member s name with
  | Some (SInt v) => Some v
  | _ => None
  end.

Fixpoint remove_nth {A} (l : list A) (idx : nat) : list A :=
  match l, idx with
  | [], _ => []
  | _ :: rest, O => rest
  | x :: rest, S idx' => x :: remove_nth rest idx'
  end.

(** [config_setting_remove_elem]: the aggregate without its child number
    [idx]; nothing happens to a scalar or when [idx] is out of range. *)
Definition config_setting_remove_elem (s : setting) (idx : nat) : setting :=
  match s with
  | SArray l => SArray (remove_nth l idx)
  | SList l => SList (remove_nth l idx)
  | SGroup m => SGroup (remove_nth m idx)
  | other => other
  end.

End Libconfig.
Import Libconfig.

(* ================================================================= *)
(** ** Defaults and limits *)

Definition DEFAULT_PID_FILE_PATH : string := "tox-bootstrapd.pid".
Definition DEFAULT_KEYS_FILE_PATH : string := "tox-bootstrapd.keys".
Definition DEFAULT_PORT : Z := 33445.
Definition DEFAULT_ENABLE_IPV6 : Z := 1.
Definition DEFAULT_ENABLE_IPV4_FALLBACK : Z := 1.
Definition DEFAULT_ENABLE_LAN_DISCOVERY : Z := 1.
Definition DEFAULT_ENABLE_TCP_RELAY : Z := 1.
Definition DEFAULT_TCP_RELAY_PORTS : list Z := [443; 3389; 33445].
Definition DEFAULT_TCP_RELAY_PORTS_COUNT : nat := 3.
Definition DEFAULT_ENABLE_MOTD : Z := 1.

Definition MIN_ALLOWED_PORT : Z := 1.
Definition MAX_ALLOWED_PORT : Z := 65535.

(** The range test the source writes three times:
    [p < MIN_ALLOWED_PORT || p > MAX_ALLOWED_PORT]. *)
Definition port_out_of_range (p : Z) : bool :=
  (p <? MIN_ALLOWED_PORT) || (p >? MAX_ALLOWED_PORT).

Definition bool_str (v : Z) : string := if v =? 0 then "false" else "true".

(* ================================================================= *)
(** ** Configuration loader *)

(** The objects behind the out-parameters of [get_general_config]. *)
Record general_config := {
  pid_file_path : ptr string;
  keys_file_path : ptr string;
  port : Z;
  enable_ipv6 : Z;
  enable_ipv4_fallback : Z;
  enable_lan_discovery : Z;
  enable_tcp_relay : Z;
  tcp_relay_ports : ptr (list Z);
  tcp_relay_port_count : Z;
  enable_motd : Z;
  motd : ptr (list ascii)
}.

Definition NAME_TCP_RELAY_PORTS : string := "tcp_relay_ports".

(** Lines 147-149: the defaults are listed in the log. *)
Fixpoint log_default_ports (n : nat) (i : nat) (default_ports : list Z) : W unit :=
  match n with
  | O => ret tt
  | S n' =>
      write_log LOG_LEVEL_INFO "Port #%d: %u\n"
                [AInt (Z.of_nat i); AInt (nth i default_ports 0)] ;;;
      log_default_ports n' (S i) default_ports
  end.

(** Lines 154-166: [n] iterations are left, [i] is the loop index, [buf] the
    allocated array and [count] the value of [*tcp_relay_port_count]. *)
Fixpoint default_ports_loop (n : nat) (i : nat) (default_ports : list Z)
         (buf : list Z) (count : nat) : W (list Z * nat) :=
  match n with
  | O => ret (buf, count)
  | S n' =>
      let buf := store buf count (nth i default_ports 0) in
      if port_out_of_range (nth count buf 0) then
        write_log LOG_LEVEL_WARNING
                  "Port #%d: Invalid port: %u, should be in [%d, %d]. Skipping.\n"
                  [AInt (Z.of_nat i); AInt (nth count buf 0);
                   AInt MIN_ALLOWED_PORT; AInt MAX_ALLOWED_PORT] ;;;
        default_ports_loop n' (S i) default_ports buf count
      else
        default_ports_loop n' (S i) default_ports buf (S count)
  end.

(** Lines 196-220. The value read with [config_setting_get_int] is stored
    into a [uint16_t] slot before it is compared with the limits. *)
Fixpoint config_ports_loop (ports_array : setting) (n : nat) (i : nat)
         (buf : list Z) (count : nat) : W (list Z * nat) :=
  match n with
  | O => ret (buf, count)
  | S n' =>
      match config_setting_get_elem ports_array i with
      | None =>
          write_log LOG_LEVEL_WARNING
                    "Port #%d: Something went wrong while parsing the port. Stopping reading ports.\n"
                    [AInt (Z.of_nat i)] ;;;
          ret (buf, count)
      | Some elem =>
          if negb (config_setting_is_number elem) then
            write_log LOG_LEVEL_WARNING "Port #%d: Not a number. Skipping.\n"
                      [AInt (Z.of_nat i)] ;;;
            config_ports_loop ports_array n' (S i) buf count
          else
            let buf := store buf count (to_uint16 (config_setting_get_int elem)) in
            if port_out_of_range (nth count buf 0) then
              write_log LOG_LEVEL_WARNING
                        "Port #%d: Invalid port: %u, should be in [%d, %d]. Skipping.\n"
                        [AInt (Z.of_nat i); AInt (nth count buf 0);
                         AInt MIN_ALLOWED_PORT; AInt MAX_ALLOWED_PORT] ;;;
              config_ports_loop ports_array n' (S i) buf count
            else
              config_ports_loop ports_array n' (S i) buf (S count)
      end
  end.

(** Lines 168-174 and 222-228: shrink the array to the ports kept, or free it. *)
Definition shrink (buf : list Z) (count : nat) : ptr (list Z) :=
  if (0 <? count)%nat then Heap (firstn count buf) else Null.

(** [parse_tcp_relay_ports_config]. [tcp_relay_ports] is the value of
    [*tcp_relay_ports] at the call; the result is the pair of
    [*tcp_relay_ports] and [*tcp_relay_port_count] at the return. *)
Definition parse_tcp_relay_ports_config (cfg : config) (tcp_relay_ports : ptr (list Z))
  : W (ptr (list Z) * Z) :=
  match config_lookup cfg NAME_TCP_RELAY_PORTS with
  | None =>
      write_log LOG_LEVEL_WARNING "No '%s' setting in the configuration file.\n"
                [AStr NAME_TCP_RELAY_PORTS] ;;;
      write_log LOG_LEVEL_WARNING "Using default '%s':\n" [AStr NAME_TCP_RELAY_PORTS] ;;;
      let default_ports := DEFAULT_TCP_RELAY_PORTS in
      log_default_ports DEFAULT_TCP_RELAY_PORTS_COUNT 0 default_ports ;;;
      r <- default_ports_loop DEFAULT_TCP_RELAY_PORTS_COUNT 0 default_ports
             (repeat 0 DEFAULT_TCP_RELAY_PORTS_COUNT) 0 ;;
      ret (shrink (fst r) (snd r), Z.of_nat (snd r))
  | Some ports_array =>
      if negb (config_setting_is_array ports_array) then
        write_log LOG_LEVEL_ERROR
                  "'%s' setting should be an array. Array syntax: 'setting = [value1, value2, ...]'.\n"
                  [AStr NAME_TCP_RELAY_PORTS] ;;;
        ret (tcp_relay_ports, 0)
      else
        let config_port_count := config_setting_length ports_array in
        if config_port_count =? 0 then
          write_log LOG_LEVEL_ERROR "'%s' is empty.\n" [AStr NAME_TCP_RELAY_PORTS] ;;;
          ret (tcp_relay_ports, 0)
        else
          r <- config_ports_loop ports_array (Z.to_nat config_port_count) 0
                 (repeat 0 (Z.to_nat config_port_count)) 0 ;;
          ret (shrink (fst r) (snd r), Z.of_nat (snd r))
  end.

Definition NAME_PORT : string := "port".
Definition NAME_PID_FILE_PATH : string := "pid_file_path".
Definition NAME_KEYS_FILE_PATH : string := "keys_file_path".
Definition NAME_ENABLE_IPV6 : string := "enable_ipv6".
Definition NAME_ENABLE_IPV4_FALLBACK : string := "enable_ipv4_fallback".
Definition NAME_ENABLE_LAN_DISCOVERY : string := "enable_lan_discovery".
Definition NAME_ENABLE_TCP_RELAY : string := "enable_tcp_relay".
Definition NAME_ENABLE_MOTD : string := "enable_motd".
Definition NAME_MOTD : string := "motd".

(** The text of a libconfig parse error (file, line, message); the daemon
    only passes it on to the log. *)
Definition parse_error : Type := (string * Z * string)%type.

(** [config_lookup_string] with the fallback the source writes after it. *)
Definition lookup_string_or (cfg : config) (name default : string) : W string :=
  match config_lookup_string cfg name with
  | Some s => ret s
  | None =>
      write_log LOG_LEVEL_WARNING "No '%s' setting in configuration file.\n" [AStr name] ;;;
      write_log LOG_LEVEL_WARNING "Using default '%s': %s\n" [AStr name; AStr default] ;;;
      ret default
  end.

(** [config_lookup_bool] with the fallback the source writes after it. *)
Definition lookup_bool_or (cfg : config) (name : string) (default : Z) : W Z :=
  match config_lookup_bool cfg name with
  | Some b => ret b
  | None =>
      write_log LOG_LEVEL_WARNING "No '%s' setting in configuration file.\n" [AStr name] ;;;
      write_log LOG_LEVEL_WARNING "Using default '%s': %s\n"
                [AStr name; AStr (bool_str default)] ;;;
      ret default
  end.

(** Lines 376-381. *)
Fixpoint log_read_ports (n : nat) (i : nat) (ports : list Z) : W unit :=
  match n with
  | O => ret tt
  | S n' =>
      write_log LOG_LEVEL_INFO "Port #%d: %u\n"
                [AInt (Z.of_nat i); AInt (nth i ports 0)] ;;;
      log_read_ports n' (S i) ports
  end.

Definition deref {A} (p : ptr A) (dflt : A) : A :=
  match p with Heap a => a | _ => dflt end.

Section GeneralConfig.

(** From [global.h] and [bootstrap_node_packets.c]. *)
Variable DAEMON_NAME : string.
Variable MAX_MOTD_LENGTH : nat.

Definition DEFAULT_MOTD : string := DAEMON_NAME.

(** Lines 352-356: the copy of the MOTD text that [*motd] points to. The
    source computes [motd_length - 1] in [size_t]; [motd_length] is 0 only
    if [MAX_MOTD_LENGTH] is 0. *)
Definition copy_motd (tmp_motd : string) : list ascii :=
  let tmp_motd_length := (strlen (c_str tmp_motd) + 1)%nat in
  let motd_length :=
    if (MAX_MOTD_LENGTH <? tmp_motd_length)%nat then MAX_MOTD_LENGTH
    else tmp_motd_length in
  let m := strncpy (c_str tmp_motd) motd_length in
  store m (motd_length - 1) NUL.

(** [get_general_config]. [parsed] is the outcome of [config_read_file] on
    [cfg_file_path]; [o] holds the objects the out-parameters point to. The
    result is the return value and those objects at the return. *)
Definition get_general_config (parsed : parse_error + config) (o : general_config)
  : W (Z * general_config) :=
  match parsed with
  | inl (file, line, text) =>
      write_log LOG_LEVEL_ERROR "%s:%d - %s\n" [AStr file; AInt line; AStr text] ;;;
      ret (0, o)
  | inr cfg =>
      port' <- match config_lookup_int cfg NAME_PORT with
               | Some v => ret v
               | None =>
                   write_log LOG_LEVEL_WARNING "No '%s' setting in configuration file.\n"
                             [AStr NAME_PORT] ;;;
                   write_log LOG_LEVEL_WARNING "Using default '%s': %d\n"
                             [AStr NAME_PORT; AInt DEFAULT_PORT] ;;;
                   ret DEFAULT_PORT
               end ;;
      tmp_pid_file <- lookup_string_or cfg NAME_PID_FILE_PATH DEFAULT_PID_FILE_PATH ;;
      let pid_file_path' := strcpy_new tmp_pid_file in
      tmp_keys_file <- lookup_string_or cfg NAME_KEYS_FILE_PATH DEFAULT_KEYS_FILE_PATH ;;
      let keys_file_path' := strcpy_new tmp_keys_file in
      enable_ipv6' <- lookup_bool_or cfg NAME_ENABLE_IPV6 DEFAULT_ENABLE_IPV6 ;;
      enable_ipv4_fallback' <-
        lookup_bool_or cfg NAME_ENABLE_IPV4_FALLBACK DEFAULT_ENABLE_IPV4_FALLBACK ;;
      enable_lan_discovery' <-
        lookup_bool_or cfg NAME_ENABLE_LAN_DISCOVERY DEFAULT_ENABLE_LAN_DISCOVERY ;;
      enable_tcp_relay' <- lookup_bool_or cfg NAME_ENABLE_TCP_RELAY DEFAULT_ENABLE_TCP_RELAY ;;
      relay <- (if negb (enable_tcp_relay' =? 0) then
                  parse_tcp_relay_ports_config cfg (tcp_relay_ports o)
                else
                  ret (tcp_relay_ports o, 0)) ;;
      let tcp_relay_ports' := fst relay in
      let tcp_relay_port_count' := snd relay in
      enable_motd' <- lookup_bool_or cfg NAME_ENABLE_MOTD DEFAULT_ENABLE_MOTD ;;
      motd' <- (if negb (enable_motd' =? 0) then
                  tmp_motd <- lookup_string_or cfg NAME_MOTD DEFAULT_MOTD ;;
                  ret (Heap (copy_motd tmp_motd))
                else
                  ret (motd o)) ;;
      write_log LOG_LEVEL_INFO "Successfully read:\n" [] ;;;
      write_log LOG_LEVEL_INFO "'%s': %s\n" [AStr NAME_PID_FILE_PATH; AStr pid_file_path'] ;;;
      write_log LOG_LEVEL_INFO "'%s': %s\n" [AStr NAME_KEYS_FILE_PATH; AStr keys_file_path'] ;;;
      write_log LOG_LEVEL_INFO "'%s': %d\n" [AStr NAME_PORT; AInt port'] ;;;
      write_log LOG_LEVEL_INFO "'%s': %s\n"
                [AStr NAME_ENABLE_IPV6; AStr (bool_str enable_ipv6')] ;;;
      write_log LOG_LEVEL_INFO "'%s': %s\n"
                [AStr NAME_ENABLE_IPV4_FALLBACK; AStr (bool_str enable_ipv4_fallback')] ;;;
      write_log LOG_LEVEL_INFO "'%s': %s\n"
                [AStr NAME_ENABLE_LAN_DISCOVERY; AStr (bool_str enable_lan_discovery')] ;;;
      write_log LOG_LEVEL_INFO "'%s': %s\n"
                [AStr NAME_ENABLE_TCP_RELAY; AStr (bool_str enable_tcp_relay')] ;;;
      (if negb (enable_tcp_relay' =? 0) then
         if tcp_relay_port_count' =? 0 then
           write_log LOG_LEVEL_ERROR "No TCP ports could be read.\n" []
         else
           write_log LOG_LEVEL_INFO "Read %d TCP ports:\n" [AInt tcp_relay_port_count'] ;;;
           log_read_ports (Z.to_nat tcp_relay_port_count') 0 (deref tcp_relay_ports' [])
       else ret tt) ;;;
      write_log LOG_LEVEL_INFO "'%s': %s\n"
                [AStr NAME_ENABLE_MOTD; AStr (bool_str enable_motd')] ;;;
      (if negb (enable_motd' =? 0) then
         write_log LOG_LEVEL_INFO "'%s': %s\n"
                   [AStr NAME_MOTD;
                    AStr (string_of_list_ascii (c_text (deref motd' [])))]
       else ret tt) ;;;
      ret (1, {| pid_file_path := Heap pid_file_path';
                 keys_file_path := Heap keys_file_path';
                 port := port';
                 enable_ipv6 := enable_ipv6';
                 enable_ipv4_fallback := enable_ipv4_fallback';
                 enable_lan_discovery := enable_lan_discovery';
                 enable_tcp_relay := enable_tcp_relay';
                 tcp_relay_ports := tcp_relay_ports';
                 tcp_relay_port_count := tcp_relay_port_count';
                 enable_motd := enable_motd';
                 motd := motd' |})
  end.

End GeneralConfig.

(* ================================================================= *)
(** ** Key manager *)

(** The files the daemon can open for reading, with their contents. A path
    that maps to [None] makes [fopen(path, "r")] return NULL; the source
    makes no other test of whether a file exists (line 90), so a file that
    is there but cannot be read is not told apart from a missing one. *)
Definition filesystem : Type := string -> option (list Byte.byte).

Definition fs_put (fs : filesystem) (path : string) (content : list Byte.byte)
  : filesystem :=
  fun p => if String.eqb p path then Some content else fs p.

(** What the system answers when the key file is created: whether
    [fopen(path, "w")] succeeds, how many bytes [fwrite] reports as written
    (it writes into the buffer of the stream), and how many of the bytes
    handed to [fwrite] are in the file once [fclose] has flushed the buffer. *)
Record write_env := {
  fopen_w_ok : bool;
  fwrite_room : nat;
  fclose_stored : nat
}.

(** The two fields of toxcore's [DHT] that the daemon reads and writes. *)
Record DHT := {
  self_public_key : list Byte.byte;
  self_secret_key : list Byte.byte
}.

Section Keys.

(** From the NaCl headers. *)
Variable crypto_box_PUBLICKEYBYTES : nat.
Variable crypto_box_SECRETKEYBYTES : nat.

(** The key arrays of a [DHT] have their declared sizes. *)
Definition dht_wf (dht : DHT) : Prop :=
  List.length (self_public_key dht) = crypto_box_PUBLICKEYBYTES /\
  List.length (self_secret_key dht) = crypto_box_SECRETKEYBYTES.

(** [manage_keys]: the return value, the files and [*dht] at the return.
    [fread] delivers the first [KEYS_SIZE] bytes of the file, or all of
    it when it is shorter. On the writing side the return value follows
    what [fwrite] reported; what [fclose] returns is not looked at, so the
    file may hold fewer bytes than were reported. *)
Definition manage_keys (env : write_env) (fs : filesystem) (dht : DHT)
           (keys_file_path : string) : Z * filesystem * DHT :=
  let KEYS_SIZE := (crypto_box_PUBLICKEYBYTES + crypto_box_SECRETKEYBYTES)%nat in
  match fs keys_file_path with
  | Some content =>
      let keys := firstn KEYS_SIZE content in
      let read_size := List.length keys in
      if negb (read_size =? KEYS_SIZE)%nat then
        (0, fs, dht)
      else
        (1, fs,
         {| self_public_key := firstn crypto_box_PUBLICKEYBYTES keys;
            self_secret_key :=
              firstn crypto_box_SECRETKEYBYTES (skipn crypto_box_PUBLICKEYBYTES keys) |})
  | None =>
      let keys := firstn crypto_box_PUBLICKEYBYTES (self_public_key dht)
                  ++ firstn crypto_box_SECRETKEYBYTES (self_secret_key dht) in
      if negb (fopen_w_ok env) then
        (0, fs, dht)
      else
        let write_size := Nat.min (fwrite_room env) KEYS_SIZE in
        let stored := Nat.min write_size (fclose_stored env) in
        let fs' := fs_put fs keys_file_path (firstn stored keys) in
        if negb (write_size =? KEYS_SIZE)%nat then
          (0, fs', dht)
        else
          (1, fs', dht)
  end.

End Keys.

(* ================================================================= *)
(** ** Bootstrap list processor *)

Definition NAME_BOOTSTRAP_NODES : string := "bootstrap_nodes".
Definition NAME_PUBLIC_KEY : string := "public_key".
Definition NAME_ADDRESS : string := "address".

Section Bootstrap.

Variable crypto_box_PUBLICKEYBYTES : nat.

(** toxcore and libc: [hex_string_to_bin] (testing/misc_tools.c), [htons],
    and the answer of [DHT_bootstrap_from_address] for given arguments. *)
Variable hex_string_to_bin : string -> list Byte.byte.
Variable htons : Z -> Z.
Variable DHT_bootstrap_from_address : string -> Z -> Z -> list Byte.byte -> Z.

(** Lines 448-487: one entry, up to the label [next]. *)
Definition bootstrap_node (i : Z) (node : setting) (enable_ipv6 : Z) : W unit :=
  match config_setting_lookup_string node NAME_PUBLIC_KEY with
  | None =>
      write_log LOG_LEVEL_WARNING
                "Bootstrap node #%d: Couldn't find '%s' setting. Skipping the node.\n"
                [AInt i; AStr NAME_PUBLIC_KEY]
  | Some bs_public_key =>
      match config_setting_lookup_int node NAME_PORT with
      | None =>
          write_log LOG_LEVEL_WARNING
                    "Bootstrap node #%d: Couldn't find '%s' setting. Skipping the node.\n"
                    [AInt i; AStr NAME_PORT]
      | Some bs_port =>
          match config_setting_lookup_string node NAME_ADDRESS with
          | None =>
              write_log LOG_LEVEL_WARNING
                        "Bootstrap node #%d: Couldn't find '%s' setting. Skipping the node.\n"
                        [AInt i; AStr NAME_ADDRESS]
          | Some bs_address =>
              if negb (strlen (c_str bs_public_key) =? crypto_box_PUBLICKEYBYTES * 2)%nat then
                write_log LOG_LEVEL_WARNING
                          "Bootstrap node #%d: Invalid '%s': %s. Skipping the node.\n"
                          [AInt i; AStr NAME_PUBLIC_KEY; AStr bs_public_key]
              else if port_out_of_range bs_port then
                write_log LOG_LEVEL_WARNING
                          "Bootstrap node #%d: Invalid '%s': %d, should be in [%d, %d]. Skipping the node.\n"
                          [AInt i; AStr NAME_PORT; AInt bs_port;
                           AInt MIN_ALLOWED_PORT; AInt MAX_ALLOWED_PORT]
              else
                let bs_public_key_bin := hex_string_to_bin bs_public_key in
                emit (DHTBootstrapFromAddress bs_address enable_ipv6 (htons bs_port)
                                              bs_public_key_bin) ;;;
                let address_resolved :=
                  DHT_bootstrap_from_address bs_address enable_ipv6 (htons bs_port)
                                             bs_public_key_bin in
                if address_resolved =? 0 then
                  write_log LOG_LEVEL_WARNING
                            "Bootstrap node #%d: Invalid '%s': %s. Skipping the node.\n"
                            [AInt i; AStr NAME_ADDRESS; AStr bs_address]
                else
                  write_log LOG_LEVEL_INFO
                            "Successfully added bootstrap node #%d: %s:%d %s\n"
                            [AInt i; AStr bs_address; AInt bs_port; AStr bs_public_key]
          end
      end
  end.

(** Lines 439-499: the [while] loop and what follows it. [None] when the
    fuel runs out before the loop ends. *)
Fixpoint bootstrap_loop (fuel : nat) (node_list : setting) (i : Z) (enable_ipv6 : Z)
  : W (option Z) :=
  match fuel with
  | O => ret None
  | S fuel' =>
      if config_setting_length node_list =? 0 then
        ret (Some 1)
      else
        match config_setting_get_elem node_list 0 with
        | None => ret (Some 0)
        | Some node =>
            bootstrap_node i node enable_ipv6 ;;;
            bootstrap_loop fuel' (config_setting_remove_elem node_list 0) (i + 1) enable_ipv6
        end
  end.

(** [bootstrap_from_config]; [parsed] is the outcome of [config_read_file]. *)
Definition bootstrap_from_config (parsed : parse_error + config) (enable_ipv6 : Z)
  : W (option Z) :=
  match parsed with
  | inl (file, line, text) =>
      write_log LOG_LEVEL_ERROR "%s:%d - %s\n" [AStr file; AInt line; AStr text] ;;;
      ret (Some 0)
  | inr cfg =>
      match config_lookup cfg NAME_BOOTSTRAP_NODES with
      | None =>
          write_log LOG_LEVEL_WARNING
                    "No '%s' setting in the configuration file. Skipping bootstrapping.\n"
                    [AStr NAME_BOOTSTRAP_NODES] ;;;
          ret (Some 1)
      | Some node_list =>
          if config_setting_length node_list =? 0 then
            write_log LOG_LEVEL_WARNING
                      "No bootstrap nodes found. Skipping bootstrapping.\n" [] ;;;
            ret (Some 1)
          else
            bootstrap_loop (S (List.length (children node_list))) node_list 0 enable_ipv6
      end
  end.

End Bootstrap.

(* ================================================================= *)
(** ** The daemon: [main] from line 639 on *)

(** How a stage of [main] ends: control goes on to the next statement,
    [main] returns, or a bounded loop of the model ran out of fuel. *)
Inductive outcome (A : Type) :=
| Continue (a : A)
| Return (code : Z)
| NoFuel.
Arguments Continue {A} a.
Arguments Return {A} code.
Arguments NoFuel {A}.

Definition bindo {A B} (m : W (outcome A)) (f : A -> W (outcome B)) : W (outcome B) :=
  r <- m ;;
  match r with
  | Continue a => f a
  | Return code => ret (Return code)
  | NoFuel => ret NoFuel
  end.

Notation "x <-- m ;; k" := (bindo m (fun x => k))
  (at level 61, m at next level, right associativity) : w_scope.

(** The answers of the system and of toxcore to the calls [main] makes. The
    calls made on every turn of the main loop are indexed by the turn. *)
Record environment := {
  config_read_file : string -> parse_error + config;
  files : filesystem;
  keys_env : write_env;
  new_networking : Z -> Z -> bool;        (* IPv6 flag, port; [false] for NULL *)
  new_DHT : option DHT;
  new_onion : bool;
  new_onion_announce : bool;
  bootstrap_set_callbacks : list ascii -> nat -> Z;
  new_TCP_server : Z -> Z -> ptr (list Z) -> list Byte.byte -> bool;
  hex_string_to_bin : string -> list Byte.byte;
  htons : Z -> Z;
  DHT_bootstrap_from_address : string -> Z -> Z -> list Byte.byte -> Z;
  pidf_fopen : bool;                      (* fopen(pid_file_path, "a+") *)
  fork : Z;
  setsid : Z;
  chdir : Z;
  is_timeout : nat -> Z -> Z -> bool;
  unix_time : nat -> Z;
  DHT_isconnected : nat -> Z
}.

Record loop_state := {
  last_LANdiscovery : Z;
  waiting_for_dht_connection : Z
}.

Definition STDIN_FILENO : Z := 0.
Definition STDOUT_FILENO : Z := 1.
Definition STDERR_FILENO : Z := 2.

Definition is_stdout (b : LOG_BACKEND) : bool :=
  match b with LOG_BACKEND_STDOUT => true | LOG_BACKEND_SYSLOG => false end.

Section Main.

Variable DAEMON_NAME : string.
Variable MAX_MOTD_LENGTH : nat.
Variable crypto_box_PUBLICKEYBYTES : nat.
Variable crypto_box_SECRETKEYBYTES : nat.
Variable LAN_DISCOVERY_INTERVAL : Z.

Variable env : environment.

(** Lines 650-661: the general configuration and the listen port. *)
Definition main_config (cfg_file_path : string) (locals : general_config)
  : W (outcome general_config) :=
  r <- get_general_config DAEMON_NAME MAX_MOTD_LENGTH
         (config_read_file env cfg_file_path) locals ;;
  if negb (fst r =? 0) then
    write_log LOG_LEVEL_INFO "General config read successfully\n" [] ;;;
    let c := snd r in
    if port_out_of_range (port c) then
      write_log LOG_LEVEL_ERROR "Invalid port: %d, should be in [%d, %d]. Exiting.\n"
                [AInt (port c); AInt MIN_ALLOWED_PORT; AInt MAX_ALLOWED_PORT] ;;;
      ret (Return 1)
    else
      ret (Continue c)
  else
    write_log LOG_LEVEL_ERROR "Couldn't read config file: %s. Exiting.\n"
              [AStr cfg_file_path] ;;;
    ret (Return 1).

(** Lines 663-669. *)
Definition main_pid_file_check (pid_file_path : string) : W unit :=
  match files env pid_file_path with
  | Some _ =>
      write_log LOG_LEVEL_WARNING
                "Another instance of the daemon is already running, PID file %s exists.\n"
                [AStr pid_file_path] ;;;
      emit FclosePidFile
  | None => ret tt
  end.

(** Lines 671-691: the network core; the result is [enable_ipv6] as the
    later stages see it. *)
Definition main_networking (enable_ipv6 enable_ipv4_fallback port : Z)
  : W (outcome Z) :=
  emit (NewNetworking enable_ipv6 port) ;;;
  if new_networking env enable_ipv6 port then
    ret (Continue enable_ipv6)
  else if negb (enable_ipv6 =? 0) && negb (enable_ipv4_fallback =? 0) then
    write_log LOG_LEVEL_WARNING
              "Couldn't initialize IPv6 networking. Falling back to using IPv4.\n" [] ;;;
    let enable_ipv6 := 0 in
    emit (NewNetworking enable_ipv6 port) ;;;
    if new_networking env enable_ipv6 port then
      ret (Continue enable_ipv6)
    else
      write_log LOG_LEVEL_ERROR "Couldn't fallback to IPv4. Exiting.\n" [] ;;;
      ret (Return 1)
  else
    write_log LOG_LEVEL_ERROR "Couldn't initialize networking. Exiting.\n" [] ;;;
    ret (Return 1).

(** Lines 694-707. *)
Definition main_engine : W (outcome DHT) :=
  match new_DHT env with
  | None =>
      write_log LOG_LEVEL_ERROR "Couldn't initialize Tox DHT instance. Exiting.\n" [] ;;;
      ret (Return 1)
  | Some dht =>
      if negb (new_onion env && new_onion_announce env) then
        write_log LOG_LEVEL_ERROR "Couldn't initialize Tox Onion. Exiting.\n" [] ;;;
        ret (Return 1)
      else
        ret (Continue dht)
  end.

(** Lines 709-718. *)
Definition main_motd (enable_motd : Z) (motd : ptr (list ascii)) : W (outcome unit) :=
  if negb (enable_motd =? 0) then
    let m := deref motd [] in
    if bootstrap_set_callbacks env m (strlen m + 1) =? 0 then
      write_log LOG_LEVEL_INFO "Set MOTD successfully.\n" [] ;;;
      ret (Continue tt)
    else
      write_log LOG_LEVEL_ERROR "Couldn't set MOTD: %s. Exiting.\n"
                [AStr (string_of_list_ascii (c_text m))] ;;;
      ret (Return 1)
  else
    ret (Continue tt).

(** Lines 720-725. Nothing after this stage reads the key file, so the
    files as [manage_keys] leaves them are not passed on. *)
Definition main_keys (dht : DHT) (keys_file_path : string) : W (outcome DHT) :=
  let '(r, _, dht') :=
    manage_keys crypto_box_PUBLICKEYBYTES crypto_box_SECRETKEYBYTES
                (keys_env env) (files env) dht keys_file_path in
  if negb (r =? 0) then
    write_log LOG_LEVEL_INFO "Keys are managed successfully.\n" [] ;;;
    ret (Continue dht')
  else
    write_log LOG_LEVEL_ERROR "Couldn't read/write: %s. Exiting.\n" [AStr keys_file_path] ;;;
    ret (Return 1).

(** Lines 727-746. *)
Definition main_tcp_relay (c : general_config) (enable_ipv6 : Z) (dht : DHT)
  : W (outcome unit) :=
  if negb (enable_tcp_relay c =? 0) then
    if tcp_relay_port_count c =? 0 then
      write_log LOG_LEVEL_ERROR "No TCP relay ports read. Exiting.\n" [] ;;;
      ret (Return 1)
    else if new_TCP_server env enable_ipv6 (tcp_relay_port_count c) (tcp_relay_ports c)
                           (self_secret_key dht) then
      write_log LOG_LEVEL_INFO "Initialized Tox TCP server successfully.\n" [] ;;;
      ret (Continue tt)
    else
      write_log LOG_LEVEL_ERROR "Couldn't initialize Tox TCP server. Exiting.\n" [] ;;;
      ret (Return 1)
  else
    ret (Continue tt).

(** Lines 748-753. *)
Definition main_bootstrap (cfg_file_path : string) (enable_ipv6 : Z) : W (outcome unit) :=
  r <- bootstrap_from_config crypto_box_PUBLICKEYBYTES (hex_string_to_bin env) (htons env)
         (DHT_bootstrap_from_address env) (config_read_file env cfg_file_path) enable_ipv6 ;;
  match r with
  | None => ret NoFuel
  | Some v =>
      if negb (v =? 0) then
        write_log LOG_LEVEL_INFO "List of bootstrap nodes read successfully.\n" [] ;;;
        ret (Continue tt)
      else
        write_log LOG_LEVEL_ERROR "Couldn't read list of bootstrap nodes in %s. Exiting.\n"
                  [AStr cfg_file_path] ;;;
        ret (Return 1)
  end.

(** Line 755 and [print_public_key]. *)
Definition print_public_key (public_key : list Byte.byte) : W unit :=
  write_log LOG_LEVEL_INFO "Public Key: %s\n"
            [AHex (firstn crypto_box_PUBLICKEYBYTES public_key)].

(** Lines 757-805, as the process that called (or came out of) [fork]
    runs them: [fork env] is what [fork()] returned in this process. *)
Definition main_daemonize (pid_file_path : string) (log_backend : LOG_BACKEND)
  : W (outcome unit) :=
  if negb (pidf_fopen env) then
    write_log LOG_LEVEL_ERROR "Couldn't open the PID file for writing: %s. Exiting.\n"
              [AStr pid_file_path] ;;;
    ret (Return 1)
  else
    emit Fork ;;;
    let pid := fork env in
    if pid >? 0 then
      emit (FprintfPid pid) ;;;
      emit FclosePidf ;;;
      write_log LOG_LEVEL_INFO "Forked successfully: PID: %d.\n" [AInt pid] ;;;
      ret (Return 0)
    else
      emit FclosePidf ;;;
      if pid <? 0 then
        write_log LOG_LEVEL_ERROR "Forking failed. Exiting.\n" [] ;;;
        ret (Return 1)
      else
        emit (Umask 0) ;;;
        emit Setsid ;;;
        if setsid env <? 0 then
          write_log LOG_LEVEL_ERROR "SID creation failure. Exiting.\n" [] ;;;
          ret (Return 1)
        else
          emit (Chdir "/") ;;;
          if chdir env <? 0 then
            write_log LOG_LEVEL_ERROR
                      "Couldn't change working directory to '/'. Exiting.\n" [] ;;;
            ret (Return 1)
          else
            (if negb (is_stdout log_backend) then
               emit (Close STDOUT_FILENO) ;;;
               emit (Close STDIN_FILENO) ;;;
               emit (Close STDERR_FILENO)
             else ret tt) ;;;
            ret (Continue tt).

(** Lines 818-836: turn [k] of the [while (1)] loop. *)
Definition loop_body (enable_lan_discovery enable_tcp_relay htons_port : Z)
           (k : nat) (st : loop_state) : W loop_state :=
  emit DoDHT ;;;
  last <- (if negb (enable_lan_discovery =? 0)
              && is_timeout env k (last_LANdiscovery st) LAN_DISCOVERY_INTERVAL then
             emit (SendLANdiscovery htons_port) ;;;
             ret (unix_time env k)
           else
             ret (last_LANdiscovery st)) ;;
  (if negb (enable_tcp_relay =? 0) then emit DoTCPServer else ret tt) ;;;
  emit NetworkingPoll ;;;
  waiting <- (if negb (waiting_for_dht_connection st =? 0)
                 && negb (DHT_isconnected env k =? 0) then
                write_log LOG_LEVEL_INFO
                          "Connected to other bootstrap node successfully.\n" [] ;;;
                ret 0
              else
                ret (waiting_for_dht_connection st)) ;;
  emit Sleep ;;;
  ret {| last_LANdiscovery := last; waiting_for_dht_connection := waiting |}.

(** The first [n] turns of the loop, starting with turn [k]. *)
Fixpoint main_loop (enable_lan_discovery enable_tcp_relay htons_port : Z)
         (n : nat) (k : nat) (st : loop_state) : W loop_state :=
  match n with
  | O => ret st
  | S n' =>
      st' <- loop_body enable_lan_discovery enable_tcp_relay htons_port k st ;;
      main_loop enable_lan_discovery enable_tcp_relay htons_port n' (S k) st'
  end.

(** Lines 807-815: the state the loop starts in. *)
Definition loop_init (enable_lan_discovery : Z) : W loop_state :=
  (if negb (enable_lan_discovery =? 0) then
     emit LANdiscoveryInit ;;;
     write_log LOG_LEVEL_INFO "Initialized LAN discovery.\n" []
   else ret tt) ;;;
  ret {| last_LANdiscovery := 0; waiting_for_dht_connection := 1 |}.

(** [main] after the command line has been handled, observed for the first
    [n] turns of its loop: [Return code] when it returned, [Continue st]
    when it is still in the loop after [n] turns. *)
Definition main (cfg_file_path : string) (log_backend : LOG_BACKEND)
           (locals : general_config) (n : nat) : W (outcome loop_state) :=
  c <-- main_config cfg_file_path locals ;;
  let pid_file_path := deref (pid_file_path c) "" in
  let keys_file_path := deref (keys_file_path c) "" in
  main_pid_file_check pid_file_path ;;;
  enable_ipv6 <-- main_networking (enable_ipv6 c) (enable_ipv4_fallback c) (port c) ;;
  dht <-- main_engine ;;
  _ <-- main_motd (enable_motd c) (motd c) ;;
  dht <-- main_keys dht keys_file_path ;;
  _ <-- main_tcp_relay c enable_ipv6 dht ;;
  _ <-- main_bootstrap cfg_file_path enable_ipv6 ;;
  print_public_key (self_public_key dht) ;;;
  _ <-- main_daemonize pid_file_path log_backend ;;
  st <- loop_init (enable_lan_discovery c) ;;
  st' <- main_loop (enable_lan_discovery c) (enable_tcp_relay c) (htons env (port c)) n 0 st ;;
  ret (Continue st').

End Main.

(* ================================================================= *)
(** ** Definitions used to state the properties *)

(** The ports an array of settings contributes, as the loop of
    [parse_tcp_relay_ports_config] computes them: the numeric elements, each
    reduced to 16 bits, without those that are then 0. *)
Definition relay_ports_of (elems : list setting) : list Z :=
  filter (fun p => negb (port_out_of_range p))
         (map (fun e => to_uint16 (config_setting_get_int e))
              (filter config_setting_is_number elems)).

(** The value an option ends up with: the setting when it is there with the
    right type, the default otherwise. *)
Definition bool_setting (cfg : config) (name : string) (default : Z) : Z :=
  match config_lookup_bool cfg name with Some b => b | None => default end.

Definition string_setting (cfg : config) (name default : string) : string :=
  match config_lookup_string cfg name with Some s => s | None => default end.

Definition int_setting (cfg : config) (name : string) (default : Z) : Z :=
  match config_lookup_int cfg name with Some v => v | None => default end.

(** Why a bootstrap entry is skipped, and what becomes of an entry. *)
Inductive skip_reason :=
| MissingField (name : string)
| BadKeyLength (public_key : string)
| BadPort (port : Z)
| Unresolved (address : string).

Inductive entry_outcome :=
| Added (address : string) (port : Z) (public_key : string)
| Skipped (why : skip_reason).

Section BootstrapSpec.

Variable crypto_box_PUBLICKEYBYTES : nat.
Variable hex_string_to_bin : string -> list Byte.byte.
Variable htons : Z -> Z.
Variable DHT_bootstrap_from_address : string -> Z -> Z -> list Byte.byte -> Z.

(** The validation of one entry in the order the specification gives:
    the three fields are present; the key has twice as many characters as
    a public key has bytes; the port lies in [1, 65535]; the address
    resolves. *)
Definition validate_entry (node : setting) (enable_ipv6 : Z) : entry_outcome :=
  match config_setting_lookup_string node NAME_PUBLIC_KEY,
        config_setting_lookup_int node NAME_PORT,
        config_setting_lookup_string node NAME_ADDRESS with
  | None, _, _ => Skipped (MissingField NAME_PUBLIC_KEY)
  | Some _, None, _ => Skipped (MissingField NAME_PORT)
  | Some _, Some _, None => Skipped (MissingField NAME_ADDRESS)
  | Some public_key, Some port, Some address =>
      if negb (strlen (c_str public_key) =? 2 * crypto_box_PUBLICKEYBYTES)%nat then
        Skipped (BadKeyLength public_key)
      else if negb ((1 <=? port) && (port <=? 65535)) then
        Skipped (BadPort port)
      else if DHT_bootstrap_from_address address enable_ipv6 (htons port)
                                         (hex_string_to_bin public_key) =? 0 then
        Skipped (Unresolved address)
      else
        Added address port public_key
  end.

(** Whether the engine is asked to resolve the entry: only when the first
    three checks passed. *)
Definition resolution_call (node : setting) (enable_ipv6 : Z) : list event :=
  match config_setting_lookup_string node NAME_PUBLIC_KEY,
        config_setting_lookup_int node NAME_PORT,
        config_setting_lookup_string node NAME_ADDRESS with
  | Some public_key, Some port, Some address =>
      [DHTBootstrapFromAddress address enable_ipv6 (htons port)
                               (hex_string_to_bin public_key)]
  | _, _, _ => []
  end.

(** What entry number [i] leaves in the trace for a given outcome: the call
    of the engine when it was reached, then one line of the log. *)
Definition entry_report (i : Z) (node : setting) (enable_ipv6 : Z)
           (o : entry_outcome) : list event :=
  match o with
  | Skipped (MissingField name) =>
      [Log LOG_LEVEL_WARNING
           "Bootstrap node #%d: Couldn't find '%s' setting. Skipping the node.\n"
           [AInt i; AStr name]]
  | Skipped (BadKeyLength public_key) =>
      [Log LOG_LEVEL_WARNING
           "Bootstrap node #%d: Invalid '%s': %s. Skipping the node.\n"
           [AInt i; AStr NAME_PUBLIC_KEY; AStr public_key]]
  | Skipped (BadPort port) =>
      [Log LOG_LEVEL_WARNING
           "Bootstrap node #%d: Invalid '%s': %d, should be in [%d, %d]. Skipping the node.\n"
           [AInt i; AStr NAME_PORT; AInt port; AInt 1; AInt 65535]]
  | Skipped (Unresolved address) =>
      resolution_call node enable_ipv6 ++
      [Log LOG_LEVEL_WARNING
           "Bootstrap node #%d: Invalid '%s': %s. Skipping the node.\n"
           [AInt i; AStr NAME_ADDRESS; AStr address]]
  | Added address port public_key =>
      resolution_call node enable_ipv6 ++
      [Log LOG_LEVEL_INFO "Successfully added bootstrap node #%d: %s:%d %s\n"
           [AInt i; AStr address; AInt port; AStr public_key]]
  end.

(** The reports of the entries [nodes], numbered from [i] on. *)
Fixpoint entries_report (i : Z) (nodes : list setting) (enable_ipv6 : Z)
  : list event :=
  match nodes with
  | [] => []
  | node :: rest =>
      entry_report i node enable_ipv6 (validate_entry node enable_ipv6)
      ++ entries_report (i + 1) rest enable_ipv6
  end.

End BootstrapSpec.

(** The entries of the [bootstrap_nodes] setting, in the order of the file. *)
Definition bootstrap_nodes (cfg : config) : list setting :=
  match config_lookup cfg NAME_BOOTSTRAP_NODES with
  | Some node_list => children node_list
  | None => []
  end.

(** The line the main loop logs when it first sees a connection. *)
Definition connected_line : event :=
  Log LOG_LEVEL_INFO "Connected to other bootstrap node successfully.\n" [].

Definition is_connected_line (e : event) : bool :=
  match e with
  | Log LOG_LEVEL_INFO fmt [] =>
      String.eqb fmt "Connected to other bootstrap node successfully.\n"
  | _ => false
  end.

Definition connected_lines (t : list event) : nat :=
  List.length (filter is_connected_line t).

(** Some turn among [k], ..., [k + n - 1] finds the DHT connected. *)
Definition connected_within (env : environment) (k n : nat) : bool :=
  existsb (fun j => negb (DHT_isconnected env j =? 0)) (seq k n).

(** Whether turn [k] takes the state [st] from waiting to connected. *)
Definition connects (env : environment) (k : nat) (st : loop_state) : bool :=
  negb (waiting_for_dht_connection st =? 0) && negb (DHT_isconnected env k =? 0).

(** The [new_networking] calls in a trace. *)
Definition is_new_networking (e : event) : bool :=
  match e with NewNetworking _ _ => true | _ => false end.

Definition bind_attempts (t : list event) : list event :=
  filter is_new_networking t.

(** The state [main] enters its loop with. *)
Definition loop_start : loop_state :=
  {| last_LANdiscovery := 0; waiting_for_dht_connection := 1 |}.

(** "The connected line is logged exactly once in the run": from some turn
    on, the trace of the loop holds exactly one such line. *)
Definition logged_exactly_once (interval : Z) (env : environment)
           (enable_lan_discovery enable_tcp_relay htons_port : Z) : Prop :=
  exists N : nat, forall n : nat, (N <= n)%nat ->
    connected_lines
      (trace (main_loop interval env enable_lan_discovery enable_tcp_relay
                        htons_port n 0 loop_start)) = 1%nat.

(* ----------------------------------------------------------------- *)
(** *** Concrete inputs *)

(** The locals of [main] before [get_general_config] has run. *)
Definition unset_locals : general_config :=
  {| pid_file_path := Indeterminate;
     keys_file_path := Indeterminate;
     port := -1;
     enable_ipv6 := -1;
     enable_ipv4_fallback := -1;
     enable_lan_discovery := -1;
     enable_tcp_relay := -1;
     tcp_relay_ports := Indeterminate;
     tcp_relay_port_count := -1;
     enable_motd := -1;
     motd := Indeterminate |}.

(** [tcp_relay_ports = 443;] : present, not an array. *)
Definition cfg_relay_ports_scalar : config :=
  [("tcp_relay_ports", SInt 443)].

(** The same with the relay switched off. *)
Definition cfg_relay_off_ports_scalar : config :=
  [("enable_tcp_relay", SBool false); ("tcp_relay_ports", SInt 443)].

(** [tcp_relay_ports = [65537];] *)
Definition cfg_relay_port_65537 : config :=
  [("tcp_relay_ports", SArray [SInt 65537])].

(** [tcp_relay_ports = [0, 65536, 443];] *)
Definition cfg_relay_ports_edge : config :=
  [("tcp_relay_ports", SArray [SInt 0; SInt 65536; SInt 443])].

(** No [motd] setting, MOTD enabled by default. *)
Definition cfg_empty : config := [].

(** Three bootstrap entries: a key of the wrong length, a good entry, an
    entry without a port. *)
Definition good_key : string :=
  "F404ABAA1C99A9D37D61AB54898F56793E1DEF8BD46B1038B9D822E8460FAB67".

Definition cfg_three_nodes : config :=
  [("bootstrap_nodes",
    SList [SGroup [("address", SString "node.example.org"); ("port", SInt 33445);
                   ("public_key", SString "ABCD")];
           SGroup [("address", SString "198.51.100.7"); ("port", SInt 33445);
                   ("public_key", SString good_key)];
           SGroup [("address", SString "198.51.100.8");
                   ("public_key", SString good_key)]])].

Definition zero_key (n : nat) : list Byte.byte := repeat Byte.x00 n.

(** A key file one byte longer than a public and a secret key of 32 bytes. *)
Definition long_key_file : list Byte.byte := repeat Byte.x2a 65.

Definition fs_long_key_file : filesystem :=
  fun p => if String.eqb p "tox-bootstrapd.keys" then Some long_key_file else None.

(** A key file cut short by one byte. *)
Definition short_key_file : list Byte.byte := repeat Byte.x2a 63.

Definition fs_short_key_file : filesystem :=
  fun p => if String.eqb p "tox-bootstrapd.keys" then Some short_key_file else None.

Definition fs_empty : filesystem := fun _ => None.

Definition fresh_dht : DHT :=
  {| self_public_key := repeat Byte.x11 32; self_secret_key := repeat Byte.x22 32 |}.

Definition other_dht : DHT :=
  {| self_public_key := repeat Byte.x33 32; self_secret_key := repeat Byte.x44 32 |}.

Definition writable : write_env :=
  {| fopen_w_ok := true; fwrite_room := 4096; fclose_stored := 4096 |}.

(** An environment in which everything but the network core, the fork and
    the connection reports is fixed: the file parses to [cfg], there are no
    files yet, every other call succeeds, and no discovery is due. *)
Definition sample_env (cfg : config) (net : Z -> Z -> bool) (pid : Z)
           (connected : nat -> Z) : environment :=
  {| config_read_file := fun _ => inr cfg;
     files := fs_empty;
     keys_env := writable;
     new_networking := net;
     new_DHT := Some fresh_dht;
     new_onion := true;
     new_onion_announce := true;
     bootstrap_set_callbacks := fun _ _ => 0;
     new_TCP_server := fun _ _ _ _ => true;
     hex_string_to_bin := fun _ => [];
     htons := fun p => p;
     DHT_bootstrap_from_address := fun _ _ _ _ => 1;
     pidf_fopen := true;
     fork := pid;
     setsid := 0;
     chdir := 0;
     is_timeout := fun _ _ _ => false;
     unix_time := fun k => Z.of_nat k;
     DHT_isconnected := connected |}.

(** The child of the fork, with a DHT that never reports a connection. *)
Definition quiet_env : environment :=
  sample_env cfg_empty (fun _ _ => true) 0 (fun _ => 0).

(** The parent of the fork; the child has process id 4711. *)
Definition parent_env : environment :=
  sample_env cfg_empty (fun _ _ => true) 4711 (fun _ => 0).

(** Only the IPv4 socket can be created. *)
Definition ipv4_only_env : environment :=
  sample_env cfg_empty (fun ipv6 _ => ipv6 =? 0) 0 (fun _ => 0).

(** [fork] fails. *)
Definition fork_failed_env : environment :=
  sample_env cfg_empty (fun _ _ => true) (-1) (fun _ => 0).

(** No socket can be created. *)
Definition no_network_env : environment :=
  sample_env cfg_empty (fun _ _ => false) 0 (fun _ => 0).

(** The DHT reports a connection from turn 2 on. *)
Definition late_env : environment :=
  sample_env cfg_empty (fun _ _ => true) 0 (fun k => if (k <? 2)%nat then 0 else 1).

(** The configurations with a scalar [tcp_relay_ports]. *)
Definition relay_scalar_env : environment :=
  sample_env cfg_relay_ports_scalar (fun _ _ => true) 0 (fun _ => 0).

Definition relay_off_env : environment :=
  sample_env cfg_relay_off_ports_scalar (fun _ _ => true) 0 (fun _ => 0).

(** The configuration [main] works with when the file is empty. *)
Definition default_config : general_config :=
  snd (value (get_general_config "tox-bootstrapd" 256 (inr cfg_empty) unset_locals)).

(* ================================================================= *)
(** ** The command line, the printed public key *)

(** The buffer of [print_public_key] (lines 506-513). [sprintf] with
    [%02hhX] writes the two upper-case hexadecimal digits of a byte and a
    NUL, and returns 2. *)
Definition hex_digit (d : N) : ascii :=
  if (d <? 10)%N then ascii_of_N (48 + d) else ascii_of_N (55 + d).

Definition hex_pair (b : Byte.byte) : list ascii :=
  [hex_digit (Byte.to_N b / 16); hex_digit (Byte.to_N b mod 16)].

Definition sprintf_02hhX (b : Byte.byte) : list ascii := hex_pair b ++ [NUL].

(** [l] written into [b] from index [i] on. *)
Fixpoint write_at {A} (b : list A) (i : nat) (l : list A) : list A :=
  match l with
  | [] => b
  | x :: l' => write_at (store b i x) (S i) l'
  end.

(** The [for] loop: [n] turns are left, [i] is the loop index. *)
Fixpoint print_public_key_loop (n : nat) (i : nat) (public_key : list Byte.byte)
         (buffer : list ascii) (index : nat) : list ascii * nat :=
  match n with
  | O => (buffer, index)
  | S n' =>
      let out := sprintf_02hhX (nth i public_key Byte.x00) in
      print_public_key_loop n' (S i) public_key (write_at buffer index out)
                            (index + (List.length out - 1))
  end.

(** [buffer] when it is handed to [write_log]; it starts out with
    whatever the stack holds, here question marks. *)
Definition public_key_buffer (crypto_box_PUBLICKEYBYTES : nat)
           (public_key : list Byte.byte) : list ascii :=
  fst (print_public_key_loop crypto_box_PUBLICKEYBYTES 0 public_key
         (repeat "?"%char (2 * crypto_box_PUBLICKEYBYTES + 1)) 0).

Definition is_hex_digit (c : ascii) : bool :=
  let n := N_of_ascii c in
  ((48 <=? n) && (n <=? 57) || (65 <=? n) && (n <=? 70))%N.

(** What [getopt_long] returns for the option table of
    [handle_command_line_arguments] and the option string ":", before it
    returns -1; [arg] is [argv[optind-1]]. *)
Inductive getopt_result :=
| OptHelp                               (* 'h' *)
| OptConfig (optarg : string)           (* 'c' *)
| OptLogBackend (optarg : string)       (* 'l' *)
| OptVersion                            (* 'v' *)
| OptUnrecognized (arg : string)        (* '?' *)
| OptNoArgument (arg : string).         (* ':' *)

Definition help_text : string :=
  "Usage: tox-bootstrapd [OPTION]... --config=FILE_PATH\n"
  ++ "\n"
  ++ "Options:\n"
  ++ "  --config=FILE_PATH     Specify path to the config file.\n"
  ++ "                         This is a required option.\n"
  ++ "                         Set FILE_PATH to a path to an empty file in order to\n"
  ++ "                         use default settings.\n"
  ++ "  --help                 Print this help message.\n"
  ++ "  --log-backend=BACKEND  Specify which logging backend to use.\n"
  ++ "                         Valid BACKEND values (case sensetive):\n"
  ++ "                           syslog Writes log messages to syslog.\n"
  ++ "                                  Default option when no --log-backend is\n"
  ++ "                                  specified.\n"
  ++ "                           stdout Writes log messages to stdout/stderr.\n"
  ++ "  --version              Print version information.\n".

(** [print_help]. *)
Definition print_help : W unit :=
  write_log LOG_LEVEL_INFO help_text [].

(** The variables [handle_command_line_arguments] works on: the two objects
    behind its out-parameters and its two flags. *)
Record cli_state := {
  cli_cfg_file_path : ptr string;
  cli_log_backend : LOG_BACKEND;
  cfg_file_path_set : bool;
  log_backend_set : bool
}.

Section CommandLine.

Variable DAEMON_VERSION_NUMBER : Z.

(** Lines 570-610: the [while] loop over the results of [getopt_long].
    [exit(code)] ends the process like a return from [main]. *)
Fixpoint getopt_loop (opts : list getopt_result) (st : cli_state)
  : W (outcome cli_state) :=
  match opts with
  | [] => ret (Continue st)
  | opt :: rest =>
      match opt with
      | OptHelp =>
          print_help ;;;
          ret (Return 0)
      | OptConfig optarg =>
          getopt_loop rest {| cli_cfg_file_path := Heap optarg;
                              cli_log_backend := cli_log_backend st;
                              cfg_file_path_set := true;
                              log_backend_set := log_backend_set st |}
      | OptLogBackend optarg =>
          if String.eqb optarg "syslog" then
            getopt_loop rest {| cli_cfg_file_path := cli_cfg_file_path st;
                                cli_log_backend := LOG_BACKEND_SYSLOG;
                                cfg_file_path_set := cfg_file_path_set st;
                                log_backend_set := true |}
          else if String.eqb optarg "stdout" then
            getopt_loop rest {| cli_cfg_file_path := cli_cfg_file_path st;
                                cli_log_backend := LOG_BACKEND_STDOUT;
                                cfg_file_path_set := cfg_file_path_set st;
                                log_backend_set := true |}
          else
            write_log LOG_LEVEL_ERROR
                      "Error: Invalid BACKEND value for --log-backend option passed: %s\n\n"
                      [AStr optarg] ;;;
            print_help ;;;
            ret (Return 1)
      | OptVersion =>
          write_log LOG_LEVEL_INFO "Version: %lu\n" [AInt DAEMON_VERSION_NUMBER] ;;;
          ret (Return 0)
      | OptUnrecognized arg =>
          write_log LOG_LEVEL_ERROR "Error: Unrecognized option %s\n\n" [AStr arg] ;;;
          print_help ;;;
          ret (Return 1)
      | OptNoArgument arg =>
          write_log LOG_LEVEL_ERROR "Error: No argument provided for option %s\n\n"
                    [AStr arg] ;;;
          print_help ;;;
          ret (Return 1)
      end
  end.

(** [handle_command_line_arguments]. [opts] is what [getopt_long] finds in
    [argv]; [cfg_file_path] and [log_backend] are the objects behind the
    out-parameters at the call, the result holds them at the return. *)
Definition handle_command_line_arguments (argc : Z) (opts : list getopt_result)
           (cfg_file_path : ptr string) (log_backend : LOG_BACKEND)
  : W (outcome (ptr string * LOG_BACKEND)) :=
  if argc <? 2 then
    write_log LOG_LEVEL_ERROR "Error: No arguments provided.\n\n" [] ;;;
    print_help ;;;
    ret (Return 1)
  else
    st <-- getopt_loop opts {| cli_cfg_file_path := cfg_file_path;
                               cli_log_backend := log_backend;
                               cfg_file_path_set := false;
                               log_backend_set := false |} ;;
    let log_backend := if negb (log_backend_set st) then LOG_BACKEND_SYSLOG
                       else cli_log_backend st in
    if negb (cfg_file_path_set st) then
      write_log LOG_LEVEL_ERROR
                "Error: The required --config option wasn't specified\n\n" [] ;;;
      print_help ;;;
      ret (Return 1)
    else
      ret (Continue (cli_cfg_file_path st, log_backend)).

End CommandLine.

Section WholeMain.

Variable DAEMON_NAME : string.
Variable DAEMON_VERSION_NUMBER : Z.
Variable MAX_MOTD_LENGTH : nat.
Variable crypto_box_PUBLICKEYBYTES : nat.
Variable crypto_box_SECRETKEYBYTES : nat.
Variable LAN_DISCOVERY_INTERVAL : Z.

(** Line 637. *)
Definition running_line : event :=
  Log LOG_LEVEL_INFO
      ("Running " ++ String "034" ("%s" ++ String "034" " version %lu.\n"))
      [AStr DAEMON_NAME; AInt DAEMON_VERSION_NUMBER].

(** [main] from its first line. [isatty_stdout] is the answer of
    [isatty(STDOUT_FILENO)]. [open_log] and [close_log] choose where the
    lines of the log go; the trace holds the lines, not their destination. *)
Definition main_from_start (env : environment) (argc : Z) (opts : list getopt_result)
           (isatty_stdout : bool) (locals : general_config) (n : nat)
  : W (outcome loop_state) :=
  let log_backend := if isatty_stdout then LOG_BACKEND_STDOUT else LOG_BACKEND_SYSLOG in
  a <-- handle_command_line_arguments DAEMON_VERSION_NUMBER argc opts
          Indeterminate log_backend ;;
  emit running_line ;;;
  main DAEMON_NAME MAX_MOTD_LENGTH crypto_box_PUBLICKEYBYTES crypto_box_SECRETKEYBYTES
       LAN_DISCOVERY_INTERVAL env (deref (fst a) "") (snd a) locals n.

End WholeMain.

(* ----------------------------------------------------------------- *)
(** *** More definitions used to state properties *)

(** The option that ends the process, if there is one, with the status it
    ends with: the first [--help], [--version], unknown option, option
    without its argument or [--log-backend] with an unknown value. *)
Definition stops (opt : getopt_result) : option Z :=
  match opt with
  | OptHelp | OptVersion => Some 0
  | OptUnrecognized _ | OptNoArgument _ => Some 1
  | OptLogBackend b =>
      if String.eqb b "syslog" || String.eqb b "stdout" then None else Some 1
  | OptConfig _ => None
  end.

Fixpoint first_stop (opts : list getopt_result) : option Z :=
  match opts with
  | [] => None
  | opt :: rest =>
      match stops opt with
      | Some code => Some code
      | None => first_stop rest
      end
  end.

(** The argument of the last [--config], if there is one. *)
Fixpoint last_config (opts : list getopt_result) : option string :=
  match opts with
  | [] => None
  | opt :: rest =>
      match last_config rest, opt with
      | Some p, _ => Some p
      | None, OptConfig p => Some p
      | None, _ => None
      end
  end.

(** The backend of the last [--log-backend=syslog|stdout], if there is one. *)
Fixpoint last_backend (opts : list getopt_result) : option LOG_BACKEND :=
  match opts with
  | [] => None
  | opt :: rest =>
      match last_backend rest, opt with
      | Some b, _ => Some b
      | None, OptLogBackend b =>
          if String.eqb b "syslog" then Some LOG_BACKEND_SYSLOG
          else if String.eqb b "stdout" then Some LOG_BACKEND_STDOUT
          else None
      | None, _ => None
      end
  end.

Definition is_log (e : event) : bool :=
  match e with Log _ _ _ => true | _ => false end.

Definition is_warning (e : event) : bool :=
  match e with Log LOG_LEVEL_WARNING _ _ => true | _ => false end.

Definition is_engine_call (e : event) : bool :=
  match e with DHTBootstrapFromAddress _ _ _ _ => true | _ => false end.

Definition is_fork (e : event) : bool :=
  match e with Fork => true | _ => false end.

(** The calls of the daemonization (lines 769-805): the fork, the write to
    and the close of [pidf], and what the child does to its file mode mask,
    session, directory and standard descriptors. *)
Definition is_process_call (e : event) : bool :=
  match e with
  | Fork | FprintfPid _ | FclosePidf | Umask _ | Setsid | Chdir _ | Close _ => true
  | _ => false
  end.

Definition is_do_DHT (e : event) : bool :=
  match e with DoDHT => true | _ => false end.

Definition is_networking_poll (e : event) : bool :=
  match e with NetworkingPoll => true | _ => false end.

Definition is_sleep (e : event) : bool :=
  match e with Sleep => true | _ => false end.

Definition is_do_TCP_server (e : event) : bool :=
  match e with DoTCPServer => true | _ => false end.

Definition is_send_LANdiscovery (e : event) : bool :=
  match e with SendLANdiscovery _ => true | _ => false end.

(** A stage of [main] that can only go on or make [main] return 1. *)
Definition goes_on_or_fails {A} (m : W (outcome A)) : Prop :=
  match value m with
  | Return code => code = 1
  | Continue _ => True
  | NoFuel => False
  end.

(** A trace without calls of the daemonization. *)
Definition no_process_call (t : list event) : Prop :=
  Forall (fun e => is_process_call e = false) t.

Definition count (p : event -> bool) (t : list event) : nat :=
  List.length (filter p t).

(** A run in which no call of the daemonization comes before [fork], and
    [fork] is called at most once: either there is no such call at all and
    the result is [Return 1], or the first one is the only [Fork]. *)
Definition forks_after_startup {A} (w : W (outcome A)) : Prop :=
  exists before after : list event,
    trace w = before ++ after
    /\ no_process_call before
    /\ ((after = [] /\ value w = Return 1)
        \/ exists rest, after = Fork :: rest /\ count is_fork rest = 0%nat).

(** The turns among [k], ..., [k + n - 1] in which a discovery packet is
    due, given the time of the last one; the loop's own bookkeeping. *)
Fixpoint discoveries_due (I : Z) (env : environment) (n k : nat) (last : Z) : nat :=
  match n with
  | O => O
  | S n' =>
      if is_timeout env k last I
      then S (discoveries_due I env n' (S k) (unix_time env k))
      else discoveries_due I env n' (S k) last
  end.

(** The names [get_general_config] looks up. *)
Definition general_setting_names : list string :=
  [NAME_PORT; NAME_PID_FILE_PATH; NAME_KEYS_FILE_PATH; NAME_ENABLE_IPV6;
   NAME_ENABLE_IPV4_FALLBACK; NAME_ENABLE_LAN_DISCOVERY; NAME_ENABLE_TCP_RELAY;
   NAME_TCP_RELAY_PORTS; NAME_ENABLE_MOTD; NAME_MOTD].

(** The configuration made of the defaults of lines 62-72. *)
Definition default_general_config (DAEMON_NAME : string) (MAX_MOTD_LENGTH : nat)
  : general_config :=
  {| pid_file_path := Heap (strcpy_new DEFAULT_PID_FILE_PATH);
     keys_file_path := Heap (strcpy_new DEFAULT_KEYS_FILE_PATH);
     port := DEFAULT_PORT;
     enable_ipv6 := DEFAULT_ENABLE_IPV6;
     enable_ipv4_fallback := DEFAULT_ENABLE_IPV4_FALLBACK;
     enable_lan_discovery := DEFAULT_ENABLE_LAN_DISCOVERY;
     enable_tcp_relay := DEFAULT_ENABLE_TCP_RELAY;
     tcp_relay_ports := Heap DEFAULT_TCP_RELAY_PORTS;
     tcp_relay_port_count := Z.of_nat DEFAULT_TCP_RELAY_PORTS_COUNT;
     enable_motd := DEFAULT_ENABLE_MOTD;
     motd := Heap (copy_motd MAX_MOTD_LENGTH (DEFAULT_MOTD DAEMON_NAME)) |}.

(** A file that only lists bootstrap nodes. *)
Definition cfg_only_nodes : config := cfg_three_nodes.

(** A file with a MOTD of its own. *)
Definition cfg_motd : config := [("motd", SString "Welcome to this node")].

(** A configuration with two relay ports, one of them twice. *)
Definition cfg_relay_ports_valid : config :=
  [("tcp_relay_ports", SArray (map SInt [33445; 443; 33445]))].

(** A configuration with a relay-port array of mixed elements. *)
Definition cfg_relay_ports_mixed : config :=
  [("tcp_relay_ports", SArray [SInt 443; SString "http"; SInt 0; SInt 3389; SFloat])].

Definition no_room : write_env :=
  {| fopen_w_ok := true; fwrite_room := 10; fclose_stored := 10 |}.

(** [fwrite] takes all the bytes into its buffer; only 10 of them reach the
    file when it is closed. *)
Definition lost_flush : write_env :=
  {| fopen_w_ok := true; fwrite_room := 4096; fclose_stored := 10 |}.

(** A command line: [--log-backend=stdout --config=a.conf --config=b.conf]. *)
Definition sample_opts : list getopt_result :=
  [OptLogBackend "stdout"; OptConfig "a.conf"; OptConfig "b.conf"].
(* ================================================================= *)
(** ** Reading values and traces through [bind] *)

Lemma value_bind {A B} (m : W A) (f : A -> W B) :
  value (bind m f) = value (f (value m)).
Proof.
  unfold bind, value. destruct m as [a t1]. simpl. destruct (f a). reflexivity.
Qed.

Lemma trace_bind {A B} (m : W A) (f : A -> W B) :
  trace (bind m f) = trace m ++ trace (f (value m)).
Proof.
  unfold bind, value, trace. destruct m as [a t1]. simpl. destruct (f a). reflexivity.
Qed.

Lemma value_ret {A} (a : A) : value (ret a) = a.
Proof. reflexivity. Qed.

Lemma trace_ret {A} (a : A) : trace (ret a) = [].
Proof. reflexivity. Qed.

Lemma W_eta {A} (m : W A) : m = (value m, trace m).
Proof. destruct m; reflexivity. Qed.

Create Rewrite HintDb w.
#[local] Hint Rewrite @value_bind @trace_bind @value_ret @trace_ret : w.

Ltac w_simpl := autorewrite with w; cbn [value trace fst snd emit write_log].

(** Finds an event in a trace written as a concatenation. *)
Ltac in_trace :=
  rewrite ?in_app_iff;
  repeat (first [ solve [left; cbn; auto] | right ]);
  try solve [cbn; auto].

(* ================================================================= *)
(** ** Ports *)

Lemma port_out_of_range_spec (p : Z) :
  port_out_of_range p = false <-> 1 <= p <= 65535.
Proof.
  unfold port_out_of_range, MIN_ALLOWED_PORT, MAX_ALLOWED_PORT.
  rewrite orb_false_iff, Z.ltb_ge, Z.gtb_ltb, Z.ltb_ge. lia.
Qed.

(** A value that went through a [uint16_t] slot is out of range only as 0. *)
Lemma port_out_of_range_uint16 (v : Z) :
  port_out_of_range (to_uint16 v) = (v mod 65536 =? 0).
Proof.
  unfold to_uint16.
  pose proof (Z.mod_pos_bound v 65536 ltac:(lia)) as Hb.
  destruct (Z.eqb_spec (v mod 65536) 0) as [E | E].
  - rewrite E. reflexivity.
  - apply port_out_of_range_spec. lia.
Qed.

Lemma store_length {A} (b : list A) (i : nat) (v : A) :
  List.length (store b i v) = List.length b.
Proof.
  revert i; induction b as [| x b IH]; intros [| i]; simpl; auto.
Qed.

Lemma nth_store {A} (b : list A) (i : nat) (v d : A) :
  (i < List.length b)%nat -> nth i (store b i v) d = v.
Proof.
  revert i; induction b as [| x b IH]; intros [| i] H; simpl in *; try lia; auto.
  apply IH; lia.
Qed.

Lemma firstn_store_below {A} (b : list A) (i : nat) (v : A) :
  firstn i (store b i v) = firstn i b.
Proof.
  revert i; induction b as [| x b IH]; intros [| i]; simpl; auto.
  f_equal; apply IH.
Qed.

Lemma firstn_store_snoc {A} (b : list A) (i : nat) (v : A) :
  (i < List.length b)%nat -> firstn (S i) (store b i v) = firstn i b ++ [v].
Proof.
  revert i; induction b as [| x b IH]; intros [| i] H; simpl in *; try lia; auto.
  f_equal. apply IH. lia.
Qed.

Lemma skipn_nth_error_cons {A} (l : list A) (i : nat) (x : A) :
  nth_error l i = Some x -> skipn i l = x :: skipn (S i) l.
Proof.
  revert i; induction l as [| y l IH]; intros [| i] H; simpl in *; try discriminate.
  - congruence.
  - apply IH; assumption.
Qed.

(** The loop of lines 196-220 on an array: the slots below the final count
    hold what was there before, followed by the ports the remaining elements
    contribute. *)
Lemma config_ports_loop_spec (elems : list setting) :
  forall (n i : nat) (buf : list Z) (count : nat),
    (i + n = List.length elems)%nat ->
    (count <= i)%nat ->
    List.length buf = List.length elems ->
    let r := value (config_ports_loop (SArray elems) n i buf count) in
    snd r = (count + List.length (relay_ports_of (skipn i elems)))%nat /\
    firstn (snd r) (fst r) = firstn count buf ++ relay_ports_of (skipn i elems) /\
    List.length (fst r) = List.length buf.
Proof.
  induction n as [| n IH]; intros i buf count Hn Hc Hlen; cbn zeta.
  - simpl. rewrite skipn_all2 by lia. unfold relay_ports_of; simpl.
    rewrite Nat.add_0_r, app_nil_r. auto.
  - simpl config_ports_loop.
    unfold config_setting_get_elem; cbn [children].
    destruct (nth_error elems i) as [elem |] eqn:E.
    2:{ apply nth_error_None in E. lia. }
    rewrite (skipn_nth_error_cons _ _ _ E).
    unfold relay_ports_of; cbn [filter].
    destruct (config_setting_is_number elem) eqn:Enum; cbn [negb map filter].
    + rewrite nth_store by lia.
      destruct (port_out_of_range (to_uint16 (config_setting_get_int elem))) eqn:Er;
        cbn [negb].
      * w_simpl.
        specialize (IH (S i) (store buf count (to_uint16 (config_setting_get_int elem)))
                       count ltac:(lia) ltac:(lia)
                       ltac:(rewrite store_length; exact Hlen)).
        cbn zeta in IH. unfold relay_ports_of in IH.
        rewrite firstn_store_below, store_length in IH. exact IH.
      * specialize (IH (S i) (store buf count (to_uint16 (config_setting_get_int elem)))
                       (S count) ltac:(lia) ltac:(lia)
                       ltac:(rewrite store_length; exact Hlen)).
        cbn zeta in IH. unfold relay_ports_of in IH.
        rewrite firstn_store_snoc, store_length in IH by lia.
        destruct IH as (H1 & H2 & H3). cbn [List.length].
        split; [| split].
        -- rewrite H1. lia.
        -- rewrite H2, <- app_assoc. reflexivity.
        -- exact H3.
    + w_simpl.
      specialize (IH (S i) buf count ltac:(lia) ltac:(lia) Hlen).
      cbn zeta in IH. exact IH.
Qed.

(** [parse_tcp_relay_ports_config] on an array: the ports are exactly those
    of [relay_ports_of], in the order of the file. *)
Lemma parse_tcp_relay_ports_config_array (cfg : config) (elems : list setting)
      (old : ptr (list Z)) :
  config_lookup cfg NAME_TCP_RELAY_PORTS = Some (SArray elems) ->
  elems <> [] ->
  value (parse_tcp_relay_ports_config cfg old)
  = (match relay_ports_of elems with [] => Null | ports => Heap ports end,
     Z.of_nat (List.length (relay_ports_of elems))).
Proof.
  intros Hl Hne. unfold parse_tcp_relay_ports_config. rewrite Hl.
  cbn [config_setting_is_array negb]. unfold config_setting_length; cbn [children].
  destruct (Z.eqb_spec (Z.of_nat (List.length elems)) 0) as [E | E].
  { destruct elems; [congruence | simpl in E; lia]. }
  w_simpl. rewrite Nat2Z.id.
  pose proof (config_ports_loop_spec elems (List.length elems) 0
                (repeat 0 (List.length elems)) 0 eq_refl (Nat.le_refl 0)
                (repeat_length _ _)) as H.
  cbn zeta in H. cbn [skipn firstn app Nat.add] in H.
  destruct H as (H1 & H2 & _).
  set (r := value (config_ports_loop (SArray elems) (List.length elems) 0
                                     (repeat 0 (List.length elems)) 0)) in *.
  unfold shrink. rewrite H2, H1.
  destruct (relay_ports_of elems); reflexivity.
Qed.

(** The listen-port check of [main] passes exactly the ports in range. *)
Lemma main_config_listen_port (D : string) (M : nat) (env : environment)
      (path : string) (locals : general_config) (cfg : config) :
  config_read_file env path = inr cfg ->
  (exists c, value (main_config D M env path locals) = Continue c)
  <-> 1 <= int_setting cfg NAME_PORT DEFAULT_PORT <= 65535.
Proof.
  intros Hcfg. unfold main_config. rewrite Hcfg.
  rewrite value_bind.
  set (r := value (get_general_config D M (inr cfg) locals)).
  assert (Hr : fst r = 1 /\ port (snd r) = int_setting cfg NAME_PORT DEFAULT_PORT).
  { subst r. unfold get_general_config, int_setting. w_simpl.
    split; [reflexivity |].
    destruct (config_lookup_int cfg NAME_PORT); reflexivity. }
  destruct Hr as [Hr1 Hr2]. rewrite Hr1. cbn [Z.eqb negb]. w_simpl. rewrite Hr2.
  rewrite <- port_out_of_range_spec.
  destruct (port_out_of_range (int_setting cfg NAME_PORT DEFAULT_PORT)); w_simpl.
  - split; [intros [c Hc]; discriminate | discriminate].
  - split; [reflexivity | intros _; eexists; reflexivity].
Qed.

(** A single integer element [v] of the relay-port array is kept exactly
    when [v] is not a multiple of 65536, and it is kept as [v mod 65536]. *)
Lemma relay_ports_of_int (v : Z) :
  relay_ports_of [SInt v] = if v mod 65536 =? 0 then [] else [v mod 65536].
Proof.
  unfold relay_ports_of. cbn [filter config_setting_is_number map config_setting_get_int].
  rewrite port_out_of_range_uint16. unfold to_uint16.
  destruct (v mod 65536 =? 0); reflexivity.
Qed.

(** C1 (the code departs from the claim). The relay-port check does not
    reject every port outside [1, 65535]: an element [v] of
    [tcp_relay_ports] is stored into a 16-bit slot before the comparison, so
    it is kept, as port [v mod 65536], whenever it is not a multiple of
    65536. The element 65537 passes as port 1, although the same value is
    out of range for the listen-port check. The values 0 and 65536 are
    rejected by both checks. *)
Theorem relay_port_65537_kept :
  (forall (v : Z) (old : ptr (list Z)),
      value (parse_tcp_relay_ports_config [(NAME_TCP_RELAY_PORTS, SArray [SInt v])] old)
      = if v mod 65536 =? 0 then (Null, 0) else (Heap [v mod 65536], 1))
  /\ value (parse_tcp_relay_ports_config cfg_relay_port_65537 Indeterminate)
     = (Heap [1], 1)
  /\ port_out_of_range 65537 = true
  /\ value (parse_tcp_relay_ports_config cfg_relay_ports_edge Indeterminate)
     = (Heap [443], 1)
  /\ port_out_of_range 0 = true
  /\ port_out_of_range 65536 = true.
Proof.
  split; [| repeat split; reflexivity].
  intros v old.
  rewrite (parse_tcp_relay_ports_config_array
             [(NAME_TCP_RELAY_PORTS, SArray [SInt v])] [SInt v] old eq_refl)
    by discriminate.
  rewrite relay_ports_of_int.
  destruct (v mod 65536 =? 0); reflexivity.
Qed.

(** The scenarios of the specification: without the setting the three
    defaults are taken; an empty array gives no port. *)
Example default_relay_ports :
  value (parse_tcp_relay_ports_config cfg_empty Indeterminate)
  = (Heap [443; 3389; 33445], 3)
  /\ value (parse_tcp_relay_ports_config [(NAME_TCP_RELAY_PORTS, SArray [])] Indeterminate)
     = (Indeterminate, 0).
Proof. split; reflexivity. Qed.

(* ================================================================= *)
(** ** The configuration loader *)

Lemma value_lookup_bool_or (cfg : config) (name : string) (default : Z) :
  value (lookup_bool_or cfg name default) = bool_setting cfg name default.
Proof.
  unfold lookup_bool_or, bool_setting.
  destruct (config_lookup_bool cfg name); reflexivity.
Qed.

Lemma value_lookup_string_or (cfg : config) (name default : string) :
  value (lookup_string_or cfg name default) = string_setting cfg name default.
Proof.
  unfold lookup_string_or, string_setting.
  destruct (config_lookup_string cfg name); reflexivity.
Qed.

(** What [get_general_config] returns once the file has been parsed. *)
Lemma get_general_config_parsed (D : string) (M : nat) (cfg : config)
      (o : general_config) :
  let relay_on := negb (bool_setting cfg NAME_ENABLE_TCP_RELAY DEFAULT_ENABLE_TCP_RELAY =? 0) in
  let motd_on := negb (bool_setting cfg NAME_ENABLE_MOTD DEFAULT_ENABLE_MOTD =? 0) in
  let relay := if relay_on
               then value (parse_tcp_relay_ports_config cfg (tcp_relay_ports o))
               else (tcp_relay_ports o, 0) in
  value (get_general_config D M (inr cfg) o)
  = (1, {| pid_file_path :=
             Heap (strcpy_new (string_setting cfg NAME_PID_FILE_PATH DEFAULT_PID_FILE_PATH));
           keys_file_path :=
             Heap (strcpy_new (string_setting cfg NAME_KEYS_FILE_PATH DEFAULT_KEYS_FILE_PATH));
           port := int_setting cfg NAME_PORT DEFAULT_PORT;
           enable_ipv6 := bool_setting cfg NAME_ENABLE_IPV6 DEFAULT_ENABLE_IPV6;
           enable_ipv4_fallback :=
             bool_setting cfg NAME_ENABLE_IPV4_FALLBACK DEFAULT_ENABLE_IPV4_FALLBACK;
           enable_lan_discovery :=
             bool_setting cfg NAME_ENABLE_LAN_DISCOVERY DEFAULT_ENABLE_LAN_DISCOVERY;
           enable_tcp_relay := bool_setting cfg NAME_ENABLE_TCP_RELAY DEFAULT_ENABLE_TCP_RELAY;
           tcp_relay_ports := fst relay;
           tcp_relay_port_count := snd relay;
           enable_motd := bool_setting cfg NAME_ENABLE_MOTD DEFAULT_ENABLE_MOTD;
           motd := if motd_on
                   then Heap (copy_motd M (string_setting cfg NAME_MOTD D))
                   else motd o |}).
Proof.
  cbn zeta. unfold get_general_config. w_simpl.
  rewrite !value_lookup_bool_or, !value_lookup_string_or.
  f_equal. f_equal.
  - unfold int_setting. destruct (config_lookup_int cfg NAME_PORT); reflexivity.
  - destruct (negb (bool_setting cfg NAME_ENABLE_TCP_RELAY DEFAULT_ENABLE_TCP_RELAY =? 0));
      reflexivity.
  - destruct (negb (bool_setting cfg NAME_ENABLE_TCP_RELAY DEFAULT_ENABLE_TCP_RELAY =? 0));
      reflexivity.
  - destruct (negb (bool_setting cfg NAME_ENABLE_MOTD DEFAULT_ENABLE_MOTD =? 0)).
    + w_simpl. rewrite value_lookup_string_or. reflexivity.
    + reflexivity.
Qed.

(** C10. [get_general_config] returns 0 or 1; it returns 0 exactly when the
    configuration file could not be read or parsed, and then the objects
    behind its out-parameters are what they were before the call. *)
Theorem get_general_config_failure_atomic (D : string) (M : nat)
        (parsed : parse_error + config) (o : general_config) :
  let r := value (get_general_config D M parsed o) in
  (fst r = 0 \/ fst r = 1)
  /\ (fst r = 0 <-> exists e, parsed = inl e)
  /\ (fst r = 0 -> snd r = o).
Proof.
  cbn zeta. destruct parsed as [[[file line] text] | cfg].
  - unfold get_general_config. w_simpl.
    split; [left; reflexivity |].
    split; [| reflexivity].
    split; [intros _; eexists; reflexivity | reflexivity].
  - rewrite get_general_config_parsed. cbn [fst snd].
    split; [right; reflexivity |].
    split; [| discriminate].
    split; [discriminate | intros [e He]; discriminate].
Qed.

(** A [tcp_relay_ports] setting that is not an array makes
    [parse_tcp_relay_ports_config] log one error and leave the pointer as it
    found it, with a count of 0. *)
Lemma parse_tcp_relay_ports_config_not_array (cfg : config) (s : setting)
      (old : ptr (list Z)) :
  config_lookup cfg NAME_TCP_RELAY_PORTS = Some s ->
  config_setting_is_array s = false ->
  parse_tcp_relay_ports_config cfg old
  = ((old, 0),
     [Log LOG_LEVEL_ERROR
          "'%s' setting should be an array. Array syntax: 'setting = [value1, value2, ...]'.\n"
          [AStr NAME_TCP_RELAY_PORTS]]).
Proof.
  intros Hl Ha. unfold parse_tcp_relay_ports_config. rewrite Hl, Ha. reflexivity.
Qed.

(** C5 (as the code has it). When [tcp_relay_ports] is present but not an
    array, no default list is substituted, yet [get_general_config] still
    returns success: the count is 0 and the ports pointer is untouched. With
    the relay enabled the error is logged and [main] later returns 1 at its
    check of the port count; with the relay disabled the setting is not
    looked at and that check lets [main] go on. *)
Theorem relay_ports_not_array (D : string) (M : nat) (cfg : config)
        (o : general_config) (s : setting) :
  config_lookup cfg NAME_TCP_RELAY_PORTS = Some s ->
  config_setting_is_array s = false ->
  let r := get_general_config D M (inr cfg) o in
  let c := snd (value r) in
  fst (value r) = 1
  /\ tcp_relay_port_count c = 0
  /\ tcp_relay_ports c = tcp_relay_ports o
  /\ (enable_tcp_relay c <> 0 ->
      In (Log LOG_LEVEL_ERROR
              "'%s' setting should be an array. Array syntax: 'setting = [value1, value2, ...]'.\n"
              [AStr NAME_TCP_RELAY_PORTS])
         (trace r)
      /\ forall env ipv6 dht,
          main_tcp_relay env c ipv6 dht
          = (Return 1, [Log LOG_LEVEL_ERROR "No TCP relay ports read. Exiting.\n" []]))
  /\ (enable_tcp_relay c = 0 ->
      forall env ipv6 dht, main_tcp_relay env c ipv6 dht = (Continue tt, [])).
Proof.
  intros Hl Ha. cbn zeta.
  rewrite get_general_config_parsed. cbn [fst snd tcp_relay_port_count tcp_relay_ports
                                           enable_tcp_relay].
  set (relay_flag := bool_setting cfg NAME_ENABLE_TCP_RELAY DEFAULT_ENABLE_TCP_RELAY).
  rewrite (parse_tcp_relay_ports_config_not_array cfg s _ Hl Ha).
  cbn [value fst snd].
  split; [reflexivity |].
  split; [destruct (negb (relay_flag =? 0)); reflexivity |].
  split; [destruct (negb (relay_flag =? 0)); reflexivity |].
  split.
  - intros Hon. apply Z.eqb_neq in Hon. split.
    + unfold get_general_config. autorewrite with w.
      rewrite !value_lookup_bool_or. fold relay_flag. rewrite Hon. cbn [negb].
      rewrite (parse_tcp_relay_ports_config_not_array cfg s _ Hl Ha).
      cbn [trace snd]. in_trace.
    + intros env ipv6 dht. unfold main_tcp_relay.
      cbn [enable_tcp_relay tcp_relay_port_count]. rewrite Hon. reflexivity.
  - intros Hoff env ipv6 dht. unfold main_tcp_relay.
    cbn [enable_tcp_relay]. rewrite Hoff. reflexivity.
Qed.

(* ----------------------------------------------------------------- *)
(** *** The message of the day *)

Lemma c_text_no_nul (b : list ascii) : Forall (fun c => c <> NUL) (c_text b).
Proof.
  induction b as [| c b IH]; simpl; [constructor |].
  destruct (Ascii.eqb_spec c NUL); [constructor | constructor; assumption].
Qed.

Lemma c_text_app_nul (l rest : list ascii) :
  Forall (fun c => c <> NUL) l -> c_text (l ++ NUL :: rest) = l.
Proof.
  induction 1 as [| c l Hc _ IH]; simpl.
  - reflexivity.
  - destruct (Ascii.eqb_spec c NUL); [contradiction | now rewrite IH].
Qed.

Lemma Forall_firstn {A} (P : A -> Prop) (n : nat) (l : list A) :
  Forall P l -> Forall P (firstn n l).
Proof.
  intros H; revert n; induction H; intros [| n]; simpl; constructor; auto.
Qed.

Lemma store_split {A} (l : list A) (i : nat) (c : A) :
  (i < List.length l)%nat ->
  store l i c = firstn i l ++ c :: skipn (S i) l.
Proof.
  revert i; induction l as [| x l IH]; intros [| i] H; simpl in *; try lia; auto.
  f_equal. apply IH. lia.
Qed.

(** The buffer [copy_motd] builds: the text, cut to [MAX_MOTD_LENGTH - 1]
    characters, and a NUL. *)
Lemma copy_motd_eq (M : nat) (s : string) :
  (1 <= M)%nat ->
  copy_motd M s = firstn (M - 1) (c_text (c_str s)) ++ [NUL].
Proof.
  intros HM. unfold copy_motd, strncpy, strlen.
  set (t := c_text (c_str s)).
  destruct (Nat.ltb_spec M (List.length t + 1)) as [Hlt | Hge].
  - rewrite firstn_app.
    replace (M - List.length t)%nat with 0%nat by lia.
    cbn [firstn]. rewrite app_nil_r.
    rewrite store_split by (rewrite length_firstn; lia).
    rewrite firstn_firstn. replace (Nat.min (M - 1) M) with (M - 1)%nat by lia.
    replace (S (M - 1)) with M by lia.
    rewrite skipn_all2 by (rewrite length_firstn; lia). reflexivity.
  - rewrite firstn_app.
    rewrite (firstn_all2 t) by lia.
    replace (List.length t + 1 - List.length t)%nat with 1%nat by lia.
    replace (List.length t + 1)%nat with (S (List.length t)) by lia.
    cbn [repeat firstn]. replace (S (List.length t) - 1)%nat with (List.length t) by lia.
    rewrite store_split by (rewrite length_app; simpl; lia).
    rewrite firstn_app, Nat.sub_diag, firstn_all. cbn [firstn]. rewrite app_nil_r.
    rewrite skipn_all2 by (rewrite length_app; simpl; lia).
    rewrite firstn_all2 by lia. reflexivity.
Qed.

(** C6. With the MOTD enabled, [*motd] points to a buffer of at most
    [MAX_MOTD_LENGTH] bytes whose last byte is its first NUL, so the string
    and its terminator take at most [MAX_MOTD_LENGTH] bytes; when no [motd]
    string is configured the text is that of the default, [DAEMON_NAME]
    (cut to fit), and the substitution is logged as a warning. *)
Theorem motd_terminated_and_bounded (D : string) (M : nat) (cfg : config)
        (o : general_config) :
  (1 <= M)%nat ->
  let r := get_general_config D M (inr cfg) o in
  let c := snd (value r) in
  enable_motd c <> 0 ->
  exists m : list ascii,
    motd c = Heap m
    /\ (List.length m <= M)%nat
    /\ (strlen m + 1 = List.length m)%nat
    /\ nth (strlen m) m "a"%char = NUL
    /\ (config_lookup_string cfg NAME_MOTD = None ->
        c_text m = firstn (M - 1) (c_text (c_str D))
        /\ ((strlen (c_str D) + 1 <= M)%nat -> m = c_text (c_str D) ++ [NUL])
        /\ In (Log LOG_LEVEL_WARNING "Using default '%s': %s\n"
                   [AStr NAME_MOTD; AStr D])
              (trace r)).
Proof.
  intros HM. cbn zeta. rewrite get_general_config_parsed. cbn [snd enable_motd motd].
  intros Hon. apply Z.eqb_neq in Hon. rewrite Hon. cbn [negb].
  set (s := string_setting cfg NAME_MOTD D).
  exists (copy_motd M s). rewrite (copy_motd_eq M s HM).
  set (t := firstn (M - 1) (c_text (c_str s))).
  assert (Ht : Forall (fun c => c <> NUL) t)
    by (apply Forall_firstn, c_text_no_nul).
  assert (Hlen : (List.length t <= M - 1)%nat)
    by (subst t; rewrite length_firstn; lia).
  assert (Hs : strlen (t ++ [NUL]) = List.length t)
    by (unfold strlen; rewrite c_text_app_nul by assumption; reflexivity).
  split; [reflexivity |].
  split; [rewrite length_app; simpl; lia |].
  split; [rewrite Hs, length_app; reflexivity |].
  split; [rewrite Hs, nth_middle; reflexivity |].
  intros Habs.
  assert (HsD : s = D) by (subst s; unfold string_setting; rewrite Habs; reflexivity).
  split; [| split].
  - rewrite c_text_app_nul by assumption. subst t. rewrite HsD. reflexivity.
  - intros Hfit. subst t. rewrite HsD.
    unfold strlen in Hfit. rewrite firstn_all2 by lia. reflexivity.
  - unfold get_general_config. autorewrite with w.
    rewrite !value_lookup_bool_or. rewrite Hon. cbn [negb].
    unfold lookup_string_or. rewrite Habs. autorewrite with w. in_trace.
Qed.

(* ================================================================= *)
(** ** The key manager *)

Lemma fs_put_same (fs : filesystem) (path : string) (content : list Byte.byte) :
  fs_put fs path content path = Some content.
Proof. unfold fs_put. rewrite String.eqb_refl. reflexivity. Qed.

Lemma fs_put_other (fs : filesystem) (path p : string) (content : list Byte.byte) :
  p <> path -> fs_put fs path content p = fs p.
Proof.
  intros H. unfold fs_put. destruct (String.eqb_spec p path); [contradiction | reflexivity].
Qed.

(** A key file with at least [KEYS_SIZE] bytes is loaded from its first
    [KEYS_SIZE] bytes. *)
Lemma manage_keys_load (PK SK : nat) (env : write_env) (fs : filesystem)
      (dht : DHT) (path : string) (content : list Byte.byte) :
  fs path = Some content ->
  (PK + SK <= List.length content)%nat ->
  manage_keys PK SK env fs dht path
  = (1, fs, {| self_public_key := firstn PK content;
               self_secret_key := firstn SK (skipn PK content) |}).
Proof.
  intros Hfile Hlen. unfold manage_keys. rewrite Hfile, length_firstn.
  replace (Nat.min (PK + SK) (List.length content) =? PK + SK)%nat with true
    by (symmetry; apply Nat.eqb_eq; lia).
  cbn [negb]. f_equal. f_equal.
  - rewrite firstn_firstn. f_equal. lia.
  - rewrite skipn_firstn_comm, firstn_firstn. f_equal. lia.
Qed.

(** A shorter key file is refused, and nothing is touched. *)
Lemma manage_keys_short_read (PK SK : nat) (env : write_env) (fs : filesystem)
      (dht : DHT) (path : string) (content : list Byte.byte) :
  fs path = Some content ->
  (List.length content < PK + SK)%nat ->
  manage_keys PK SK env fs dht path = (0, fs, dht).
Proof.
  intros Hfile Hlen. unfold manage_keys. rewrite Hfile, length_firstn.
  replace (Nat.min (PK + SK) (List.length content) =? PK + SK)%nat with false
    by (symmetry; apply Nat.eqb_neq; lia).
  reflexivity.
Qed.

(** C3 (as the code has it). When the key file exists, [manage_keys] reads
    the first [KEYS_SIZE] bytes of it. A file with at least that many bytes
    loads: the public key is its first [crypto_box_PUBLICKEYBYTES] bytes, the
    secret key the [crypto_box_SECRETKEYBYTES] bytes after them, and bytes
    beyond are ignored. A shorter file is a failure that leaves the keys of
    [dht] as they were. The file is not changed in either case. *)
Theorem manage_keys_existing_file (PK SK : nat) (env : write_env) (fs : filesystem)
        (dht : DHT) (path : string) (content : list Byte.byte) :
  fs path = Some content ->
  ((PK + SK <= List.length content)%nat ->
   manage_keys PK SK env fs dht path
   = (1, fs, {| self_public_key := firstn PK content;
                self_secret_key := firstn SK (skipn PK content) |}))
  /\ ((List.length content < PK + SK)%nat ->
      manage_keys PK SK env fs dht path = (0, fs, dht)).
Proof.
  intros Hfile. split; intros Hlen.
  - apply manage_keys_load; assumption.
  - apply manage_keys_short_read with (content := content); assumption.
Qed.

(** When there is no key file, [manage_keys] returns 1 exactly when the
    file can be opened for writing and [fwrite] reports all [KEYS_SIZE]
    bytes as written. *)
Lemma manage_keys_create_ok (PK SK : nat) (env : write_env) (fs : filesystem)
      (dht : DHT) (path : string) :
  fs path = None ->
  fst (fst (manage_keys PK SK env fs dht path)) = 1
  <-> fopen_w_ok env = true /\ (PK + SK <= fwrite_room env)%nat.
Proof.
  intros Hfile. unfold manage_keys. rewrite Hfile.
  destruct (fopen_w_ok env); cbn [negb fst].
  - destruct (Nat.eqb_spec (Nat.min (fwrite_room env) (PK + SK)) (PK + SK)) as [E | E];
      cbn [negb fst]; split.
    + intros _. split; [reflexivity | lia].
    + reflexivity.
    + discriminate.
    + intros [_ H]. lia.
  - split; [discriminate | intros [H _]; discriminate].
Qed.


(* ================================================================= *)
(** ** The bootstrap list processor *)

Lemma port_out_of_range_bounds (p : Z) :
  port_out_of_range p = negb ((1 <=? p) && (p <=? 65535)).
Proof.
  unfold port_out_of_range, MIN_ALLOWED_PORT, MAX_ALLOWED_PORT.
  rewrite negb_andb, Z.gtb_ltb, <- Z.ltb_antisym, <- Z.ltb_antisym. reflexivity.
Qed.

Lemma children_remove_first (s : setting) :
  children (config_setting_remove_elem s 0) = tl (children s).
Proof.
  destruct s as [v | | b | str | l | l | m]; try reflexivity;
    destruct l || destruct m; reflexivity.
Qed.

Section BootstrapProofs.

Variable PK : nat.
Variable hex : string -> list Byte.byte.
Variable hton : Z -> Z.
Variable resolve : string -> Z -> Z -> list Byte.byte -> Z.

(** One turn of the loop body leaves the report of the entry's outcome. *)
Lemma bootstrap_node_report (i : Z) (node : setting) (enable_ipv6 : Z) :
  bootstrap_node PK hex hton resolve i node enable_ipv6
  = (tt, entry_report hex hton i node enable_ipv6
                      (validate_entry PK hex hton resolve node enable_ipv6)).
Proof.
  unfold bootstrap_node, validate_entry, entry_report, resolution_call.
  destruct (config_setting_lookup_string node NAME_PUBLIC_KEY) as [key |];
    [| reflexivity].
  destruct (config_setting_lookup_int node NAME_PORT) as [p |]; [| reflexivity].
  destruct (config_setting_lookup_string node NAME_ADDRESS) as [addr |];
    [| reflexivity].
  rewrite (Nat.mul_comm PK 2), port_out_of_range_bounds.
  destruct (negb (strlen (c_str key) =? 2 * PK)%nat); [reflexivity |].
  destruct (negb ((1 <=? p) && (p <=? 65535))); [reflexivity |].
  destruct (resolve addr enable_ipv6 (hton p) (hex key) =? 0); reflexivity.
Qed.

(** With more fuel than entries the loop ends, returns 1 and has reported
    on every entry in turn. *)
Lemma bootstrap_loop_report (enable_ipv6 : Z) :
  forall (fuel : nat) (node_list : setting) (i : Z),
    (List.length (children node_list) < fuel)%nat ->
    bootstrap_loop PK hex hton resolve fuel node_list i enable_ipv6
    = (Some 1, entries_report PK hex hton resolve i (children node_list) enable_ipv6).
Proof.
  induction fuel as [| fuel IH]; intros node_list i Hfuel; [lia |].
  cbn [bootstrap_loop]. unfold config_setting_length, config_setting_get_elem.
  destruct (children node_list) as [| node rest] eqn:Ech.
  - reflexivity.
  - replace (Z.of_nat (List.length (node :: rest)) =? 0) with false
      by (symmetry; apply Z.eqb_neq; simpl List.length; lia).
    cbn [nth_error entries_report].
    rewrite bootstrap_node_report.
    rewrite IH by (rewrite children_remove_first, Ech; simpl in *; lia).
    rewrite children_remove_first, Ech. reflexivity.
Qed.

(** [bootstrap_from_config] always returns: 1 for a parsed file, 0 otherwise. *)
Lemma bootstrap_from_config_value (parsed : parse_error + config) (enable_ipv6 : Z) :
  value (bootstrap_from_config PK hex hton resolve parsed enable_ipv6)
  = Some (match parsed with inl _ => 0 | inr _ => 1 end).
Proof.
  destruct parsed as [[[file line] text] | cfg]; [reflexivity |].
  unfold bootstrap_from_config.
  destruct (config_lookup cfg NAME_BOOTSTRAP_NODES) as [node_list |]; [| reflexivity].
  unfold config_setting_length.
  destruct (children node_list) as [| node rest] eqn:Ech; [reflexivity |].
  replace (Z.of_nat (List.length (node :: rest)) =? 0) with false
    by (symmetry; apply Z.eqb_neq; simpl List.length; lia).
  rewrite bootstrap_loop_report by (rewrite Ech; lia). reflexivity.
Qed.

(** C2. [bootstrap_from_config] returns, and returns 1 whenever the file
    was parsed (0 only when it was not). A missing or empty
    [bootstrap_nodes] list costs one warning. Otherwise every entry is
    handled, in the order of the file and numbered from 0: it is checked
    as [validate_entry] says (fields present, key length, port range,
    resolution with the IPv6 preference passed on), and leaves its report:
    one warning when skipped, one info line when added. *)
Theorem bootstrap_from_config_report (parsed : parse_error + config)
        (enable_ipv6 : Z) :
  let r := bootstrap_from_config PK hex hton resolve parsed enable_ipv6 in
  value r = Some (match parsed with inl _ => 0 | inr _ => 1 end)
  /\ match parsed with
     | inl _ => True
     | inr cfg =>
         match bootstrap_nodes cfg with
         | [] => exists fmt args, trace r = [Log LOG_LEVEL_WARNING fmt args]
         | nodes => trace r = entries_report PK hex hton resolve 0 nodes enable_ipv6
         end
     end.
Proof.
  cbn zeta. split; [apply bootstrap_from_config_value |].
  destruct parsed as [[[file line] text] | cfg]; [exact I |].
  unfold bootstrap_from_config, bootstrap_nodes.
  destruct (config_lookup cfg NAME_BOOTSTRAP_NODES) as [node_list |].
  2:{ do 2 eexists; reflexivity. }
  unfold config_setting_length.
  destruct (children node_list) as [| node rest] eqn:Ech.
  - do 2 eexists; reflexivity.
  - replace (Z.of_nat (List.length (node :: rest)) =? 0) with false
      by (symmetry; apply Z.eqb_neq; simpl List.length; lia).
    rewrite bootstrap_loop_report by (rewrite Ech; lia).
    rewrite Ech. reflexivity.
Qed.

End BootstrapProofs.

(** The scenario of the specification: the first entry has a key of the
    wrong length, the second is added, the third lacks its port; the result
    is 1. *)
Example bootstrap_three_nodes :
  let resolve := fun _ _ _ _ => 1 in
  map (fun node => validate_entry 32 (fun _ => []) (fun p => p) resolve node 1)
      (bootstrap_nodes cfg_three_nodes)
  = [Skipped (BadKeyLength "ABCD");
     Added "198.51.100.7" 33445 good_key;
     Skipped (MissingField NAME_PORT)]
  /\ value (bootstrap_from_config 32 (fun _ => []) (fun p => p) resolve
                                  (inr cfg_three_nodes) 1) = Some 1.
Proof. split; reflexivity. Qed.

(* ================================================================= *)
(** ** [main]: network core, daemonization, main loop *)

Lemma value_bindo_return {A B} (m : W (outcome A)) (f : A -> W (outcome B)) (code : Z) :
  value m = Return code -> value (bindo m f) = Return code.
Proof. intros H. unfold bindo. rewrite value_bind, H. reflexivity. Qed.

Lemma value_bindo_continue {A B} (m : W (outcome A)) (f : A -> W (outcome B)) (a : A) :
  value m = Continue a -> value (bindo m f) = value (f a).
Proof. intros H. unfold bindo. rewrite value_bind, H. reflexivity. Qed.

(** When the network core cannot be created, [main] returns what
    [main_networking] returns. *)
Lemma main_returns_from_networking (D : string) (M PK SK : nat) (I : Z)
      (env : environment) (path : string) (backend : LOG_BACKEND)
      (locals c : general_config) (n : nat) (code : Z) :
  value (main_config D M env path locals) = Continue c ->
  value (main_networking env (enable_ipv6 c) (enable_ipv4_fallback c) (port c))
  = Return code ->
  value (main D M PK SK I env path backend locals n) = Return code.
Proof.
  intros Hc Hn. unfold main.
  rewrite (value_bindo_continue _ _ c Hc), value_bind.
  apply value_bindo_return. exact Hn.
Qed.

(** C9. When the first [new_networking] fails, [main] calls it once more,
    for IPv4, exactly when both [enable_ipv6] and [enable_ipv4_fallback] are
    set, and never a third time; it goes on (with IPv6 off) only if that
    second call succeeds, and returns 1 in every other case. *)
Theorem networking_single_fallback (D : string) (M PK SK : nat) (I : Z)
        (env : environment) (path : string) (backend : LOG_BACKEND)
        (locals c : general_config) :
  value (main_config D M env path locals) = Continue c ->
  new_networking env (enable_ipv6 c) (port c) = false ->
  let r := main_networking env (enable_ipv6 c) (enable_ipv4_fallback c) (port c) in
  let both := negb (enable_ipv6 c =? 0) && negb (enable_ipv4_fallback c =? 0) in
  bind_attempts (trace r)
  = NewNetworking (enable_ipv6 c) (port c)
    :: (if both then [NewNetworking 0 (port c)] else [])
  /\ value r = (if both && new_networking env 0 (port c) then Continue 0 else Return 1)
  /\ (both && new_networking env 0 (port c) = false ->
      forall n, value (main D M PK SK I env path backend locals n) = Return 1).
Proof.
  intros Hc Hfail. cbn zeta.
  assert (Hr : bind_attempts
                 (trace (main_networking env (enable_ipv6 c) (enable_ipv4_fallback c)
                                         (port c)))
               = NewNetworking (enable_ipv6 c) (port c)
                 :: (if negb (enable_ipv6 c =? 0) && negb (enable_ipv4_fallback c =? 0)
                     then [NewNetworking 0 (port c)] else [])
               /\ value (main_networking env (enable_ipv6 c) (enable_ipv4_fallback c)
                                         (port c))
                  = (if negb (enable_ipv6 c =? 0) && negb (enable_ipv4_fallback c =? 0)
                        && new_networking env 0 (port c)
                     then Continue 0 else Return 1)).
  { unfold main_networking. rewrite Hfail.
    destruct (negb (enable_ipv6 c =? 0) && negb (enable_ipv4_fallback c =? 0));
      cbn [andb]; [destruct (new_networking env 0 (port c)) |]; split; reflexivity. }
  destruct Hr as [Ht Hv].
  split; [exact Ht |]. split; [exact Hv |].
  intros Hno n. apply (main_returns_from_networking D M PK SK I env path backend locals c n 1 Hc).
  rewrite Hv, Hno. reflexivity.
Qed.

(** C8. Once the PID file is open: the parent of the fork writes the
    child's process id to the open file, closes it and returns 0; the child
    closes its copy, clears the file mode mask, creates a session, changes
    to '/', and closes standard output, input and error unless the log goes
    to stdout, then goes on to the main loop; a failed [fork], [setsid] or
    [chdir] makes [main] return 1 at that point. *)
Theorem daemonize_parent_and_child (env : environment) (pid_file_path : string)
        (log_backend : LOG_BACKEND) :
  pidf_fopen env = true ->
  let r := main_daemonize env pid_file_path log_backend in
  (0 < fork env ->
   r = (Return 0,
        [Fork; FprintfPid (fork env); FclosePidf;
         Log LOG_LEVEL_INFO "Forked successfully: PID: %d.\n" [AInt (fork env)]]))
  /\ (fork env < 0 ->
      r = (Return 1,
           [Fork; FclosePidf; Log LOG_LEVEL_ERROR "Forking failed. Exiting.\n" []]))
  /\ (fork env = 0 -> setsid env < 0 ->
      r = (Return 1,
           [Fork; FclosePidf; Umask 0; Setsid;
            Log LOG_LEVEL_ERROR "SID creation failure. Exiting.\n" []]))
  /\ (fork env = 0 -> 0 <= setsid env -> chdir env < 0 ->
      r = (Return 1,
           [Fork; FclosePidf; Umask 0; Setsid; Chdir "/";
            Log LOG_LEVEL_ERROR "Couldn't change working directory to '/'. Exiting.\n" []]))
  /\ (fork env = 0 -> 0 <= setsid env -> 0 <= chdir env ->
      r = (Continue tt,
           [Fork; FclosePidf; Umask 0; Setsid; Chdir "/"]
           ++ (if is_stdout log_backend then []
               else [Close STDOUT_FILENO; Close STDIN_FILENO; Close STDERR_FILENO]))).
Proof.
  intros Hopen. cbn zeta. unfold main_daemonize. rewrite Hopen. cbn [negb].
  repeat split.
  - intros Hpid. replace (fork env >? 0) with true by (symmetry; lia). reflexivity.
  - intros Hpid. replace (fork env >? 0) with false by (symmetry; lia).
    replace (fork env <? 0) with true by (symmetry; lia). reflexivity.
  - intros Hpid Hsid. rewrite Hpid. cbn [Z.gtb Z.ltb Z.compare].
    replace (setsid env <? 0) with true by (symmetry; lia). reflexivity.
  - intros Hpid Hsid Hdir. rewrite Hpid. cbn [Z.gtb Z.ltb Z.compare].
    replace (setsid env <? 0) with false by (symmetry; lia).
    replace (chdir env <? 0) with true by (symmetry; lia). reflexivity.
  - intros Hpid Hsid Hdir. rewrite Hpid. cbn [Z.gtb Z.ltb Z.compare].
    replace (setsid env <? 0) with false by (symmetry; lia).
    replace (chdir env <? 0) with false by (symmetry; lia).
    destruct log_backend; reflexivity.
Qed.

(* ----------------------------------------------------------------- *)
(** *** The connection state *)

(** [main] enters its loop in the waiting state. *)
Lemma loop_init_value (enable_lan_discovery : Z) :
  value (loop_init enable_lan_discovery) = loop_start.
Proof. unfold loop_init. rewrite value_bind. reflexivity. Qed.

Lemma connected_lines_app (t1 t2 : list event) :
  connected_lines (t1 ++ t2) = (connected_lines t1 + connected_lines t2)%nat.
Proof. unfold connected_lines. rewrite filter_app, length_app. reflexivity. Qed.

Section LoopProofs.

Variable I : Z.
Variable env : environment.
Variables lan tcp hport : Z.

Lemma loop_body_connection (k : nat) (st : loop_state) :
  let r := loop_body I env lan tcp hport k st in
  waiting_for_dht_connection (value r)
  = (if connects env k st then 0 else waiting_for_dht_connection st)
  /\ connected_lines (trace r) = (if connects env k st then 1 else 0)%nat.
Proof.
  cbn zeta. unfold loop_body, connects. w_simpl.
  rewrite !connected_lines_app.
  destruct (negb (lan =? 0) && is_timeout env k (last_LANdiscovery st) I);
    destruct (negb (tcp =? 0));
    destruct (negb (waiting_for_dht_connection st =? 0)
              && negb (DHT_isconnected env k =? 0));
    split; reflexivity.
Qed.

(** After [n] turns from turn [k]: the state has left waiting exactly if it
    was waiting and one of the turns saw a connection, and that is also
    when the line was logged, once. *)
Lemma main_loop_connection :
  forall (n k : nat) (st : loop_state),
    let r := main_loop I env lan tcp hport n k st in
    let change := negb (waiting_for_dht_connection st =? 0) && connected_within env k n in
    waiting_for_dht_connection (value r)
    = (if change then 0 else waiting_for_dht_connection st)
    /\ connected_lines (trace r) = (if change then 1 else 0)%nat.
Proof.
  induction n as [| n IH]; intros k st; cbn zeta.
  - unfold connected_within. cbn [seq existsb main_loop]. rewrite andb_false_r.
    split; reflexivity.
  - cbn [main_loop]. rewrite value_bind, trace_bind, connected_lines_app.
    destruct (loop_body_connection k st) as [Hw Hc]. cbn zeta in Hw, Hc.
    destruct (IH (S k) (value (loop_body I env lan tcp hport k st))) as [Hw' Hc'].
    cbn zeta in Hw', Hc'. rewrite Hw', Hc', Hc, Hw.
    unfold connected_within in *. cbn [seq existsb]. unfold connects.
    destruct (waiting_for_dht_connection st =? 0) eqn:E0; cbn [negb andb].
    + rewrite E0. split; reflexivity.
    + destruct (negb (DHT_isconnected env k =? 0)); cbn [orb negb andb Z.eqb].
      * split; reflexivity.
      * rewrite E0. cbn [negb andb].
        destruct (existsb _ (seq (S k) n)); split; reflexivity.
Qed.

Lemma connected_within_mono (n m : nat) :
  (n <= m)%nat -> connected_within env 0 n = true -> connected_within env 0 m = true.
Proof.
  unfold connected_within. intros Hle H.
  apply existsb_exists in H as [j [Hin Hj]].
  apply existsb_exists. exists j. split; [| exact Hj].
  apply in_seq in Hin. apply in_seq. lia.
Qed.

(** C7 (as the code has it). In the main loop the connection state only
    ever goes from waiting (1) to connected (0): it is connected after
    [n] turns exactly if one of those turns found the DHT connected, and
    then it is connected after any larger number of turns. The line
    "Connected to other bootstrap node successfully." is in the log once
    if the state has changed and not at all before, so never more than
    once. *)
Theorem connection_state_monotone (n : nat) :
  let run := fun n => main_loop I env lan tcp hport n 0 loop_start in
  let waiting := fun n => waiting_for_dht_connection (value (run n)) in
  (waiting n = 1 \/ waiting n = 0)
  /\ (waiting n = 0 <-> connected_within env 0 n = true)
  /\ (forall m, (n <= m)%nat -> waiting n = 0 -> waiting m = 0)
  /\ connected_lines (trace (run n)) = (if waiting n =? 0 then 1%nat else 0%nat)
  /\ (connected_lines (trace (run n)) <= 1)%nat.
Proof.
  cbn zeta.
  assert (Hrun : forall j,
             waiting_for_dht_connection
               (value (main_loop I env lan tcp hport j 0 loop_start))
             = (if connected_within env 0 j then 0 else 1)
             /\ connected_lines (trace (main_loop I env lan tcp hport j 0 loop_start))
                = (if connected_within env 0 j then 1 else 0)%nat).
  { intros j. destruct (main_loop_connection j 0 loop_start) as [Hw Hc].
    cbn zeta in Hw, Hc. cbn [loop_start waiting_for_dht_connection Z.eqb negb andb] in *.
    split; assumption. }
  destruct (Hrun n) as [Hw Hc]. rewrite Hw, Hc.
  destruct (connected_within env 0 n) eqn:En; cbn [Z.eqb].
  - repeat split; auto.
    intros m Hle _. destruct (Hrun m) as [Hwm _]. rewrite Hwm.
    rewrite (connected_within_mono n m Hle En). reflexivity.
  - repeat split; auto; try discriminate.
Qed.

End LoopProofs.

Lemma quiet_env_never_connected (n : nat) : connected_within quiet_env 0 n = false.
Proof.
  unfold connected_within. generalize 0%nat.
  induction n as [| n IH]; intros k; cbn [seq existsb]; [reflexivity |].
  rewrite IH. reflexivity.
Qed.

(* ----------------------------------------------------------------- *)
(** *** The model of [main] always has fuel *)

Ltac stage_cases :=
  repeat match goal with
         | |- context [if ?b then _ else _] => destruct b
         | |- context [match ?x with Some _ => _ | None => _ end] => destruct x
         end.

Lemma main_bootstrap_has_fuel (PK : nat) (env : environment) (path : string)
      (enable_ipv6 : Z) :
  value (main_bootstrap PK env path enable_ipv6) <> NoFuel.
Proof.
  unfold main_bootstrap. rewrite value_bind, bootstrap_from_config_value.
  destruct (config_read_file env path); cbn; discriminate.
Qed.

(** [main] returns or is in its loop: the bound on the bootstrap loop is
    never what ends it. *)
Lemma main_has_fuel (D : string) (M PK SK : nat) (I : Z) (env : environment)
      (path : string) (backend : LOG_BACKEND) (locals : general_config) (n : nat) :
  value (main D M PK SK I env path backend locals n) <> NoFuel.
Proof.
  unfold main, bindo. rewrite !value_bind.
  destruct (value (main_config D M env path locals)) as [c | code |] eqn:Ec;
    [| discriminate |].
  2:{ exfalso. revert Ec. unfold main_config. rewrite value_bind.
      stage_cases; w_simpl; discriminate. }
  rewrite !value_bind.
  destruct (value (main_networking env (enable_ipv6 c) (enable_ipv4_fallback c) (port c)))
    as [v6 | code |] eqn:En; [| discriminate |].
  2:{ exfalso. revert En. unfold main_networking. stage_cases; w_simpl; discriminate. }
  rewrite !value_bind.
  destruct (value (main_engine env)) as [dht | code |] eqn:Ee; [| discriminate |].
  2:{ exfalso. revert Ee. unfold main_engine. stage_cases; w_simpl; discriminate. }
  rewrite !value_bind.
  destruct (value (main_motd env (enable_motd c) (motd c))) as [u | code |] eqn:Em;
    [| discriminate |].
  2:{ exfalso. revert Em. unfold main_motd. stage_cases; w_simpl; discriminate. }
  rewrite !value_bind.
  destruct (value (main_keys PK SK env dht (deref (keys_file_path c) "")))
    as [dht' | code |] eqn:Ek; [| discriminate |].
  2:{ exfalso. revert Ek. unfold main_keys.
      destruct (manage_keys PK SK (keys_env env) (files env) dht
                            (deref (keys_file_path c) "")) as [[r fs'] d].
      stage_cases; w_simpl; discriminate. }
  rewrite !value_bind.
  destruct (value (main_tcp_relay env c v6 dht')) as [u' | code |] eqn:Et;
    [| discriminate |].
  2:{ exfalso. revert Et. unfold main_tcp_relay. stage_cases; w_simpl; discriminate. }
  rewrite !value_bind.
  destruct (value (main_bootstrap PK env path v6)) as [u'' | code |] eqn:Eb;
    [| discriminate |].
  2:{ exfalso. exact (main_bootstrap_has_fuel PK env path v6 Eb). }
  rewrite !value_bind.
  destruct (value (main_daemonize env (deref (pid_file_path c) "") backend))
    as [u''' | code |] eqn:Ed; [| discriminate |].
  2:{ exfalso. revert Ed. unfold main_daemonize. stage_cases; w_simpl; discriminate. }
  rewrite !value_bind. cbn. discriminate.
Qed.

(* ================================================================= *)
(** ** The theorems at concrete inputs *)

(** C3 (the claim as stated fails). A key file of 65 bytes, one more than a
    32-byte public key and a 32-byte secret key, is not rejected:
    [manage_keys] returns 1 and loads its first 64 bytes. *)
Lemma long_key_file_is_loaded :
  fs_long_key_file "tox-bootstrapd.keys" = Some long_key_file
  /\ List.length long_key_file <> (32 + 32)%nat
  /\ manage_keys 32 32 writable fs_long_key_file fresh_dht "tox-bootstrapd.keys"
     = (1, fs_long_key_file,
        {| self_public_key := repeat Byte.x2a 32;
           self_secret_key := repeat Byte.x2a 32 |}).
Proof.
  split; [reflexivity |]. split; [| reflexivity].
  cbn. discriminate.
Qed.

Lemma manage_keys_existing_file_witness :
  manage_keys 32 32 writable fs_long_key_file fresh_dht "tox-bootstrapd.keys"
  = (1, fs_long_key_file,
     {| self_public_key := firstn 32 long_key_file;
        self_secret_key := firstn 32 (skipn 32 long_key_file) |})
  /\ manage_keys 32 32 writable fs_short_key_file fresh_dht "tox-bootstrapd.keys"
     = (0, fs_short_key_file, fresh_dht).
Proof.
  split.
  - apply (manage_keys_existing_file 32 32 writable fs_long_key_file fresh_dht
             "tox-bootstrapd.keys" long_key_file).
    + reflexivity.
    + cbn. lia.
  - apply (manage_keys_existing_file 32 32 writable fs_short_key_file fresh_dht
             "tox-bootstrapd.keys" short_key_file).
    + reflexivity.
    + cbn. lia.
Defined.


(** A second run that starts from other keys ends with the first run's. *)
Example reload_replaces_fresh_keys :
  let '(_, fs', _) :=
    manage_keys 32 32 writable fs_empty fresh_dht "tox-bootstrapd.keys" in
  manage_keys 32 32 writable fs' other_dht "tox-bootstrapd.keys"
  = (1, fs', fresh_dht).
Proof. reflexivity. Qed.

(** C5 (the claim as stated fails). With [tcp_relay_ports = 443], a scalar,
    [get_general_config] returns 1 whether the relay is on or off; with the
    relay off, [main] reaches its loop. *)
Lemma scalar_relay_ports_not_fatal :
  config_lookup cfg_relay_ports_scalar NAME_TCP_RELAY_PORTS = Some (SInt 443)
  /\ config_setting_is_array (SInt 443) = false
  /\ fst (value (get_general_config "tox-bootstrapd" 256 (inr cfg_relay_ports_scalar)
                                    unset_locals)) = 1
  /\ fst (value (get_general_config "tox-bootstrapd" 256 (inr cfg_relay_off_ports_scalar)
                                    unset_locals)) = 1
  /\ value (main "tox-bootstrapd" 256 32 32 10 relay_off_env "tox-bootstrapd.conf"
                 LOG_BACKEND_SYSLOG unset_locals 2)
     = Continue loop_start.
Proof. repeat split; reflexivity. Qed.

Lemma relay_ports_not_array_witness :
  tcp_relay_port_count
    (snd (value (get_general_config "tox-bootstrapd" 256 (inr cfg_relay_ports_scalar)
                                    unset_locals))) = 0
  /\ tcp_relay_ports
       (snd (value (get_general_config "tox-bootstrapd" 256 (inr cfg_relay_ports_scalar)
                                       unset_locals))) = Indeterminate.
Proof.
  destruct (relay_ports_not_array "tox-bootstrapd" 256 cfg_relay_ports_scalar
              unset_locals (SInt 443) eq_refl eq_refl) as (_ & Hcount & Hptr & _).
  split; [exact Hcount | exact Hptr].
Defined.

(** With the relay on, the same file makes [main] return 1, after the key
    file has been dealt with. *)
Example scalar_relay_ports_stop_main :
  value (main "tox-bootstrapd" 256 32 32 10 relay_scalar_env "tox-bootstrapd.conf"
              LOG_BACKEND_SYSLOG unset_locals 2)
  = Return 1.
Proof. reflexivity. Qed.

Lemma motd_terminated_and_bounded_witness :
  exists m : list ascii,
    motd default_config = Heap m
    /\ (List.length m <= 256)%nat
    /\ (strlen m + 1 = List.length m)%nat.
Proof.
  destruct (motd_terminated_and_bounded "tox-bootstrapd" 256 cfg_empty unset_locals
              ltac:(lia) ltac:(vm_compute; discriminate))
    as (m & Hm & Hlen & Hterm & _).
  exists m. repeat split; assumption.
Defined.

(** A long MOTD is cut to the limit and still terminated. *)
Example motd_is_cut :
  copy_motd 8 "tox-bootstrapd" = list_ascii_of_string "tox-boo" ++ [NUL].
Proof. reflexivity. Qed.

(** C7 (the claim as stated fails). When the DHT never reports a
    connection the line is never logged, so it is not in the log exactly
    once. *)
Lemma never_connected_never_logged :
  ~ logged_exactly_once 10 quiet_env 1 1 33445.
Proof.
  intros [N H]. specialize (H N (Nat.le_refl N)).
  destruct (main_loop_connection 10 quiet_env 1 1 33445 N 0 loop_start) as [_ Hc].
  cbn zeta in Hc. rewrite quiet_env_never_connected in Hc.
  rewrite andb_false_r in Hc. rewrite Hc in H. discriminate.
Qed.

(** With a connection reported from turn 2 on, the line is logged in turn 2
    and not again. *)
Example connected_logged_once :
  map (fun n => connected_lines (trace (main_loop 10 late_env 1 1 33445 n 0 loop_start)))
      [0; 1; 2; 3; 4; 5]%nat
  = [0; 0; 0; 1; 1; 1]%nat.
Proof. reflexivity. Qed.

Lemma daemonize_parent_and_child_witness :
  main_daemonize parent_env "tox-bootstrapd.pid" LOG_BACKEND_SYSLOG
  = (Return 0,
     [Fork; FprintfPid 4711; FclosePidf;
      Log LOG_LEVEL_INFO "Forked successfully: PID: %d.\n" [AInt 4711]])
  /\ main_daemonize quiet_env "tox-bootstrapd.pid" LOG_BACKEND_SYSLOG
     = (Continue tt,
        [Fork; FclosePidf; Umask 0; Setsid; Chdir "/"]
        ++ [Close STDOUT_FILENO; Close STDIN_FILENO; Close STDERR_FILENO])
  /\ main_daemonize fork_failed_env "tox-bootstrapd.pid" LOG_BACKEND_SYSLOG
     = (Return 1,
        [Fork; FclosePidf; Log LOG_LEVEL_ERROR "Forking failed. Exiting.\n" []]).
Proof.
  split; [| split].
  - destruct (daemonize_parent_and_child parent_env "tox-bootstrapd.pid"
                LOG_BACKEND_SYSLOG eq_refl) as (Hparent & _).
    apply Hparent. reflexivity.
  - destruct (daemonize_parent_and_child quiet_env "tox-bootstrapd.pid"
                LOG_BACKEND_SYSLOG eq_refl) as (_ & _ & _ & _ & Hchild).
    apply Hchild; [reflexivity | discriminate | discriminate].
  - destruct (daemonize_parent_and_child fork_failed_env "tox-bootstrapd.pid"
                LOG_BACKEND_SYSLOG eq_refl) as (_ & Hfailed & _).
    apply Hfailed. reflexivity.
Defined.

(** The child under both log backends, and [main] as a whole in the parent
    and in the child. *)
Example daemonize_child :
  main_daemonize quiet_env "tox-bootstrapd.pid" LOG_BACKEND_SYSLOG
  = (Continue tt, [Fork; FclosePidf; Umask 0; Setsid; Chdir "/";
                   Close 1; Close 0; Close 2])
  /\ main_daemonize quiet_env "tox-bootstrapd.pid" LOG_BACKEND_STDOUT
     = (Continue tt, [Fork; FclosePidf; Umask 0; Setsid; Chdir "/"])
  /\ value (main "tox-bootstrapd" 256 32 32 10 parent_env "tox-bootstrapd.conf"
                 LOG_BACKEND_SYSLOG unset_locals 2) = Return 0
  /\ value (main "tox-bootstrapd" 256 32 32 10 quiet_env "tox-bootstrapd.conf"
                 LOG_BACKEND_SYSLOG unset_locals 2) = Continue loop_start.
Proof. repeat split; reflexivity. Qed.

Lemma networking_single_fallback_witness :
  bind_attempts
    (trace (main_networking ipv4_only_env (enable_ipv6 default_config)
                            (enable_ipv4_fallback default_config) (port default_config)))
  = [NewNetworking 1 33445; NewNetworking 0 33445]
  /\ value (main_networking ipv4_only_env (enable_ipv6 default_config)
                            (enable_ipv4_fallback default_config) (port default_config))
     = Continue 0.
Proof.
  destruct (networking_single_fallback "tox-bootstrapd" 256 32 32 10 ipv4_only_env
              "tox-bootstrapd.conf" LOG_BACKEND_SYSLOG unset_locals default_config
              eq_refl eq_refl) as (Hcalls & Hvalue & _).
  split; [exact Hcalls | exact Hvalue].
Defined.

(** Without any socket the fallback is tried once and [main] returns 1. *)
Example no_network_stops_main :
  value (main "tox-bootstrapd" 256 32 32 10 no_network_env "tox-bootstrapd.conf"
              LOG_BACKEND_SYSLOG unset_locals 2) = Return 1
  /\ bind_attempts
       (trace (main "tox-bootstrapd" 256 32 32 10 no_network_env "tox-bootstrapd.conf"
                    LOG_BACKEND_SYSLOG unset_locals 2))
     = [NewNetworking 1 33445; NewNetworking 0 33445].
Proof. split; reflexivity. Qed.

(* ================================================================= *)
(** ** Further properties: the relay ports *)

Lemma relay_ports_of_in_range (elems : list setting) :
  Forall (fun p => 1 <= p <= 65535) (relay_ports_of elems).
Proof.
  unfold relay_ports_of. apply Forall_forall. intros p Hin.
  apply filter_In in Hin as [_ Hp]. apply negb_true_iff in Hp.
  apply port_out_of_range_spec. exact Hp.
Qed.

Lemma relay_ports_of_valid (vs : list Z) :
  Forall (fun v => 1 <= v <= 65535) vs -> relay_ports_of (map SInt vs) = vs.
Proof.
  unfold relay_ports_of. induction 1 as [| v vs Hv _ IH]; [reflexivity |].
  cbn [map filter config_setting_is_number config_setting_get_int].
  assert (Hu : to_uint16 v = v) by (unfold to_uint16; apply Z.mod_small; lia).
  rewrite Hu.
  replace (port_out_of_range v) with false
    by (symmetry; apply port_out_of_range_spec; exact Hv).
  cbn [negb]. f_equal. exact IH.
Qed.

(** The result of [parse_tcp_relay_ports_config] in each of its cases. *)
Lemma parse_tcp_relay_ports_config_cases (cfg : config) (old : ptr (list Z)) :
  value (parse_tcp_relay_ports_config cfg old) = (Heap [443; 3389; 33445], 3)
  \/ value (parse_tcp_relay_ports_config cfg old) = (old, 0)
  \/ exists elems,
      value (parse_tcp_relay_ports_config cfg old)
      = (match relay_ports_of elems with [] => Null | ports => Heap ports end,
         Z.of_nat (List.length (relay_ports_of elems))).
Proof.
  destruct (config_lookup cfg NAME_TCP_RELAY_PORTS) as [s |] eqn:El.
  - destruct s as [v | | b | str | elems | l | m];
      try (right; left; unfold parse_tcp_relay_ports_config; rewrite El; reflexivity).
    destruct elems as [| e elems].
    + right; left. unfold parse_tcp_relay_ports_config. rewrite El. reflexivity.
    + right; right. exists (e :: elems).
      apply parse_tcp_relay_ports_config_array; [exact El | discriminate].
  - left. unfold parse_tcp_relay_ports_config. rewrite El. reflexivity.
Qed.

(** X1. After [parse_tcp_relay_ports_config] the count is never negative;
    when it is positive [*tcp_relay_ports] is an allocated array of exactly
    that many ports, each in [1, 65535]; when it is 0 the pointer is NULL or
    was not touched, so there is nothing to free. *)
Theorem relay_ports_owned_iff_counted (cfg : config) (old : ptr (list Z)) :
  let r := value (parse_tcp_relay_ports_config cfg old) in
  0 <= snd r
  /\ (0 < snd r ->
      exists ports, fst r = Heap ports
                    /\ Z.of_nat (List.length ports) = snd r
                    /\ Forall (fun p => 1 <= p <= 65535) ports)
  /\ (snd r = 0 -> fst r = Null \/ fst r = old).
Proof.
  cbn zeta.
  destruct (parse_tcp_relay_ports_config_cases cfg old) as [H | [H | [elems H]]];
    rewrite H; cbn [fst snd].
  - split; [lia |]. split; [| discriminate].
    intros _. exists [443; 3389; 33445]. split; [reflexivity |]. split; [reflexivity |].
    repeat constructor; lia.
  - split; [lia |]. split; [lia | intros _; right; reflexivity].
  - pose proof (relay_ports_of_in_range elems) as Hr.
    destruct (relay_ports_of elems) as [| p ports].
    + split; [simpl; lia |]. split; [simpl; lia | intros _; left; reflexivity].
    + split; [lia |]. split; [| simpl List.length; lia].
      intros _. exists (p :: ports). auto.
Qed.


(** X2. An array of ports that all lie in [1, 65535] is taken over as it
    is: same ports, same order, duplicates kept, the count is its length. *)
Theorem valid_relay_ports_kept_in_order (cfg : config) (vs : list Z)
        (old : ptr (list Z)) :
  config_lookup cfg NAME_TCP_RELAY_PORTS = Some (SArray (map SInt vs)) ->
  vs <> [] ->
  Forall (fun v => 1 <= v <= 65535) vs ->
  value (parse_tcp_relay_ports_config cfg old) = (Heap vs, Z.of_nat (List.length vs)).
Proof.
  intros Hl Hne Hvs.
  rewrite (parse_tcp_relay_ports_config_array cfg (map SInt vs) old Hl)
    by (destruct vs; [congruence | discriminate]).
  rewrite (relay_ports_of_valid vs Hvs).
  destruct vs; [congruence | reflexivity].
Qed.

Lemma valid_relay_ports_kept_in_order_witness :
  value (parse_tcp_relay_ports_config cfg_relay_ports_valid Indeterminate)
  = (Heap [33445; 443; 33445], 3).
Proof.
  apply (valid_relay_ports_kept_in_order cfg_relay_ports_valid [33445; 443; 33445]
           Indeterminate).
  - reflexivity.
  - discriminate.
  - repeat constructor; lia.
Defined.

(** The loop over the array logs one warning for each element it does not
    keep, and nothing else. *)
Lemma config_ports_loop_warnings (elems : list setting) :
  forall (n i : nat) (buf : list Z) (cnt : nat),
    (i + n = List.length elems)%nat ->
    let r := config_ports_loop (SArray elems) n i buf cnt in
    (List.length (trace r) + snd (value r) = cnt + n)%nat
    /\ Forall (fun e => is_warning e = true) (trace r).
Proof.
  induction n as [| n IH]; intros i buf cnt Hn; cbn zeta.
  - simpl. split; [lia | constructor].
  - cbn [config_ports_loop]. unfold config_setting_get_elem; cbn [children].
    destruct (nth_error elems i) as [elem |] eqn:E.
    2:{ apply nth_error_None in E. lia. }
    destruct (config_setting_is_number elem); cbn [negb].
    + set (buf' := store buf cnt (to_uint16 (config_setting_get_int elem))).
      destruct (port_out_of_range (nth cnt buf' 0)).
      * rewrite trace_bind, value_bind. cbn [trace value write_log emit fst snd app].
        destruct (IH (S i) buf' cnt ltac:(lia)) as [H1 H2]. cbn zeta in H1.
        cbn [List.length]. split; [unfold value, trace in *; lia |].
        constructor; [reflexivity | exact H2].
      * destruct (IH (S i) buf' (S cnt) ltac:(lia)) as [H1 H2]. cbn zeta in H1.
        split; [lia | exact H2].
    + rewrite trace_bind, value_bind. cbn [trace value write_log emit fst snd app].
      destruct (IH (S i) buf cnt ltac:(lia)) as [H1 H2]. cbn zeta in H1.
      cbn [List.length]. split; [unfold value, trace in *; lia |].
      constructor; [reflexivity | exact H2].
Qed.

(** X3. When [tcp_relay_ports] is a non-empty array, every element is
    either counted as a port or reported by exactly one warning, and the
    function logs nothing but these warnings. *)
Theorem relay_port_elements_accounted (cfg : config) (elems : list setting)
        (old : ptr (list Z)) :
  config_lookup cfg NAME_TCP_RELAY_PORTS = Some (SArray elems) ->
  elems <> [] ->
  let r := parse_tcp_relay_ports_config cfg old in
  Z.of_nat (List.length (trace r)) + snd (value r) = Z.of_nat (List.length elems)
  /\ Forall (fun e => is_warning e = true) (trace r).
Proof.
  intros Hl Hne. cbn zeta. unfold parse_tcp_relay_ports_config. rewrite Hl.
  cbn [config_setting_is_array negb]. unfold config_setting_length; cbn [children].
  destruct (Z.eqb_spec (Z.of_nat (List.length elems)) 0) as [E | E].
  { destruct elems; [congruence | simpl in E; lia]. }
  rewrite trace_bind, value_bind, Nat2Z.id. cbn [trace value ret fst snd].
  rewrite app_nil_r.
  destruct (config_ports_loop_warnings elems (List.length elems) 0
              (repeat 0 (List.length elems)) 0 eq_refl) as [H1 H2].
  cbn zeta in H1. split; [unfold value, trace in *; lia | exact H2].
Qed.

Lemma relay_port_elements_accounted_witness :
  Z.of_nat (List.length (trace (parse_tcp_relay_ports_config cfg_relay_ports_mixed
                                                              Indeterminate)))
  + snd (value (parse_tcp_relay_ports_config cfg_relay_ports_mixed Indeterminate))
  = 5.
Proof.
  destruct (relay_port_elements_accounted cfg_relay_ports_mixed
              [SInt 443; SString "http"; SInt 0; SInt 3389; SFloat] Indeterminate
              eq_refl ltac:(discriminate)) as [H _].
  exact H.
Defined.

(* ================================================================= *)
(** ** Further properties: the configuration as a whole *)

(** The relay ports in the result of [get_general_config]. *)
Lemma get_general_config_relay_ports (D : string) (M : nat) (cfg : config)
      (o : general_config) :
  let c := snd (value (get_general_config D M (inr cfg) o)) in
  0 <= tcp_relay_port_count c
  /\ (0 < tcp_relay_port_count c ->
      enable_tcp_relay c <> 0
      /\ exists ports, tcp_relay_ports c = Heap ports
                       /\ Z.of_nat (List.length ports) = tcp_relay_port_count c
                       /\ Forall (fun p => 1 <= p <= 65535) ports).
Proof.
  cbn zeta. rewrite get_general_config_parsed.
  cbn [snd tcp_relay_port_count tcp_relay_ports enable_tcp_relay].
  set (relay := bool_setting cfg NAME_ENABLE_TCP_RELAY DEFAULT_ENABLE_TCP_RELAY).
  destruct (Z.eqb_spec relay 0) as [E | E]; cbn [negb fst snd]; [split; lia |].
  destruct (parse_tcp_relay_ports_config_cases cfg (tcp_relay_ports o))
    as [H | [H | [elems H]]]; rewrite H; cbn [fst snd].
  - split; [lia |]. intros _. split; [exact E |]. exists [443; 3389; 33445].
    split; [reflexivity |]. split; [reflexivity |]. repeat constructor; lia.
  - split; lia.
  - pose proof (relay_ports_of_in_range elems) as Hr.
    destruct (relay_ports_of elems) as [| p ports].
    + split; simpl; lia.
    + split; [lia |]. intros _. split; [exact E |]. exists (p :: ports). auto.
Qed.

(** X4. After a successful [get_general_config] the two paths are always
    allocated; the relay ports are allocated exactly when their count is
    positive, and then there are that many, each in [1, 65535]; with the
    relay disabled the count is 0 and the ports pointer is not touched; with
    the MOTD disabled the MOTD pointer is not touched. *)
Theorem get_general_config_owned (D : string) (M : nat) (cfg : config)
        (o : general_config) :
  let c := snd (value (get_general_config D M (inr cfg) o)) in
  (exists p k, pid_file_path c = Heap p /\ keys_file_path c = Heap k)
  /\ 0 <= tcp_relay_port_count c
  /\ (0 < tcp_relay_port_count c ->
      enable_tcp_relay c <> 0
      /\ exists ports, tcp_relay_ports c = Heap ports
                       /\ Z.of_nat (List.length ports) = tcp_relay_port_count c
                       /\ Forall (fun p => 1 <= p <= 65535) ports)
  /\ (enable_tcp_relay c = 0 ->
      tcp_relay_port_count c = 0 /\ tcp_relay_ports c = tcp_relay_ports o)
  /\ (enable_motd c = 0 -> motd c = motd o).
Proof.
  cbn zeta.
  destruct (get_general_config_relay_ports D M cfg o) as [Hp0 Hp1].
  cbn zeta in Hp0, Hp1.
  split; [| split; [exact Hp0 | split; [exact Hp1 |]]];
    rewrite get_general_config_parsed;
    cbn [snd pid_file_path keys_file_path tcp_relay_port_count tcp_relay_ports
             enable_tcp_relay enable_motd motd].
  - do 2 eexists; split; reflexivity.
  - split.
    + intros Hoff. rewrite Hoff. split; reflexivity.
    + intros Hoff. rewrite Hoff. reflexivity.
Qed.

(** X5. [main] gets past its configuration stage exactly when the file
    parses and the listen port, configured or default, lies in [1, 65535];
    it then works with what [get_general_config] returned. In every other
    case it returns 1. *)
Theorem main_config_outcome (D : string) (M : nat) (env : environment)
        (path : string) (locals : general_config) :
  value (main_config D M env path locals)
  = match config_read_file env path with
    | inl _ => Return 1
    | inr cfg =>
        let p := int_setting cfg NAME_PORT DEFAULT_PORT in
        if (1 <=? p) && (p <=? 65535)
        then Continue (snd (value (get_general_config D M (inr cfg) locals)))
        else Return 1
    end.
Proof.
  unfold main_config. rewrite value_bind.
  destruct (config_read_file env path) as [[[file line] text] | cfg].
  - reflexivity.
  - rewrite get_general_config_parsed. cbn [fst snd Z.eqb negb port].
    rewrite value_bind. cbn zeta. cbn [port].
    rewrite port_out_of_range_bounds.
    destruct ((1 <=? int_setting cfg NAME_PORT DEFAULT_PORT)
              && (int_setting cfg NAME_PORT DEFAULT_PORT <=? 65535)); reflexivity.
Qed.

(* ================================================================= *)
(** ** Further properties: the key file *)

(** X6. [manage_keys] returns 0 or 1. It never changes a file other than
    the key file, and never changes a key file that it can open for reading
    (the only test of existence it makes: a key file that cannot be opened
    for reading is written like a missing one); when it returns 0 the keys
    of the [DHT] are the ones it was called with. *)
Theorem manage_keys_frame (PK SK : nat) (env : write_env) (fs : filesystem)
        (dht : DHT) (path : string) :
  let r := manage_keys PK SK env fs dht path in
  (fst (fst r) = 0 \/ fst (fst r) = 1)
  /\ (forall p, p <> path -> snd (fst r) p = fs p)
  /\ (forall content, fs path = Some content -> snd (fst r) = fs)
  /\ (fst (fst r) = 0 -> snd r = dht).
Proof.
  cbn zeta. unfold manage_keys.
  destruct (fs path) as [content |] eqn:Efile.
  - destruct (negb (List.length (firstn (PK + SK) content) =? PK + SK)%nat);
      cbn [fst snd]; repeat split; auto; discriminate.
  - destruct (fopen_w_ok env); cbn [negb].
    + cbn zeta.
      destruct (negb (Nat.min (fwrite_room env) (PK + SK) =? PK + SK)%nat);
        cbn [fst snd]; repeat split; auto;
        try discriminate; intros p Hp; apply fs_put_other; exact Hp.
    + cbn [fst snd]. repeat split; auto; discriminate.
Qed.

(** X7. A key file that could be opened but not written in full stays
    behind, shorter than a key pair; from then on every run of
    [manage_keys] on it fails without touching it, whatever the system
    allows by then. *)
Theorem short_write_blocks_later_runs (PK SK : nat) (env : write_env)
        (fs : filesystem) (dht : DHT) (path : string) :
  fs path = None ->
  fopen_w_ok env = true ->
  (fwrite_room env < PK + SK)%nat ->
  exists fs' content,
    manage_keys PK SK env fs dht path = (0, fs', dht)
    /\ fs' path = Some content
    /\ (List.length content < PK + SK)%nat
    /\ forall (env2 : write_env) (dht2 : DHT),
        manage_keys PK SK env2 fs' dht2 path = (0, fs', dht2).
Proof.
  intros Hfile Hopen Hroom.
  set (keys := firstn PK (self_public_key dht) ++ firstn SK (self_secret_key dht)).
  set (content := firstn (Nat.min (Nat.min (fwrite_room env) (PK + SK))
                                 (fclose_stored env)) keys).
  assert (Hlen : (List.length content < PK + SK)%nat)
    by (subst content; rewrite length_firstn; lia).
  exists (fs_put fs path content), content.
  split; [| split; [apply fs_put_same | split; [exact Hlen |]]].
  - unfold manage_keys. rewrite Hfile, Hopen. cbn [negb]. cbn zeta.
    fold keys. fold content.
    replace (Nat.min (fwrite_room env) (PK + SK) =? PK + SK)%nat with false
      by (symmetry; apply Nat.eqb_neq; lia).
    reflexivity.
  - intros env2 dht2.
    apply manage_keys_short_read with (content := content);
      [apply fs_put_same | exact Hlen].
Qed.

Lemma short_write_blocks_later_runs_witness :
  exists fs' content,
    manage_keys 32 32 no_room fs_empty fresh_dht "tox-bootstrapd.keys"
    = (0, fs', fresh_dht)
    /\ fs' "tox-bootstrapd.keys" = Some content
    /\ (List.length content < 32 + 32)%nat
    /\ forall (env2 : write_env) (dht2 : DHT),
        manage_keys 32 32 env2 fs' dht2 "tox-bootstrapd.keys" = (0, fs', dht2).
Proof.
  apply (short_write_blocks_later_runs 32 32 no_room fs_empty fresh_dht
           "tox-bootstrapd.keys").
  - reflexivity.
  - reflexivity.
  - cbn. lia.
Defined.

(** X8. [manage_keys] keeps the key arrays at their declared sizes. A
    successful load leaves the file as it was and puts its first
    [KEYS_SIZE] bytes into the [DHT]: the public key, then the secret key.
    A successful creation keeps the keys of the [DHT], but the file holds
    no more of the key pair than reached it when it was closed, since the
    result of [fclose] is not looked at: if that is less than a key pair,
    [manage_keys] has returned 1 and every later run on that file returns
    0; if it is all of it, the file holds the key pair. *)
Theorem manage_keys_sizes_and_file (PK SK : nat) (env : write_env) (fs : filesystem)
        (dht : DHT) (path : string) :
  dht_wf PK SK dht ->
  let r := manage_keys PK SK env fs dht path in
  dht_wf PK SK (snd r)
  /\ (forall old, fs path = Some old -> fst (fst r) = 1 ->
      snd (fst r) = fs
      /\ firstn (PK + SK) old = self_public_key (snd r) ++ self_secret_key (snd r))
  /\ (fs path = None -> fst (fst r) = 1 ->
      snd r = dht
      /\ snd (fst r) path
         = Some (firstn (fclose_stored env)
                        (self_public_key dht ++ self_secret_key dht))
      /\ ((fclose_stored env < PK + SK)%nat ->
          forall (env2 : write_env) (dht2 : DHT),
            manage_keys PK SK env2 (snd (fst r)) dht2 path = (0, snd (fst r), dht2))
      /\ ((PK + SK <= fclose_stored env)%nat ->
          snd (fst r) path = Some (self_public_key dht ++ self_secret_key dht))).
Proof.
  intros [Hpk Hsk]. cbn zeta. unfold manage_keys.
  destruct (fs path) as [content |] eqn:Efile.
  - rewrite length_firstn.
    destruct (Nat.eqb_spec (Nat.min (PK + SK) (List.length content)) (PK + SK))
      as [E | E]; cbn [negb fst snd].
    + split; [| split].
      * split; cbn [self_public_key self_secret_key].
        -- rewrite length_firstn, length_firstn. lia.
        -- rewrite length_firstn, length_skipn, length_firstn. lia.
      * intros old Hold _. injection Hold as <-. split; [reflexivity |].
        cbn [self_public_key self_secret_key].
        rewrite <- (firstn_skipn PK (firstn (PK + SK) content)) at 1.
        f_equal. rewrite (firstn_all2 (skipn PK (firstn (PK + SK) content))); [reflexivity |].
        rewrite length_skipn, length_firstn. lia.
      * discriminate.
    + split; [split; assumption | split; [intros old _ |]; discriminate].
  - destruct (fopen_w_ok env); cbn [negb]; cbn zeta.
    + destruct (Nat.eqb_spec (Nat.min (fwrite_room env) (PK + SK)) (PK + SK))
        as [E | E]; cbn [negb fst snd].
      * split; [split; assumption |]. split; [discriminate |]. intros _ _.
        rewrite (firstn_all2 (self_public_key dht)) by lia.
        rewrite (firstn_all2 (self_secret_key dht)) by lia.
        rewrite E.
        assert (Hkeys : List.length (self_public_key dht ++ self_secret_key dht)
                        = (PK + SK)%nat) by (rewrite length_app; lia).
        assert (Hcut : firstn (Nat.min (PK + SK) (fclose_stored env))
                              (self_public_key dht ++ self_secret_key dht)
                       = firstn (fclose_stored env)
                                (self_public_key dht ++ self_secret_key dht)).
        { destruct (Nat.le_ge_cases (PK + SK) (fclose_stored env)) as [Hle | Hle].
          - rewrite Nat.min_l by exact Hle.
            rewrite !firstn_all2 by lia. reflexivity.
          - rewrite Nat.min_r by exact Hle. reflexivity. }
        rewrite Hcut.
        split; [reflexivity |]. split; [apply fs_put_same |]. split.
        -- intros Hlost env2 dht2.
           apply manage_keys_short_read
             with (content := firstn (fclose_stored env)
                                     (self_public_key dht ++ self_secret_key dht));
             [apply fs_put_same | rewrite length_firstn; lia].
        -- intros Hall. rewrite fs_put_same.
           rewrite firstn_all2 by lia. reflexivity.
      * split; [split; assumption | split; [intros old |]; discriminate].
    + cbn [fst snd]. split; [split; assumption | split; [intros old |]; discriminate].
Qed.

(** The keys were handed to [fwrite] in full and 10 bytes of them are in
    the file: [manage_keys] returns 1, and the next start fails. *)
Lemma manage_keys_sizes_and_file_witness :
  let r := manage_keys 32 32 lost_flush fs_empty fresh_dht "tox-bootstrapd.keys" in
  fst (fst r) = 1
  /\ snd (fst r) "tox-bootstrapd.keys"
     = Some (firstn 10 (self_public_key fresh_dht ++ self_secret_key fresh_dht))
  /\ forall (env2 : write_env) (dht2 : DHT),
      manage_keys 32 32 env2 (snd (fst r)) dht2 "tox-bootstrapd.keys"
      = (0, snd (fst r), dht2).
Proof.
  cbn zeta.
  destruct (manage_keys_sizes_and_file 32 32 lost_flush fs_empty fresh_dht
              "tox-bootstrapd.keys" (conj eq_refl eq_refl))
    as (_ & _ & Hnew).
  destruct (Hnew eq_refl eq_refl) as (_ & Hfile & Hlater & _).
  split; [reflexivity |]. split; [exact Hfile |].
  apply Hlater. cbn. lia.
Defined.

(* ================================================================= *)
(** ** Further properties: the bootstrap list *)

Section BootstrapMore.

Variable PK : nat.
Variable hex : string -> list Byte.byte.
Variable hton : Z -> Z.
Variable resolve : string -> Z -> Z -> list Byte.byte -> Z.

(** With a list that is not empty the trace of [bootstrap_from_config] is
    made of the reports of the entries. *)
Lemma bootstrap_from_config_entries (cfg : config) (enable_ipv6 : Z) :
  bootstrap_nodes cfg <> [] ->
  trace (bootstrap_from_config PK hex hton resolve (inr cfg) enable_ipv6)
  = entries_report PK hex hton resolve 0 (bootstrap_nodes cfg) enable_ipv6.
Proof.
  unfold bootstrap_from_config, bootstrap_nodes.
  destruct (config_lookup cfg NAME_BOOTSTRAP_NODES) as [node_list |];
    [| congruence].
  unfold config_setting_length.
  destruct (children node_list) as [| node rest] eqn:Ech; [congruence |].
  intros _.
  replace (Z.of_nat (List.length (node :: rest)) =? 0) with false
    by (symmetry; apply Z.eqb_neq; simpl List.length; lia).
  rewrite bootstrap_loop_report by (rewrite Ech; lia).
  rewrite Ech. reflexivity.
Qed.

(** Otherwise it is one line of the log. *)
Lemma bootstrap_from_config_trace (parsed : parse_error + config) (enable_ipv6 : Z) :
  let t := trace (bootstrap_from_config PK hex hton resolve parsed enable_ipv6) in
  (exists lvl fmt args, t = [Log lvl fmt args])
  \/ (exists cfg, parsed = inr cfg
                  /\ bootstrap_nodes cfg <> []
                  /\ t = entries_report PK hex hton resolve 0 (bootstrap_nodes cfg)
                                        enable_ipv6).
Proof.
  cbn zeta. destruct parsed as [[[file line] text] | cfg].
  - left. do 3 eexists. reflexivity.
  - assert (Hn : bootstrap_nodes cfg = [] \/ bootstrap_nodes cfg <> [])
      by (destruct (bootstrap_nodes cfg); [left; reflexivity | right; discriminate]).
    destruct Hn as [En | En].
    + left. revert En. unfold bootstrap_from_config, bootstrap_nodes.
      destruct (config_lookup cfg NAME_BOOTSTRAP_NODES) as [node_list |];
        [| intros _; do 3 eexists; reflexivity].
      unfold config_setting_length. intros En. rewrite En.
      do 3 eexists. reflexivity.
    + right. exists cfg. split; [reflexivity |]. split; [exact En |].
      apply bootstrap_from_config_entries. exact En.
Qed.

(** What one entry leaves in the trace: its line of the log, preceded by
    the call of the engine if validation got that far. *)
Lemma entry_report_shape (i : Z) (node : setting) (enable_ipv6 : Z) :
  let t := entry_report hex hton i node enable_ipv6
                        (validate_entry PK hex hton resolve node enable_ipv6) in
  (exists lvl fmt args, t = [Log lvl fmt args])
  \/ (exists address port key lvl fmt args,
         t = [DHTBootstrapFromAddress address enable_ipv6 (hton port) (hex key);
              Log lvl fmt args]
         /\ 1 <= port <= 65535
         /\ strlen (c_str key) = (2 * PK)%nat
         /\ config_setting_lookup_string node NAME_PUBLIC_KEY = Some key
         /\ config_setting_lookup_int node NAME_PORT = Some port
         /\ config_setting_lookup_string node NAME_ADDRESS = Some address).
Proof.
  cbn zeta. unfold validate_entry, entry_report, resolution_call.
  destruct (config_setting_lookup_string node NAME_PUBLIC_KEY) as [key |];
    [| left; do 3 eexists; reflexivity].
  destruct (config_setting_lookup_int node NAME_PORT) as [p |];
    [| left; do 3 eexists; reflexivity].
  destruct (config_setting_lookup_string node NAME_ADDRESS) as [addr |];
    [| left; do 3 eexists; reflexivity].
  destruct (Nat.eqb_spec (strlen (c_str key)) (2 * PK)) as [Ek | Ek]; cbn [negb];
    [| left; do 3 eexists; reflexivity].
  destruct ((1 <=? p) && (p <=? 65535)) eqn:Ep; cbn [negb];
    [| left; do 3 eexists; reflexivity].
  apply andb_true_iff in Ep as [Ep1 Ep2].
  right. exists addr, p, key.
  destruct (resolve addr enable_ipv6 (hton p) (hex key) =? 0);
    do 3 eexists; (split; [reflexivity |]); repeat split; auto; lia.
Qed.

(** X9. [bootstrap_from_config] hands an entry to
    [DHT_bootstrap_from_address] only with a port from [1, 65535] (in
    network byte order), with the binary form of a key string of exactly
    twice [crypto_box_PUBLICKEYBYTES] characters, and with the IPv6
    preference it was called with. *)
Theorem bootstrap_engine_calls_checked (parsed : parse_error + config)
        (enable_ipv6 : Z) (address : string) (ipv6 port_n : Z)
        (key_bin : list Byte.byte) :
  In (DHTBootstrapFromAddress address ipv6 port_n key_bin)
     (trace (bootstrap_from_config PK hex hton resolve parsed enable_ipv6)) ->
  ipv6 = enable_ipv6
  /\ exists (port : Z) (key : string),
      port_n = hton port /\ 1 <= port <= 65535
      /\ key_bin = hex key /\ strlen (c_str key) = (2 * PK)%nat.
Proof.
  intros Hin.
  destruct (bootstrap_from_config_trace parsed enable_ipv6)
    as [(lvl & fmt & args & Ht) | (cfg & _ & _ & Ht)]; cbn zeta in Ht;
    rewrite Ht in Hin; clear Ht.
  - destruct Hin as [H | []]. discriminate.
  - revert Hin. generalize 0. generalize (bootstrap_nodes cfg) as nodes.
    induction nodes as [| node rest IH]; intros i Hin; cbn [entries_report] in Hin.
    + destruct Hin.
    + apply in_app_or in Hin as [Hin | Hin]; [| exact (IH _ Hin)].
      destruct (entry_report_shape i node enable_ipv6)
        as [(lvl & fmt & args & Ht)
           | (a & p & k & lvl & fmt & args & Ht & Hp & Hk & _)];
        cbn zeta in Ht; rewrite Ht in Hin.
      * destruct Hin as [H | []]. discriminate.
      * destruct Hin as [H | [H | []]]; [| discriminate].
        inversion H; subst. split; [reflexivity |]. exists p, k. auto.
Qed.

Lemma count_app (p : event -> bool) (t1 t2 : list event) :
  count p (t1 ++ t2) = (count p t1 + count p t2)%nat.
Proof. unfold count. rewrite filter_app, length_app. reflexivity. Qed.

(** X10. When the list of bootstrap nodes is not empty, every entry leaves
    exactly one line in the log, whatever becomes of it, and the engine is
    called at most once per entry. *)
Theorem bootstrap_one_line_per_entry (cfg : config) (enable_ipv6 : Z) :
  bootstrap_nodes cfg <> [] ->
  let t := trace (bootstrap_from_config PK hex hton resolve (inr cfg) enable_ipv6) in
  count is_log t = List.length (bootstrap_nodes cfg)
  /\ (count is_engine_call t <= List.length (bootstrap_nodes cfg))%nat
  /\ count is_process_call t = 0%nat.
Proof.
  intros Hne. cbn zeta. rewrite (bootstrap_from_config_entries cfg enable_ipv6 Hne).
  clear Hne. generalize 0. generalize (bootstrap_nodes cfg) as nodes.
  induction nodes as [| node rest IH]; intros i; cbn [entries_report List.length].
  - repeat split; auto.
  - rewrite !count_app. destruct (IH (i + 1)) as (H1 & H2 & H3).
    rewrite H1, H3.
    destruct (entry_report_shape i node enable_ipv6)
      as [(l1 & f1 & a1 & Hs) | (a & p & k & l1 & f1 & a1 & Hs & _)];
      cbn zeta in Hs; rewrite Hs; cbn; repeat split; lia.
Qed.

End BootstrapMore.

(* ================================================================= *)
(** ** Further properties: the printed public key *)

Lemma write_at_split {A} (l b : list A) :
  forall i, (i + List.length l <= List.length b)%nat ->
            write_at b i l = firstn i b ++ l ++ skipn (i + List.length l) b.
Proof.
  revert b. induction l as [| x l IH]; intros b i H; cbn [write_at List.length app] in *.
  - rewrite Nat.add_0_r. symmetry. apply firstn_skipn.
  - rewrite IH by (rewrite store_length; lia).
    rewrite store_split by lia.
    rewrite firstn_app, firstn_firstn, length_firstn.
    replace (Nat.min (S i) i) with i by lia.
    replace (S i - Nat.min i (List.length b))%nat with 1%nat by lia.
    cbn [firstn]. rewrite <- app_assoc. cbn [app]. f_equal. f_equal. f_equal.
    replace (S i + List.length l)%nat with (i + 1 + List.length l)%nat by lia.
    rewrite skipn_app, length_firstn.
    rewrite (skipn_all2 (firstn i b)) by (rewrite length_firstn; lia).
    replace (i + 1 + List.length l - Nat.min i (List.length b))%nat
      with (S (List.length l)) by lia.
    cbn [app]. rewrite skipn_cons, skipn_skipn. f_equal. lia.
Qed.

Lemma hex_pair_digits (b : Byte.byte) :
  Forall (fun c => is_hex_digit c = true) (hex_pair b).
Proof. destruct b; repeat constructor. Qed.

Lemma is_hex_digit_not_nul (c : ascii) : is_hex_digit c = true -> c <> NUL.
Proof. intros H E. subst c. discriminate. Qed.

Lemma flat_map_hex_pair_digits (l : list Byte.byte) :
  Forall (fun c => is_hex_digit c = true) (flat_map hex_pair l).
Proof.
  induction l as [| b l IH]; cbn [flat_map]; [constructor |].
  apply Forall_app. split; [apply hex_pair_digits | exact IH].
Qed.

Lemma length_flat_map_hex_pair (l : list Byte.byte) :
  List.length (flat_map hex_pair l) = (2 * List.length l)%nat.
Proof.
  induction l as [| b l IH]; cbn [flat_map List.length]; [reflexivity |].
  rewrite length_app, IH. cbn [hex_pair List.length]. lia.
Qed.

Lemma firstn_app_exact {A} (l1 l2 : list A) (n : nat) :
  List.length l1 = n -> firstn n (l1 ++ l2) = l1.
Proof.
  intros H. subst n. rewrite firstn_app, Nat.sub_diag, firstn_all.
  cbn [firstn]. apply app_nil_r.
Qed.

Lemma skipn_app_exact {A} (l1 l2 : list A) (n : nat) :
  List.length l1 = n -> skipn n (l1 ++ l2) = l2.
Proof.
  intros H. subst n. rewrite skipn_app, Nat.sub_diag, skipn_all. reflexivity.
Qed.

Lemma nth_of_skipn {A} (l rest : list A) (i : nat) (x d : A) :
  skipn i l = x :: rest -> nth i l d = x /\ skipn (S i) l = rest.
Proof.
  revert i. induction l as [| y l IH]; intros [| i] H; cbn [skipn] in H;
    try discriminate.
  - inversion H. split; reflexivity.
  - destruct (IH i H) as [H1 H2]. split; [exact H1 | exact H2].
Qed.

(** One [sprintf] into the buffer. *)
Lemma write_hex_pair (buffer : list ascii) (index : nat) (b : Byte.byte) :
  (index + 3 <= List.length buffer)%nat ->
  write_at buffer index (sprintf_02hhX b)
  = firstn index buffer ++ hex_pair b ++ [NUL] ++ skipn (index + 3) buffer.
Proof.
  intros H. unfold sprintf_02hhX.
  rewrite write_at_split by (rewrite length_app; cbn [hex_pair List.length]; lia).
  rewrite length_app. cbn [hex_pair List.length].
  rewrite <- app_assoc. reflexivity.
Qed.

(** The loop of [print_public_key], run for at least one byte: the digits
    of the bytes follow what was in the buffer below [index], and a NUL
    follows the digits. *)
Lemma print_public_key_loop_spec (public_key : list Byte.byte) :
  forall (n i : nat) (buffer : list ascii) (index : nat),
    (i + S n <= List.length public_key)%nat ->
    (index + 2 * S n + 1 <= List.length buffer)%nat ->
    print_public_key_loop (S n) i public_key buffer index
    = (firstn index buffer
       ++ flat_map hex_pair (firstn (S n) (skipn i public_key))
       ++ [NUL] ++ skipn (index + 2 * S n + 1) buffer,
       (index + 2 * S n)%nat).
Proof.
  induction n as [| n IH]; intros i buffer index Hpk Hbuf;
    (destruct (skipn i public_key) as [| b rest] eqn:Es;
     [apply (f_equal (@List.length _)) in Es; rewrite length_skipn in Es;
      simpl in Es; lia |]);
    destruct (nth_of_skipn public_key rest i b Byte.x00 Es) as [Hb Hrest].
  - cbn [print_public_key_loop]. rewrite Hb, write_hex_pair by lia.
    cbn [firstn flat_map]. rewrite app_nil_r.
    unfold sprintf_02hhX. rewrite length_app. cbn [hex_pair List.length].
    f_equal; try lia. do 4 f_equal. lia.
  - change (print_public_key_loop (S (S n)) i public_key buffer index)
      with (print_public_key_loop (S n) (S i) public_key
              (write_at buffer index (sprintf_02hhX (nth i public_key Byte.x00)))
              (index + (List.length (sprintf_02hhX (nth i public_key Byte.x00)) - 1))).
    rewrite Hb, write_hex_pair by lia.
    unfold sprintf_02hhX at 1. rewrite length_app. cbn [hex_pair List.length].
    replace (index + (2 + 1 - 1))%nat with (index + 2)%nat by lia.
    set (P := firstn index buffer).
    set (T := skipn (index + 3) buffer).
    assert (HP : List.length P = index) by (subst P; rewrite length_firstn; lia).
    assert (HT : List.length T = (List.length buffer - (index + 3))%nat)
      by (subst T; apply length_skipn).
    assert (HH : List.length (hex_pair b) = 2%nat) by reflexivity.
    rewrite IH;
      [| lia | rewrite !length_app, HP, HH, HT; cbn [List.length]; lia].
    rewrite Hrest.
    assert (F1 : firstn (index + 2) (P ++ hex_pair b ++ [NUL] ++ T) = P ++ hex_pair b).
    { rewrite (app_assoc P). apply firstn_app_exact. rewrite length_app. lia. }
    assert (F2 : skipn (index + 2 + 2 * S n + 1) (P ++ hex_pair b ++ [NUL] ++ T)
                 = skipn (index + 2 * S (S n) + 1) buffer).
    { replace (index + 2 + 2 * S n + 1)%nat with (2 * S n + (index + 3))%nat by lia.
      rewrite <- skipn_skipn.
      replace (P ++ hex_pair b ++ [NUL] ++ T) with ((P ++ hex_pair b ++ [NUL]) ++ T)
        by (rewrite <- !app_assoc; reflexivity).
      rewrite skipn_app_exact by (rewrite !length_app, HP, HH; reflexivity).
      subst T. rewrite skipn_skipn. f_equal. lia. }
    rewrite F1, F2. cbn [firstn flat_map].
    f_equal; try lia. rewrite <- !app_assoc. reflexivity.
Qed.

(** X11. [print_public_key] fills its buffer with two upper-case
    hexadecimal digits for each of the [crypto_box_PUBLICKEYBYTES] bytes of
    the key, in order, and a terminating NUL in the last byte of the buffer.
    The printed text therefore has the length that [bootstrap_from_config]
    requires of a [public_key] setting. *)
Theorem public_key_buffer_text (PK : nat) (public_key : list Byte.byte) :
  (0 < PK)%nat ->
  (PK <= List.length public_key)%nat ->
  let buffer := public_key_buffer PK public_key in
  buffer = flat_map hex_pair (firstn PK public_key) ++ [NUL]
  /\ List.length buffer = (2 * PK + 1)%nat
  /\ Forall (fun c => is_hex_digit c = true) (c_text buffer)
  /\ strlen (c_str (string_of_list_ascii (c_text buffer))) = (2 * PK)%nat.
Proof.
  intros Hpos Hlen. cbn zeta.
  assert (Hbuf : public_key_buffer PK public_key
                 = flat_map hex_pair (firstn PK public_key) ++ [NUL]).
  { unfold public_key_buffer. destruct PK as [| n]; [lia |].
    rewrite print_public_key_loop_spec by (rewrite ?repeat_length; lia).
    cbn [fst firstn skipn app].
    rewrite skipn_all2 by (rewrite repeat_length; lia).
    reflexivity. }
  pose proof (flat_map_hex_pair_digits (firstn PK public_key)) as Hd.
  assert (Hnn : Forall (fun c => c <> NUL) (flat_map hex_pair (firstn PK public_key))).
  { eapply Forall_impl; [| exact Hd]. intros c. apply is_hex_digit_not_nul. }
  rewrite Hbuf. rewrite c_text_app_nul by exact Hnn.
  split; [reflexivity |].
  split; [rewrite length_app, length_flat_map_hex_pair, length_firstn;
          cbn [List.length]; lia |].
  split; [exact Hd |].
  unfold strlen, c_str. rewrite list_ascii_of_string_of_list_ascii.
  rewrite c_text_app_nul by exact Hnn.
  rewrite length_flat_map_hex_pair, length_firstn. lia.
Qed.

Lemma public_key_buffer_text_witness :
  public_key_buffer 32 (self_public_key fresh_dht)
  = flat_map hex_pair (firstn 32 (self_public_key fresh_dht)) ++ [NUL].
Proof.
  apply (public_key_buffer_text 32 (self_public_key fresh_dht)).
  - lia.
  - cbn. lia.
Defined.

(** The key of [fresh_dht], sixteen times 11 in hexadecimal, as printed. *)
Example fresh_key_printed :
  string_of_list_ascii (c_text (public_key_buffer 32 (self_public_key fresh_dht)))
  = "1111111111111111111111111111111111111111111111111111111111111111".
Proof. reflexivity. Qed.

(* ================================================================= *)
(** ** Further properties: the command line *)

Section CommandLineProofs.

Variable V : Z.

(** The loop over the options: it ends the process at the first option
    that [stops]; otherwise the last [--config] and the last valid
    [--log-backend] are what the state holds, and nothing is logged. *)
Lemma getopt_loop_spec :
  forall (opts : list getopt_result) (st : cli_state),
    match first_stop opts with
    | Some code => value (getopt_loop V opts st) = Return code
    | None =>
        getopt_loop V opts st
        = (Continue
             {| cli_cfg_file_path :=
                  match last_config opts with
                  | Some p => Heap p
                  | None => cli_cfg_file_path st
                  end;
                cli_log_backend :=
                  match last_backend opts with
                  | Some b => b
                  | None => cli_log_backend st
                  end;
                cfg_file_path_set :=
                  match last_config opts with
                  | Some _ => true
                  | None => cfg_file_path_set st
                  end;
                log_backend_set :=
                  match last_backend opts with
                  | Some _ => true
                  | None => log_backend_set st
                  end |}, [])
    end.
Proof.
  induction opts as [| opt rest IH]; intros st.
  - destruct st. reflexivity.
  - cbn [first_stop last_config last_backend getopt_loop].
    destruct opt as [| p | b | | a | a]; cbn [stops];
      try (w_simpl; reflexivity).
    + specialize (IH {| cli_cfg_file_path := Heap p;
                        cli_log_backend := cli_log_backend st;
                        cfg_file_path_set := true;
                        log_backend_set := log_backend_set st |}).
      destruct (first_stop rest); [exact IH |].
      rewrite IH. cbn [cli_cfg_file_path cli_log_backend cfg_file_path_set
                                         log_backend_set].
      destruct (last_config rest), (last_backend rest); reflexivity.
    + destruct (String.eqb b "syslog") eqn:E1; cbn [orb].
      * specialize (IH {| cli_cfg_file_path := cli_cfg_file_path st;
                          cli_log_backend := LOG_BACKEND_SYSLOG;
                          cfg_file_path_set := cfg_file_path_set st;
                          log_backend_set := true |}).
        destruct (first_stop rest); [exact IH |].
        rewrite IH. cbn [cli_cfg_file_path cli_log_backend cfg_file_path_set
                                           log_backend_set].
        destruct (last_config rest), (last_backend rest); reflexivity.
      * destruct (String.eqb b "stdout") eqn:E2.
        -- specialize (IH {| cli_cfg_file_path := cli_cfg_file_path st;
                             cli_log_backend := LOG_BACKEND_STDOUT;
                             cfg_file_path_set := cfg_file_path_set st;
                             log_backend_set := true |}).
           destruct (first_stop rest); [exact IH |].
           rewrite IH. cbn [cli_cfg_file_path cli_log_backend cfg_file_path_set
                                              log_backend_set].
           destruct (last_config rest), (last_backend rest); reflexivity.
        -- w_simpl. reflexivity.
Qed.

(** The lines logged on the way do not depend on the state. *)
Lemma getopt_loop_trace_state :
  forall (opts : list getopt_result) (st st' : cli_state),
    trace (getopt_loop V opts st) = trace (getopt_loop V opts st').
Proof.
  induction opts as [| opt rest IH]; intros st st'; [reflexivity |].
  cbn [getopt_loop]. destruct opt as [| p | b | | a | a]; try reflexivity.
  - apply IH.
  - destruct (String.eqb b "syslog"); [apply IH |].
    destruct (String.eqb b "stdout"); [apply IH | reflexivity].
Qed.

(** X12. [handle_command_line_arguments] ends the process with status 1
    when there are no arguments, and otherwise with the status of the first
    option that stops it (0 for --help and --version, 1 for an unknown
    option, a missing argument or an unknown backend), and with status 1
    when no --config was given. When it returns, the configuration path is
    the argument of the last --config and the backend that of the last
    --log-backend, syslog if there was none; what the caller had put into
    the two variables plays no part. *)
Theorem handle_command_line_arguments_outcome (argc : Z) (opts : list getopt_result)
        (cfg_file_path : ptr string) (log_backend : LOG_BACKEND) :
  value (handle_command_line_arguments V argc opts cfg_file_path log_backend)
  = if argc <? 2 then Return 1
    else match first_stop opts with
         | Some code => Return code
         | None =>
             match last_config opts with
             | None => Return 1
             | Some path =>
                 Continue (Heap path,
                           match last_backend opts with
                           | Some b => b
                           | None => LOG_BACKEND_SYSLOG
                           end)
             end
         end.
Proof.
  unfold handle_command_line_arguments.
  destruct (argc <? 2); [w_simpl; reflexivity |].
  unfold bindo. rewrite value_bind.
  pose proof (getopt_loop_spec opts
                {| cli_cfg_file_path := cfg_file_path;
                   cli_log_backend := log_backend;
                   cfg_file_path_set := false;
                   log_backend_set := false |}) as H.
  destruct (first_stop opts) as [code |].
  - rewrite H. reflexivity.
  - rewrite H. cbn [value fst cli_cfg_file_path cli_log_backend cfg_file_path_set
                          log_backend_set].
    destruct (last_config opts), (last_backend opts); w_simpl; reflexivity.
Qed.

(** Neither the value nor the log of [handle_command_line_arguments]
    depends on the backend the caller had chosen. *)
Lemma handle_command_line_arguments_backend (argc : Z) (opts : list getopt_result)
      (cfg_file_path : ptr string) (b1 b2 : LOG_BACKEND) :
  handle_command_line_arguments V argc opts cfg_file_path b1
  = handle_command_line_arguments V argc opts cfg_file_path b2.
Proof.
  unfold handle_command_line_arguments.
  destruct (argc <? 2); [reflexivity |].
  set (st1 := {| cli_cfg_file_path := cfg_file_path; cli_log_backend := b1;
                 cfg_file_path_set := false; log_backend_set := false |}).
  set (st2 := {| cli_cfg_file_path := cfg_file_path; cli_log_backend := b2;
                 cfg_file_path_set := false; log_backend_set := false |}).
  pose proof (getopt_loop_spec opts st1) as H1.
  pose proof (getopt_loop_spec opts st2) as H2.
  pose proof (getopt_loop_trace_state opts st1 st2) as Ht.
  destruct (first_stop opts) as [code |].
  - rewrite (W_eta (getopt_loop V opts st1)), (W_eta (getopt_loop V opts st2)).
    rewrite H1, H2, Ht. reflexivity.
  - rewrite H1, H2. subst st1 st2.
    cbn [cli_cfg_file_path cli_log_backend cfg_file_path_set log_backend_set].
    destruct (last_config opts), (last_backend opts); reflexivity.
Qed.

End CommandLineProofs.

(** X13. From its first line on, [main] does the same and logs the same
    lines whether or not standard output is a terminal: the backend chosen
    with [isatty] is replaced by syslog, or by the --log-backend option,
    before anything depends on it. *)
Theorem main_ignores_isatty (D : string) (V : Z) (M PK SK : nat) (I : Z)
        (env : environment) (argc : Z) (opts : list getopt_result)
        (locals : general_config) (n : nat) :
  main_from_start D V M PK SK I env argc opts true locals n
  = main_from_start D V M PK SK I env argc opts false locals n.
Proof.
  unfold main_from_start.
  rewrite (handle_command_line_arguments_backend V argc opts Indeterminate
             LOG_BACKEND_STDOUT LOG_BACKEND_SYSLOG).
  reflexivity.
Qed.

(** Started from a terminal without --log-backend, the daemon still closes
    its standard streams; with --log-backend=stdout it keeps them. *)
Example streams_closed_from_terminal :
  In (Close STDOUT_FILENO)
     (trace (main_from_start "tox-bootstrapd" 2014101200 256 32 32 10 quiet_env 2
                             [OptConfig "tox-bootstrapd.conf"] true unset_locals 1))
  /\ ~ In (Close STDOUT_FILENO)
         (trace (main_from_start "tox-bootstrapd" 2014101200 256 32 32 10 quiet_env 3
                                 [OptConfig "tox-bootstrapd.conf"; OptLogBackend "stdout"]
                                 true unset_locals 1)).
Proof.
  split.
  - vm_compute. tauto.
  - vm_compute. intros H.
    repeat (destruct H as [H | H]; [discriminate |]). exact H.
Qed.

Example sample_command_line :
  value (handle_command_line_arguments 2014101200 4 sample_opts Indeterminate
                                       LOG_BACKEND_SYSLOG)
  = Continue (Heap "b.conf", LOG_BACKEND_STDOUT).
Proof. reflexivity. Qed.

(* ================================================================= *)
(** ** Further properties: [main] *)

(** How the daemonization stage can end. *)
Lemma main_daemonize_outcome (env : environment) (pid_file_path : string)
      (log_backend : LOG_BACKEND) :
  match value (main_daemonize env pid_file_path log_backend) with
  | Return code =>
      (code = 0 /\ 0 < fork env /\ pidf_fopen env = true) \/ code = 1
  | Continue _ =>
      fork env = 0 /\ 0 <= setsid env /\ 0 <= chdir env /\ pidf_fopen env = true
  | NoFuel => False
  end.
Proof.
  unfold main_daemonize.
  destruct (pidf_fopen env); cbn [negb]; [| w_simpl; right; reflexivity].
  rewrite value_bind.
  destruct (Z.gtb_spec (fork env) 0) as [Hp | Hp].
  { w_simpl. left. repeat split; lia. }
  rewrite value_bind.
  destruct (Z.ltb_spec (fork env) 0) as [Hn | Hn]; [w_simpl; right; reflexivity |].
  rewrite !value_bind.
  destruct (Z.ltb_spec (setsid env) 0) as [Hs | Hs]; [w_simpl; right; reflexivity |].
  rewrite !value_bind.
  destruct (Z.ltb_spec (chdir env) 0) as [Hc | Hc]; [w_simpl; right; reflexivity |].
  w_simpl. repeat split; lia.
Qed.

Ltac stage_goes_on :=
  unfold goes_on_or_fails; stage_cases; w_simpl; auto.

Lemma main_config_goes_on (D : string) (M : nat) (env : environment) (path : string)
      (locals : general_config) :
  goes_on_or_fails (main_config D M env path locals).
Proof. unfold main_config, goes_on_or_fails. rewrite value_bind. stage_goes_on. Qed.

Lemma main_networking_goes_on (env : environment) (v6 fb p : Z) :
  goes_on_or_fails (main_networking env v6 fb p).
Proof. unfold main_networking. stage_goes_on. Qed.

Lemma main_engine_goes_on (env : environment) : goes_on_or_fails (main_engine env).
Proof. unfold main_engine. stage_goes_on. Qed.

Lemma main_motd_goes_on (env : environment) (e : Z) (m : ptr (list ascii)) :
  goes_on_or_fails (main_motd env e m).
Proof. unfold main_motd. stage_goes_on. Qed.

Lemma main_keys_goes_on (PK SK : nat) (env : environment) (dht : DHT) (path : string) :
  goes_on_or_fails (main_keys PK SK env dht path).
Proof.
  unfold main_keys.
  destruct (manage_keys PK SK (keys_env env) (files env) dht path) as [[r fs'] d].
  stage_goes_on.
Qed.

Lemma main_tcp_relay_goes_on (env : environment) (c : general_config) (v6 : Z)
      (dht : DHT) :
  goes_on_or_fails (main_tcp_relay env c v6 dht).
Proof. unfold main_tcp_relay. stage_goes_on. Qed.

Lemma main_bootstrap_goes_on (PK : nat) (env : environment) (path : string) (v6 : Z) :
  goes_on_or_fails (main_bootstrap PK env path v6).
Proof.
  unfold main_bootstrap, goes_on_or_fails.
  rewrite value_bind, bootstrap_from_config_value.
  destruct (config_read_file env path); cbn [Z.eqb negb]; w_simpl; auto.
Qed.

(** Takes [main] through one stage that goes on or fails. *)
Ltac through_stage H :=
  unfold bindo at 1; rewrite value_bind;
  let E := fresh "E" in
  pose proof H as E; unfold goes_on_or_fails in E;
  match type of E with
  | match value ?m with _ => _ end =>
      destruct (value m); [| cbn [value ret fst]; right; exact E | destruct E]
  end; clear E.

(** X14. [main] returns only 0 or 1. It returns 0 only in the parent of a
    successful fork, after the PID file was opened; it is in its loop only
    in the child of the fork ([fork] returned 0) after [setsid] and [chdir]
    succeeded. *)
Theorem main_exit_status (D : string) (M PK SK : nat) (I : Z) (env : environment)
        (path : string) (backend : LOG_BACKEND) (locals : general_config) (n : nat) :
  match value (main D M PK SK I env path backend locals n) with
  | Return code =>
      (code = 0 /\ 0 < fork env /\ pidf_fopen env = true) \/ code = 1
  | Continue _ =>
      fork env = 0 /\ 0 <= setsid env /\ 0 <= chdir env /\ pidf_fopen env = true
  | NoFuel => False
  end.
Proof.
  unfold main.
  through_stage (main_config_goes_on D M env path locals).
  rewrite value_bind.
  through_stage (main_networking_goes_on env (enable_ipv6 a) (enable_ipv4_fallback a)
                                         (port a)).
  through_stage (main_engine_goes_on env).
  through_stage (main_motd_goes_on env (enable_motd a) (motd a)).
  through_stage (main_keys_goes_on PK SK env a1 (deref (keys_file_path a) "")).
  through_stage (main_tcp_relay_goes_on env a a0 a3).
  through_stage (main_bootstrap_goes_on PK env path a0).
  rewrite value_bind. unfold bindo at 1. rewrite value_bind.
  pose proof (main_daemonize_outcome env (deref (pid_file_path a) "") backend) as Hd.
  destruct (value (main_daemonize env (deref (pid_file_path a) "") backend));
    [| exact Hd | destruct Hd].
  rewrite !value_bind. exact Hd.
Qed.

(* ----------------------------------------------------------------- *)
(** *** The main loop, turn by turn *)

Section LoopMore.

Variable I : Z.
Variable env : environment.
Variables lan tcp hport : Z.

Lemma loop_body_events (k : nat) (st : loop_state) :
  let r := loop_body I env lan tcp hport k st in
  let due := negb (lan =? 0) && is_timeout env k (last_LANdiscovery st) I in
  count is_do_DHT (trace r) = 1%nat
  /\ count is_networking_poll (trace r) = 1%nat
  /\ count is_sleep (trace r) = 1%nat
  /\ count is_do_TCP_server (trace r) = (if tcp =? 0 then 0%nat else 1%nat)
  /\ count is_send_LANdiscovery (trace r) = (if due then 1 else 0)%nat
  /\ count is_process_call (trace r) = 0%nat
  /\ last_LANdiscovery (value r)
     = (if due then unix_time env k else last_LANdiscovery st).
Proof.
  cbn zeta. unfold loop_body. w_simpl. rewrite !count_app.
  destruct (negb (lan =? 0) && is_timeout env k (last_LANdiscovery st) I);
    destruct (tcp =? 0);
    destruct (negb (waiting_for_dht_connection st =? 0)
              && negb (DHT_isconnected env k =? 0));
    repeat split; reflexivity.
Qed.

(** No turn of the loop acts on the process. *)
Lemma main_loop_no_process_call (n k : nat) (st : loop_state) :
  count is_process_call (trace (main_loop I env lan tcp hport n k st)) = 0%nat.
Proof.
  revert k st. induction n as [| n IH]; intros k st; [reflexivity |].
  cbn [main_loop]. rewrite trace_bind, count_app, IH.
  destruct (loop_body_events k st) as (_ & _ & _ & _ & _ & B6 & _).
  cbn zeta in B6. rewrite B6. reflexivity.
Qed.

(** X15. In [n] turns of the main loop the engine is advanced, the network
    polled and the process put to sleep exactly [n] times each; the TCP
    server is advanced [n] times when the relay is enabled and never when it
    is not; LAN discovery packets are never sent when discovery is disabled,
    and otherwise exactly in the turns in which the time since the last one
    sent has run out; no call acts on the process. *)
Theorem main_loop_events (n k : nat) (st : loop_state) :
  let t := trace (main_loop I env lan tcp hport n k st) in
  count is_do_DHT t = n
  /\ count is_networking_poll t = n
  /\ count is_sleep t = n
  /\ count is_do_TCP_server t = (if tcp =? 0 then 0%nat else n)
  /\ count is_send_LANdiscovery t
     = (if lan =? 0 then 0%nat else discoveries_due I env n k (last_LANdiscovery st))
  /\ count is_process_call t = 0%nat.
Proof.
  cbn zeta. revert k st. induction n as [| n IH]; intros k st.
  - cbn [main_loop discoveries_due]. destruct (tcp =? 0), (lan =? 0);
      repeat split; reflexivity.
  - cbn [main_loop discoveries_due]. rewrite trace_bind, !count_app.
    destruct (loop_body_events k st) as (B1 & B2 & B3 & B4 & B5 & B6 & B7).
    cbn zeta in B1, B2, B3, B4, B5, B6, B7.
    destruct (IH (S k) (value (loop_body I env lan tcp hport k st)))
      as (H1 & H2 & H3 & H4 & H5 & H6).
    rewrite B1, B2, B3, B4, B5, B6, H1, H2, H3, H4, H5, H6, B7.
    destruct (tcp =? 0); destruct (lan =? 0); cbn [negb andb];
      try destruct (is_timeout env k (last_LANdiscovery st) I);
      repeat split; reflexivity.
Qed.

End LoopMore.

(* ----------------------------------------------------------------- *)
(** *** Nothing acts on the process before the fork *)

Lemma no_process_call_app (t1 t2 : list event) :
  no_process_call t1 -> no_process_call t2 -> no_process_call (t1 ++ t2).
Proof. intros H1 H2. apply Forall_app. split; assumption. Qed.

Lemma no_process_call_nil : no_process_call [].
Proof. constructor. Qed.

Lemma no_process_call_cons (e : event) (t : list event) :
  is_process_call e = false -> no_process_call t -> no_process_call (e :: t).
Proof. intros He H. constructor; assumption. Qed.

Create HintDb quiet.
#[local] Hint Resolve no_process_call_app no_process_call_nil : quiet.

(** Splits a trace along its binds and branches, down to the parts the
    hints speak of. *)
Ltac quiet :=
  repeat first
    [ rewrite trace_bind
    | progress cbn [trace snd ret emit write_log]
    | apply no_process_call_nil
    | apply no_process_call_cons; [reflexivity |]
    | apply no_process_call_app
    | match goal with
      | |- no_process_call (trace (if ?b then _ else _)) => destruct b
      | |- no_process_call (trace (match ?x with Some _ => _ | None => _ end)) =>
          destruct x
      end
    | solve [auto with quiet] ].

Lemma quiet_lookup_string_or (cfg : config) (name default : string) :
  no_process_call (trace (lookup_string_or cfg name default)).
Proof. unfold lookup_string_or. quiet. Qed.

Lemma quiet_lookup_bool_or (cfg : config) (name : string) (default : Z) :
  no_process_call (trace (lookup_bool_or cfg name default)).
Proof. unfold lookup_bool_or. quiet. Qed.

Lemma quiet_log_default_ports (ports : list Z) :
  forall n i, no_process_call (trace (log_default_ports n i ports)).
Proof. induction n as [| n IH]; intros i; cbn [log_default_ports]; quiet; try apply IH. Qed.

Lemma quiet_log_read_ports (ports : list Z) :
  forall n i, no_process_call (trace (log_read_ports n i ports)).
Proof. induction n as [| n IH]; intros i; cbn [log_read_ports]; quiet; try apply IH. Qed.

Lemma quiet_default_ports_loop (ports : list Z) :
  forall n i buf cnt, no_process_call (trace (default_ports_loop n i ports buf cnt)).
Proof.
  induction n as [| n IH]; intros i buf cnt; cbn [default_ports_loop]; quiet;
    try apply IH.
Qed.

Lemma quiet_config_ports_loop (s : setting) :
  forall n i buf cnt, no_process_call (trace (config_ports_loop s n i buf cnt)).
Proof.
  induction n as [| n IH]; intros i buf cnt; cbn [config_ports_loop]; quiet;
    try apply IH.
Qed.

#[local] Hint Resolve quiet_lookup_string_or quiet_lookup_bool_or quiet_log_default_ports
  quiet_log_read_ports quiet_default_ports_loop quiet_config_ports_loop : quiet.

Lemma quiet_parse_tcp_relay_ports_config (cfg : config) (old : ptr (list Z)) :
  no_process_call (trace (parse_tcp_relay_ports_config cfg old)).
Proof. unfold parse_tcp_relay_ports_config. quiet. Qed.

#[local] Hint Resolve quiet_parse_tcp_relay_ports_config : quiet.

Lemma quiet_get_general_config (D : string) (M : nat) (parsed : parse_error + config)
      (o : general_config) :
  no_process_call (trace (get_general_config D M parsed o)).
Proof.
  unfold get_general_config. destruct parsed as [[[file line] text] | cfg]; quiet.
Qed.

Lemma quiet_entries_report (PK : nat) (hex : string -> list Byte.byte) (hton : Z -> Z)
      (resolve : string -> Z -> Z -> list Byte.byte -> Z) (v6 : Z) :
  forall nodes i, no_process_call (entries_report PK hex hton resolve i nodes v6).
Proof.
  induction nodes as [| node rest IH]; intros i; cbn [entries_report];
    [constructor |].
  apply no_process_call_app; [| apply IH].
  destruct (entry_report_shape PK hex hton resolve i node v6)
    as [(l & f & a & H) | (ad & p & k & l & f & a & H & _)];
    cbn zeta in H; rewrite H; repeat constructor.
Qed.

Lemma quiet_bootstrap_from_config (PK : nat) (hex : string -> list Byte.byte)
      (hton : Z -> Z) (resolve : string -> Z -> Z -> list Byte.byte -> Z)
      (parsed : parse_error + config) (v6 : Z) :
  no_process_call (trace (bootstrap_from_config PK hex hton resolve parsed v6)).
Proof.
  destruct (bootstrap_from_config_trace PK hex hton resolve parsed v6)
    as [(l & f & a & H) | (cfg & _ & _ & H)]; cbn zeta in H; rewrite H.
  - repeat constructor.
  - apply quiet_entries_report.
Qed.

#[local] Hint Resolve quiet_get_general_config quiet_bootstrap_from_config : quiet.

Lemma trace_bindo {A B} (m : W (outcome A)) (f : A -> W (outcome B)) :
  trace (bindo m f)
  = trace m ++ match value m with Continue a => trace (f a) | _ => [] end.
Proof. unfold bindo. rewrite trace_bind. destruct (value m); reflexivity. Qed.

Lemma value_bindo {A B} (m : W (outcome A)) (f : A -> W (outcome B)) :
  value (bindo m f)
  = match value m with
    | Continue a => value (f a)
    | Return code => Return code
    | NoFuel => NoFuel
    end.
Proof. unfold bindo. rewrite value_bind. destruct (value m); reflexivity. Qed.

(** A stage that only logs or calls the engine, and goes on or fails, can
    be put in front of a run that forks after startup. *)
Lemma forks_after_startup_bindo {A B} (m : W (outcome A)) (f : A -> W (outcome B)) :
  no_process_call (trace m) ->
  goes_on_or_fails m ->
  (forall a, forks_after_startup (f a)) ->
  forks_after_startup (bindo m f).
Proof.
  intros Hq Hg Hf. unfold forks_after_startup.
  rewrite trace_bindo, value_bindo. unfold goes_on_or_fails in Hg.
  destruct (value m) as [a | code |]; [| | destruct Hg].
  - destruct (Hf a) as (before & after & Ht & Hb & Ha).
    exists (trace m ++ before), after. rewrite Ht, app_assoc.
    split; [reflexivity |]. split; [apply no_process_call_app; assumption | exact Ha].
  - subst code. exists (trace m), []. split; [reflexivity |].
    split; [exact Hq | left; split; reflexivity].
Qed.

Lemma forks_after_startup_bind {A B} (m : W A) (f : A -> W (outcome B)) :
  no_process_call (trace m) ->
  (forall a, forks_after_startup (f a)) ->
  forks_after_startup (bind m f).
Proof.
  intros Hq Hf. unfold forks_after_startup. rewrite trace_bind, value_bind.
  destruct (Hf (value m)) as (before & after & Ht & Hb & Ha).
  exists (trace m ++ before), after. rewrite Ht, app_assoc.
  split; [reflexivity |]. split; [apply no_process_call_app; assumption | exact Ha].
Qed.

Lemma count_fork_of_process_call (t : list event) :
  count is_process_call t = 0%nat -> count is_fork t = 0%nat.
Proof.
  unfold count. induction t as [| e t IH]; [reflexivity |].
  cbn [filter]. destruct e; cbn [is_process_call is_fork List.length];
    try discriminate; exact IH.
Qed.

Lemma main_daemonize_trace (env : environment) (path : string) (backend : LOG_BACKEND) :
  pidf_fopen env = true ->
  exists rest, trace (main_daemonize env path backend) = Fork :: rest
               /\ count is_fork rest = 0%nat.
Proof.
  intros Hopen. unfold main_daemonize. rewrite Hopen. cbn [negb].
  destruct (fork env >? 0); [eexists; split; reflexivity |].
  destruct (fork env <? 0); [eexists; split; reflexivity |].
  destruct (setsid env <? 0); [eexists; split; reflexivity |].
  destruct (chdir env <? 0); [eexists; split; reflexivity |].
  destruct backend; eexists; split; reflexivity.
Qed.

(** The daemonization stage and the loop behind it. *)
Lemma forks_after_startup_daemonize (I : Z) (env : environment) (path : string)
      (backend : LOG_BACKEND) (lan tcp hport : Z) (n : nat) :
  forks_after_startup
    (bindo (main_daemonize env path backend)
           (fun _ => bind (loop_init lan)
                          (fun st => bind (main_loop I env lan tcp hport n 0 st)
                                          (fun st' => ret (Continue st'))))).
Proof.
  unfold forks_after_startup. rewrite trace_bindo, value_bindo.
  assert (Hloop : count is_fork
                    (trace (bind (loop_init lan)
                                 (fun st => bind (main_loop I env lan tcp hport n 0 st)
                                                 (fun st' => ret (Continue st')))))
                  = 0%nat).
  { rewrite !trace_bind, !count_app.
    rewrite (count_fork_of_process_call _
               (main_loop_no_process_call I env lan tcp hport n 0
                                          (value (loop_init lan)))).
    unfold loop_init. destruct (negb (lan =? 0)); reflexivity. }
  destruct (pidf_fopen env) eqn:Hopen.
  - destruct (main_daemonize_trace env path backend Hopen) as (rest & Ht & Hc).
    rewrite Ht. exists []. eexists. split; [reflexivity |].
    split; [constructor |]. right. eexists. split; [reflexivity |].
    rewrite count_app, Hc.
    destruct (value (main_daemonize env path backend)); [exact Hloop | reflexivity ..].
  - unfold main_daemonize. rewrite Hopen. cbn [negb]. w_simpl.
    eexists _, []. rewrite app_nil_r. split; [reflexivity |].
    split; [repeat constructor | left; split; reflexivity].
Qed.

Lemma quiet_main_config (D : string) (M : nat) (env : environment) (path : string)
      (locals : general_config) :
  no_process_call (trace (main_config D M env path locals)).
Proof. unfold main_config. quiet. Qed.

Lemma quiet_main_pid_file_check (env : environment) (path : string) :
  no_process_call (trace (main_pid_file_check env path)).
Proof. unfold main_pid_file_check. quiet. Qed.

(** What the check of the PID file does when the file is there: a warning,
    and the stream it opened is closed again, long before the fork. *)
Lemma main_pid_file_check_trace (env : environment) (path : string) :
  trace (main_pid_file_check env path)
  = match files env path with
    | Some _ =>
        [Log LOG_LEVEL_WARNING
             "Another instance of the daemon is already running, PID file %s exists.\n"
             [AStr path];
         FclosePidFile]
    | None => []
    end.
Proof.
  unfold main_pid_file_check. destruct (files env path); reflexivity.
Qed.

Lemma quiet_main_networking (env : environment) (v6 fb p : Z) :
  no_process_call (trace (main_networking env v6 fb p)).
Proof. unfold main_networking. quiet. Qed.

Lemma quiet_main_engine (env : environment) : no_process_call (trace (main_engine env)).
Proof. unfold main_engine. quiet. Qed.

Lemma quiet_main_motd (env : environment) (e : Z) (m : ptr (list ascii)) :
  no_process_call (trace (main_motd env e m)).
Proof. unfold main_motd. quiet. Qed.

Lemma quiet_main_keys (PK SK : nat) (env : environment) (dht : DHT) (path : string) :
  no_process_call (trace (main_keys PK SK env dht path)).
Proof.
  unfold main_keys.
  destruct (manage_keys PK SK (keys_env env) (files env) dht path) as [[r fs'] d].
  quiet.
Qed.

Lemma quiet_main_tcp_relay (env : environment) (c : general_config) (v6 : Z) (dht : DHT) :
  no_process_call (trace (main_tcp_relay env c v6 dht)).
Proof. unfold main_tcp_relay. quiet. Qed.

Lemma quiet_main_bootstrap (PK : nat) (env : environment) (path : string) (v6 : Z) :
  no_process_call (trace (main_bootstrap PK env path v6)).
Proof. unfold main_bootstrap. quiet. Qed.

(** X16. In every run of [main], [fork] is called at most once, and none
    of the calls of the daemonization (lines 769-805: [fprintf] and
    [fclose] on [pidf], [umask], [setsid], [chdir], [close] of a standard
    descriptor) comes before it: either the trace holds none of these calls
    and [main] returns 1, or the first of them is the one and only [fork].
    Streams that the start-up opens for itself are closed before the fork;
    the [fclose] of the PID file check (line 668) is such a call and is
    not among the calls counted here. *)
Theorem main_forks_after_startup (D : string) (M PK SK : nat) (I : Z)
        (env : environment) (path : string) (backend : LOG_BACKEND)
        (locals : general_config) (n : nat) :
  forks_after_startup (main D M PK SK I env path backend locals n).
Proof.
  unfold main.
  apply forks_after_startup_bindo;
    [apply quiet_main_config | apply main_config_goes_on | intros c].
  apply forks_after_startup_bind; [apply quiet_main_pid_file_check | intros _].
  apply forks_after_startup_bindo;
    [apply quiet_main_networking | apply main_networking_goes_on | intros v6].
  apply forks_after_startup_bindo;
    [apply quiet_main_engine | apply main_engine_goes_on | intros dht].
  apply forks_after_startup_bindo;
    [apply quiet_main_motd | apply main_motd_goes_on | intros _].
  apply forks_after_startup_bindo;
    [apply quiet_main_keys | apply main_keys_goes_on | intros dht'].
  apply forks_after_startup_bindo;
    [apply quiet_main_tcp_relay | apply main_tcp_relay_goes_on | intros _].
  apply forks_after_startup_bindo;
    [apply quiet_main_bootstrap | apply main_bootstrap_goes_on | intros _].
  apply forks_after_startup_bind;
    [unfold print_public_key; repeat constructor | intros _].
  apply forks_after_startup_daemonize.
Qed.

(* ----------------------------------------------------------------- *)
(** *** Stages of [main] and what [get_general_config] hands them *)

(** X17. A configured MOTD is copied, not checked: [*motd] holds its first
    [MAX_MOTD_LENGTH - 1] characters (all of them if they fit) and a NUL,
    and [main] hands this buffer to [bootstrap_set_callbacks] with its
    whole length, terminator included; the answer decides whether [main]
    goes on or returns 1. *)
Theorem configured_motd_handed_on (D : string) (M : nat) (cfg : config)
        (o : general_config) (s : string) (env : environment) :
  (1 <= M)%nat ->
  config_lookup_string cfg NAME_MOTD = Some s ->
  let c := snd (value (get_general_config D M (inr cfg) o)) in
  enable_motd c <> 0 ->
  let m := firstn (M - 1) (c_text (c_str s)) ++ [NUL] in
  motd c = Heap m
  /\ (List.length m <= M)%nat
  /\ value (main_motd env (enable_motd c) (motd c))
     = (if bootstrap_set_callbacks env m (List.length m) =? 0
        then Continue tt else Return 1).
Proof.
  intros HM Hs. cbn zeta. rewrite get_general_config_parsed. cbn [snd enable_motd motd].
  intros Hon. apply Z.eqb_neq in Hon. rewrite Hon. cbn [negb].
  unfold string_setting. rewrite Hs. rewrite (copy_motd_eq M s HM).
  set (t := firstn (M - 1) (c_text (c_str s))).
  assert (Ht : Forall (fun ch => ch <> NUL) t)
    by (apply Forall_firstn, c_text_no_nul).
  assert (Hlen : (List.length t <= M - 1)%nat)
    by (subst t; rewrite length_firstn; lia).
  split; [reflexivity |].
  split; [rewrite length_app; simpl; lia |].
  unfold main_motd. rewrite Hon. cbn [negb deref].
  replace (strlen (t ++ [NUL]) + 1)%nat with (List.length (t ++ [NUL]))
    by (unfold strlen; rewrite c_text_app_nul by assumption;
        rewrite length_app; reflexivity).
  destruct (bootstrap_set_callbacks env (t ++ [NUL]) (List.length (t ++ [NUL])) =? 0);
    reflexivity.
Qed.

Lemma configured_motd_handed_on_witness :
  motd (snd (value (get_general_config "tox-bootstrapd" 8 (inr cfg_motd) unset_locals)))
  = Heap (list_ascii_of_string "Welcome" ++ [NUL]).
Proof.
  destruct (configured_motd_handed_on "tox-bootstrapd" 8 cfg_motd unset_locals
              "Welcome to this node" quiet_env ltac:(lia) eq_refl
              ltac:(vm_compute; discriminate)) as (Hm & _).
  exact Hm.
Defined.

(** X18. [main] goes on from its network stage only with a network core
    that was created: either the first [new_networking] succeeded and the
    IPv6 setting stands, or it failed, both IPv6 and the IPv4 fallback were
    enabled, the second call (for IPv4) succeeded, and IPv6 counts as
    disabled from then on. *)
Theorem main_networking_goes_on_with (env : environment)
        (enable_ipv6 enable_ipv4_fallback port v6 : Z) :
  value (main_networking env enable_ipv6 enable_ipv4_fallback port) = Continue v6 ->
  (v6 = enable_ipv6 /\ new_networking env enable_ipv6 port = true)
  \/ (v6 = 0
      /\ new_networking env enable_ipv6 port = false
      /\ enable_ipv6 <> 0 /\ enable_ipv4_fallback <> 0
      /\ new_networking env 0 port = true).
Proof.
  unfold main_networking. rewrite value_bind.
  destruct (new_networking env enable_ipv6 port) eqn:E1.
  - cbn [value ret fst]. intros H. inversion H. left. split; reflexivity.
  - destruct (Z.eqb_spec enable_ipv6 0) as [E6 | E6]; cbn [negb andb];
      [w_simpl; discriminate |].
    destruct (Z.eqb_spec enable_ipv4_fallback 0) as [E4 | E4]; cbn [negb];
      [w_simpl; discriminate |].
    rewrite !value_bind.
    destruct (new_networking env 0 port) eqn:E2; [| w_simpl; discriminate].
    cbn [value ret fst]. intros H. inversion H. right. repeat split; assumption.
Qed.

Lemma main_networking_goes_on_with_witness :
  (0 = enable_ipv6 default_config
   /\ new_networking ipv4_only_env (enable_ipv6 default_config) (port default_config)
      = true)
  \/ (0 = 0
      /\ new_networking ipv4_only_env (enable_ipv6 default_config) (port default_config)
         = false
      /\ enable_ipv6 default_config <> 0 /\ enable_ipv4_fallback default_config <> 0
      /\ new_networking ipv4_only_env 0 (port default_config) = true).
Proof.
  apply (main_networking_goes_on_with ipv4_only_env (enable_ipv6 default_config)
           (enable_ipv4_fallback default_config) (port default_config) 0).
  reflexivity.
Defined.

(** X19. With the configuration [get_general_config] returned, [main]
    creates the TCP server only from an allocated array of at least one
    port, every port in [1, 65535], and with the number of ports in the
    array as the count; a relay that is enabled without any port makes
    [main] return 1 before [new_TCP_server] is asked. *)
Theorem tcp_server_gets_valid_ports (D : string) (M : nat) (cfg : config)
        (o : general_config) (env : environment) (v6 : Z) (dht : DHT) :
  let c := snd (value (get_general_config D M (inr cfg) o)) in
  enable_tcp_relay c <> 0 ->
  (tcp_relay_port_count c = 0 ->
   value (main_tcp_relay env c v6 dht) = Return 1)
  /\ (tcp_relay_port_count c <> 0 ->
      exists ports,
        tcp_relay_ports c = Heap ports
        /\ ports <> []
        /\ Forall (fun p => 1 <= p <= 65535) ports
        /\ value (main_tcp_relay env c v6 dht)
           = if new_TCP_server env v6 (Z.of_nat (List.length ports)) (Heap ports)
                               (self_secret_key dht)
             then Continue tt else Return 1).
Proof.
  cbn zeta. intros Hon.
  destruct (get_general_config_relay_ports D M cfg o) as (H0 & Hpos).
  cbn zeta in H0, Hpos.
  set (c := snd (value (get_general_config D M (inr cfg) o))) in *.
  apply Z.eqb_neq in Hon. unfold main_tcp_relay. rewrite Hon. cbn [negb]. split.
  - intros Hz. rewrite Hz. reflexivity.
  - intros Hnz. destruct (Hpos ltac:(lia)) as (_ & ports & Hp & Hl & Hr).
    exists ports. split; [exact Hp |].
    split; [intros E; subst ports; simpl in Hl; lia |].
    split; [exact Hr |].
    apply Z.eqb_neq in Hnz. rewrite Hnz, Hp, Hl.
    destruct (new_TCP_server env v6 (tcp_relay_port_count c) (Heap ports)
                             (self_secret_key dht)); reflexivity.
Qed.

Lemma tcp_server_gets_valid_ports_witness :
  exists ports,
    tcp_relay_ports default_config = Heap ports
    /\ ports <> []
    /\ Forall (fun p => 1 <= p <= 65535) ports
    /\ value (main_tcp_relay quiet_env default_config 1 fresh_dht)
       = if new_TCP_server quiet_env 1 (Z.of_nat (List.length ports)) (Heap ports)
                           (self_secret_key fresh_dht)
         then Continue tt else Return 1.
Proof.
  destruct (tcp_server_gets_valid_ports "tox-bootstrapd" 256 cfg_empty unset_locals
              quiet_env 1 fresh_dht ltac:(vm_compute; discriminate)) as [_ H].
  apply H. vm_compute. discriminate.
Defined.

(** X20. When the file holds none of the general settings (an empty file,
    or one that only lists bootstrap nodes), [get_general_config] succeeds
    with the defaults: port 33445, the default paths, every switch on, the
    relay ports 443, 3389 and 33445, and the daemon's name as MOTD. *)
Theorem defaults_without_settings (D : string) (M : nat) (cfg : config)
        (o : general_config) :
  (forall name, In name general_setting_names -> config_lookup cfg name = None) ->
  value (get_general_config D M (inr cfg) o) = (1, default_general_config D M).
Proof.
  intros Hnone.
  assert (Hb : forall name d, In name general_setting_names ->
                              bool_setting cfg name d = d)
    by (intros name d Hin; unfold bool_setting, config_lookup_bool;
        rewrite (Hnone name Hin); reflexivity).
  assert (Hs : forall name d, In name general_setting_names ->
                              string_setting cfg name d = d)
    by (intros name d Hin; unfold string_setting, config_lookup_string;
        rewrite (Hnone name Hin); reflexivity).
  assert (Hi : int_setting cfg NAME_PORT DEFAULT_PORT = DEFAULT_PORT)
    by (unfold int_setting, config_lookup_int;
        rewrite (Hnone NAME_PORT) by (cbn; tauto); reflexivity).
  assert (Hp : value (parse_tcp_relay_ports_config cfg (tcp_relay_ports o))
               = (Heap DEFAULT_TCP_RELAY_PORTS, Z.of_nat DEFAULT_TCP_RELAY_PORTS_COUNT))
    by (unfold parse_tcp_relay_ports_config;
        rewrite (Hnone NAME_TCP_RELAY_PORTS) by (cbn; tauto); reflexivity).
  rewrite get_general_config_parsed. cbn zeta.
  rewrite Hi, Hp, !Hb, !Hs by (cbn; tauto).
  reflexivity.
Qed.

Lemma defaults_without_settings_witness :
  value (get_general_config "tox-bootstrapd" 256 (inr cfg_only_nodes) unset_locals)
  = (1, default_general_config "tox-bootstrapd" 256).
Proof.
  apply (defaults_without_settings "tox-bootstrapd" 256 cfg_only_nodes unset_locals).
  intros name Hin. cbn in Hin.
  repeat (destruct Hin as [Hin | Hin]; [subst name; reflexivity |]).
  destruct Hin.
Defined.

(** The witnesses of the properties of the bootstrap list. *)
Lemma bootstrap_engine_calls_checked_witness :
  1 = 1
  /\ exists (port : Z) (key : string),
      33445 = port /\ 1 <= port <= 65535
      /\ ([] : list Byte.byte) = [] /\ strlen (c_str key) = (2 * 32)%nat.
Proof.
  apply (bootstrap_engine_calls_checked 32 (fun _ => []) (fun p => p)
           (fun _ _ _ _ => 1) (inr cfg_three_nodes) 1 "198.51.100.7" 1 33445 []).
  vm_compute. tauto.
Defined.

Lemma bootstrap_one_line_per_entry_witness :
  count is_log (trace (bootstrap_from_config 32 (fun _ => []) (fun p => p)
                                             (fun _ _ _ _ => 1)
                                             (inr cfg_three_nodes) 1))
  = 3%nat.
Proof.
  destruct (bootstrap_one_line_per_entry 32 (fun _ => []) (fun p => p)
              (fun _ _ _ _ => 1) cfg_three_nodes 1 ltac:(discriminate)) as (H & _).
  exact H.
Defined.
